(** * kool-skool: the tenant provisioner and the session/tenant binder

    A shallow embedding of
      - [src/supabase/functions/create-tenant/index.ts] (the edge function
        [serve], module [Provisioner]) and
      - the [AuthProvider] of [src/scripts/setup-database.ts]
        ([fetchUserData], [signUp], [signIn], [signOut], [updateProfile],
        [switchTenant] and the auth-state handler, module [Binder]),
    over a model of the backend they talk to (module [Backend]), and of
    what stands around them:
      - [fetchData] of [useTenantQuery] and the utilities [createRecord],
        [updateRecord] and [deleteRecord] of [src/lib/hooks/useDatabase.ts]
        (module [Hooks]),
      - [onSubmit] of [src/app/(public)/sign-up.tsx], the caller of
        [signUp] (module [SignUpForm]), and
      - [percentageToLetterGrade] of [src/types/database.ts] (module
        [Grades]).

    Modelling conventions.
      - A JavaScript string is a [string]; one [ascii] stands for one code
        unit, and the helpers of module [JS] are exact on the code units
        below 256 that a [string] holds (Basic Latin and Latin-1
        Supplement).
      - A table is the list of its rows, in storage order.
      - A call of the backend client answers with a [reply]: the pair
        [{ data, error }] of the client library.  The library reports a
        failed call through [error]; the code's own [throw] statements are
        the only exceptions of the model.
      - Every call takes a [fault]: [Some msg] makes the call answer with the
        error [msg] and leave the backend untouched (fault injection), [None]
        lets the call through.
      - The React state of the provider is a record that every operation
        takes and returns; one operation runs to completion before the next
        one starts. *)

From Stdlib Require Import String Ascii List Bool NArith Arith Lia DecimalString.
From Stdlib Require QArith.
Import ListNotations.
Local Open Scope string_scope.
Local Open Scope list_scope.

(* ===================================================================== *)
(** ** JavaScript strings *)
(* ===================================================================== *)

Module JS.

(** [!!s] for a possibly missing string: [undefined] and [''] are falsy. *)
Definition truthy (s : option string) : bool :=
  match s with
  | Some (String _ _) => true
  | _ => false
  end.

(** The value of a string that a check has found present. *)
Definition str (s : option string) : string :=
  match s with
  | Some x => x
  | None => EmptyString
  end.

(** [!!o] for an object or nothing. *)
Definition is_some {A : Type} (o : option A) : bool :=
  match o with
  | Some _ => true
  | None => false
  end.

(** The code units that [toLowerCase] changes: [A] to [Z], and U+00C0 to
    U+00DE without the multiplication sign U+00D7. *)
Definition is_upper (c : ascii) : bool :=
  let n := nat_of_ascii c in
  (((65 <=? n) && (n <=? 90))
   || ((192 <=? n) && (n <=? 222) && negb (n =? 215)))%nat.

(** In both ranges the lower-case letter is 32 code units further on. *)
Definition lower_char (c : ascii) : ascii :=
  if is_upper c then ascii_of_nat (nat_of_ascii c + 32) else c.

(** [String.prototype.toLowerCase] *)
Fixpoint toLowerCase (s : string) : string :=
  match s with
  | EmptyString => EmptyString
  | String c s' => String (lower_char c) (toLowerCase s')
  end.

(** White space of [\s] and of [trim]: TAB, LF, VT, FF, CR, SP, NBSP. *)
Definition is_space (c : ascii) : bool :=
  let n := nat_of_ascii c in
  (((9 <=? n) && (n <=? 13)) || (n =? 32) || (n =? 160))%nat.

Fixpoint trimStart (s : string) : string :=
  match s with
  | EmptyString => EmptyString
  | String c s' => if is_space c then trimStart s' else s
  end.

Fixpoint trimEnd (s : string) : string :=
  match s with
  | EmptyString => EmptyString
  | String c s' =>
      match trimEnd s' with
      | EmptyString => if is_space c then EmptyString else String c EmptyString
      | t => String c t
      end
  end.

(** [String.prototype.trim] *)
Definition trim (s : string) : string := trimEnd (trimStart s).

(** A number in a template literal: its decimal digits. *)
Definition show (n : N) : string := NilZero.string_of_uint (N.to_uint n).

(** The character class [[^\s@]]. *)
Definition email_char (c : ascii) : bool :=
  negb (is_space c) && negb (c =? "@")%char.

(** Longest prefix of [[^\s@]] characters, and what follows it. *)
Fixpoint span_email_chars (s : string) : string * string :=
  match s with
  | EmptyString => (EmptyString, EmptyString)
  | String c s' =>
      if email_char c
      then let (a, rest) := span_email_chars s' in (String c a, rest)
      else (EmptyString, s)
  end.

Fixpoint all_email_chars (s : string) : bool :=
  match s with
  | EmptyString => true
  | String c s' => email_char c && all_email_chars s'
  end.

(** Some ["."] of [s] has a character after it. *)
Fixpoint dot_then_more (s : string) : bool :=
  match s with
  | EmptyString => false
  | String c s' =>
      ((c =? ".")%char && negb (s' =? EmptyString)) || dot_then_more s'
  end.

(** [/^[^\s@]+@[^\s@]+\.[^\s@]+$/.test(s)].  The first group cannot hold an
    ["@"], so it is the text before the first one; what follows that
    ["@"] must be made of class characters and have a ["."] strictly
    inside. *)
Definition emailRegex_test (s : string) : bool :=
  let (a, rest) := span_email_chars s in
  negb (a =? EmptyString) &&
  match rest with
  | String "@"%char (String _ d' as d) => all_email_chars d && dot_then_more d'
  | _ => false
  end.

(** The language of that regular expression, spelled out: [a@b.c] where
    [a], [b] and [c] are non-empty runs of [[^\s@]] characters. *)
Definition email_run (s : string) : Prop :=
  s <> EmptyString /\ all_email_chars s = true.

Definition matches_emailRegex (s : string) : Prop :=
  exists a b c,
    s = (a ++ "@" ++ b ++ "." ++ c)%string
    /\ email_run a /\ email_run b /\ email_run c.

End JS.

(* ===================================================================== *)
(** ** The rows of [src/types/database.ts] *)
(* ===================================================================== *)

Inductive UserRole := teacher | parent | admin.
Inductive SubscriptionTier := free | basic | premium.
Inductive SubscriptionStatus := active | inactive | suspended.
Inductive RelationshipType := mother | father | guardian | sibling | other.

Definition UserRole_eqb (a b : UserRole) : bool :=
  match a, b with
  | teacher, teacher | parent, parent | admin, admin => true
  | _, _ => false
  end.

Definition SubscriptionStatus_eqb (a b : SubscriptionStatus) : bool :=
  match a, b with
  | active, active | inactive, inactive | suspended, suspended => true
  | _, _ => false
  end.

(** [School]; the two JSON columns [theme_colors] and [settings], which no
    modelled code reads or writes, are left out. *)
Module School.
Record t := mk {
  id : string;
  name : string;
  address : option string;
  phone : option string;
  email : option string;
  logo_url : option string;
  subscription_tier : SubscriptionTier;
  subscription_status : SubscriptionStatus;
  max_students : option N;
  max_teachers : option N;
  created_at : string;
  updated_at : option string
}.
End School.

Module Profile.
Record t := mk {
  id : string;
  tenant_id : string;
  email : string;
  role : UserRole;
  first_name : option string;
  last_name : option string;
  phone : option string;
  avatar_url : option string;
  is_active : bool;
  last_login : option string;
  created_at : string;
  updated_at : option string
}.
End Profile.

(** The custom claims ([user_metadata]) of an identity. *)
Module Claims.
Record t := mk {
  tenant_id : option string;
  role : option UserRole;
  first_name : option string;
  last_name : option string
}.
End Claims.

(** An identity of the auth provider. *)
Module AuthUser.
Record t := mk {
  id : string;
  email : string;
  password : string;
  user_metadata : Claims.t;
  email_confirm : bool
}.
End AuthUser.

Module AcademicTerm.
Record t := mk {
  tenant_id : string;
  name : string;
  start_date : string;
  end_date : string;
  is_current : bool;
  academic_year : string
}.
End AcademicTerm.

Module Teacher.
Record t := mk { tenant_id : string; profile_id : string }.
End Teacher.

Module Parent.
Record t := mk {
  tenant_id : string;
  profile_id : string;
  relationship_type : RelationshipType;
  emergency_contact : bool;
  can_pickup : bool
}.
End Parent.


(* ===================================================================== *)
(** ** The backend: tables, identities and the client's calls *)
(* ===================================================================== *)

Module Backend.

(** An injected failure: the message the call answers with. *)
Definition fault := option string.

(** The [{ data, error }] pair every client call resolves to. *)
Record reply (A : Type) := mkReply { data : option A; error : option string }.
Arguments mkReply {A} _ _.
Arguments data {A} _.
Arguments error {A} _.

Definition ok {A : Type} (a : A) : reply A := mkReply (Some a) None.
Definition failed {A : Type} (msg : string) : reply A := mkReply None (Some msg).
(** A write that was not asked to return its rows. *)
Definition written : reply unit := mkReply None None.

(** [LIKE]: ["%"] stands for any text, ["_"] for any one character and a
    backslash takes the next pattern character literally.  A pattern that
    ends in a lone backslash matches nothing. *)
Fixpoint like (p : string) : string -> bool :=
  match p with
  | EmptyString => fun s => (s =? EmptyString)
  | String c p' =>
      if (c =? "%")%char then
        fix any (s : string) : bool :=
          like p' s || match s with
                       | EmptyString => false
                       | String _ s' => any s'
                       end
      else if (c =? "_")%char then
        fun s => match s with
                 | EmptyString => false
                 | String _ s' => like p' s'
                 end
      else if (c =? "\")%char then
        match p' with
        | EmptyString => fun _ => false
        | String d p'' =>
            fun s => match s with
                     | EmptyString => false
                     | String e s' => (d =? e)%char && like p'' s'
                     end
        end
      else
        fun s => match s with
                 | EmptyString => false
                 | String e s' => (c =? e)%char && like p' s'
                 end
  end.

(** The REST layer of the backend reads every ["*"] of the pattern of a
    [like] or [ilike] filter as ["%"]. *)
Fixpoint stars (pattern : string) : string :=
  match pattern with
  | EmptyString => EmptyString
  | String c rest =>
      String (if (c =? "*")%char then "%"%char else c) (stars rest)
  end.

(** [.ilike(column, pattern)]: the pattern goes through the REST layer, then
    [ILIKE], which is [LIKE] without regard to case. *)
Definition ilike (value pattern : string) : bool :=
  like (JS.toLowerCase (stars pattern)) (JS.toLowerCase value).

Record t := mk {
  schools : list School.t;
  users : list AuthUser.t;
  profiles : list Profile.t;
  academic_terms : list AcademicTerm.t;
  teachers : list Teacher.t;
  parents : list Parent.t
}.

Definition with_schools (l : list School.t) (be : t) : t :=
  mk l (users be) (profiles be) (academic_terms be) (teachers be) (parents be).
Definition with_users (l : list AuthUser.t) (be : t) : t :=
  mk (schools be) l (profiles be) (academic_terms be) (teachers be) (parents be).
Definition with_profiles (l : list Profile.t) (be : t) : t :=
  mk (schools be) (users be) l (academic_terms be) (teachers be) (parents be).
Definition with_academic_terms (l : list AcademicTerm.t) (be : t) : t :=
  mk (schools be) (users be) (profiles be) l (teachers be) (parents be).
Definition with_teachers (l : list Teacher.t) (be : t) : t :=
  mk (schools be) (users be) (profiles be) (academic_terms be) l (parents be).
Definition with_parents (l : list Parent.t) (be : t) : t :=
  mk (schools be) (users be) (profiles be) (academic_terms be) (teachers be) l.

(** Every identity is stored with its e-mail in lower case, the form in
    which this code hands an e-mail to the identity provider. *)
Definition emails_lower_cased (be : t) : bool :=
  forallb (fun u => JS.toLowerCase (AuthUser.email u) =? AuthUser.email u)
    (users be).

(** The error of [.single()] when the filter keeps no row or several. *)
Definition no_single_row : string :=
  "JSON object requested, multiple (or no) rows returned".

(** [.single()] *)
Definition single {A : Type} (rows : list A) : reply A :=
  match rows with
  | [r] => ok r
  | _ => failed no_single_row
  end.

(** [from(table).select('*')] with its [.eq]/[.ilike] filters, then
    [.single()]. *)
Definition select_single {A : Type} (ft : fault) (keep : A -> bool)
    (rows : list A) : reply A :=
  match ft with
  | Some msg => failed msg
  | None => single (filter keep rows)
  end.

(** A write: refused as a whole when faulted. *)
Definition write (ft : fault) (change : t -> t) (be : t) : reply unit * t :=
  match ft with
  | Some msg => (failed msg, be)
  | None => (written, change be)
  end.

(** The size of a page of the identity provider's listing when the caller
    names none. *)
Definition perPage : nat := 50.

(** The first page of the listing: the provider lists the newest identity
    first, and the table holds the identities oldest first. *)
Definition first_page (identities : list AuthUser.t) : list AuthUser.t :=
  firstn perPage (rev identities).

(** [auth.admin.listUsers()], called without a page: the answer holds the
    first page of the listing and no more. *)
Definition listUsers (ft : fault) (be : t) : reply (list AuthUser.t) * t :=
  match ft with
  | Some msg => (failed msg, be)
  | None => (ok (first_page (users be)), be)
  end.

(** [from('schools').select('id').ilike('name', pattern).single()] *)
Definition selectSchoolByName (ft : fault) (pattern : string) (be : t)
    : reply School.t * t :=
  (select_single ft (fun s => ilike (School.name s) pattern) (schools be), be).

(** [from('schools').insert(row).select().single()] *)
Definition insertSchool (ft : fault) (row : School.t) (be : t)
    : reply School.t * t :=
  match ft with
  | Some msg => (failed msg, be)
  | None => (ok row, with_schools (schools be ++ [row]) be)
  end.

(** [auth.admin.createUser(...)] *)
Definition createUser (ft : fault) (u : AuthUser.t) (be : t)
    : reply AuthUser.t * t :=
  match ft with
  | Some msg => (failed msg, be)
  | None => (ok u, with_users (users be ++ [u]) be)
  end.

(** [from('profiles').insert(row)] *)
Definition insertProfile (ft : fault) (row : Profile.t) (be : t)
    : reply unit * t :=
  write ft (fun b => with_profiles (profiles b ++ [row]) b) be.

(** [from('academic_terms').insert(row)] *)
Definition insertTerm (ft : fault) (row : AcademicTerm.t) (be : t)
    : reply unit * t :=
  write ft (fun b => with_academic_terms (academic_terms b ++ [row]) b) be.

(** [from('teachers').insert(row)] *)
Definition insertTeacher (ft : fault) (row : Teacher.t) (be : t)
    : reply unit * t :=
  write ft (fun b => with_teachers (teachers b ++ [row]) b) be.

(** [from('parents').insert(row)] *)
Definition insertParent (ft : fault) (row : Parent.t) (be : t)
    : reply unit * t :=
  write ft (fun b => with_parents (parents b ++ [row]) b) be.

(** [from('schools').delete().eq('id', id)] *)
Definition deleteSchool (ft : fault) (id : string) (be : t) : reply unit * t :=
  write ft
    (fun b => with_schools
                (filter (fun s => negb (School.id s =? id)) (schools b)) b)
    be.

(** [auth.admin.deleteUser(id)] *)
Definition deleteUser (ft : fault) (id : string) (be : t) : reply unit * t :=
  write ft
    (fun b => with_users
                (filter (fun u => negb (AuthUser.id u =? id)) (users b)) b)
    be.

(** [from('profiles').update(...)] with its [.eq] filters: every row the
    filter keeps is changed, the others stay as they are. *)
Definition updateProfiles (ft : fault) (keep : Profile.t -> bool)
    (change : Profile.t -> Profile.t) (be : t) : reply unit * t :=
  write ft
    (fun b => with_profiles
                (map (fun p => if keep p then change p else p) (profiles b)) b)
    be.

Definition set_claims (tenant : string) (role : UserRole) (u : AuthUser.t)
    : AuthUser.t :=
  AuthUser.mk (AuthUser.id u) (AuthUser.email u) (AuthUser.password u)
    (Claims.mk (Some tenant) (Some role)
       (Claims.first_name (AuthUser.user_metadata u))
       (Claims.last_name (AuthUser.user_metadata u)))
    (AuthUser.email_confirm u).

(** [auth.updateUser({ data: { tenant_id, role } })] for the identity [id]
    of the live session: the two claims are merged into its metadata. *)
Definition updateUser (ft : fault) (id tenant : string) (role : UserRole)
    (be : t) : reply unit * t :=
  write ft
    (fun b => with_users
                (map (fun u => if AuthUser.id u =? id
                               then set_claims tenant role u else u)
                   (users b)) b)
    be.

End Backend.


(* ===================================================================== *)
(** ** The tenant provisioner: [create-tenant/index.ts] *)
(* ===================================================================== *)

Module Provisioner.

Import JS Backend.

Module CreateTenantRequest.
Record t := mk {
  email : option string;
  password : option string;
  schoolName : option string;
  schoolAddress : option string;
  schoolPhone : option string;
  schoolEmail : option string;
  adminFirstName : option string;
  adminLastName : option string;
  subscriptionTier : option SubscriptionTier
}.
End CreateTenantRequest.

Record CreateTenantResponse := mkBody {
  success : bool;
  tenantId : option string;
  userId : option string;
  error : option string
}.

Inductive Body :=
| Text (s : string)
| Json (r : CreateTenantResponse).

(** A [Response]; its headers are the constant CORS headers and are left
    out. *)
Record Response := mkResponse { status : nat; body : Body }.

(** What [req.json()] resolves to: the parsed body, or the error it rejects
    with. *)
Inductive Parsed :=
| Malformed (msg : string)
| Parsed_ (r : CreateTenantRequest.t).

Record Request := mkRequest { method : string; json : Parsed }.

(** What the handler takes from its surroundings: the calendar year of
    [new Date()], and what the database and the identity provider generate
    for a new row. *)
Record Env := mkEnv {
  currentYear : N;
  new_school_id : string;
  new_user_id : string;
  now : string
}.

(** One fault per call site of the handler. *)
Record Faults := mkFaults {
  f_listUsers : fault;          (* line 103 *)
  f_lookupSchool : fault;       (* line 120 *)
  f_insertSchool : fault;       (* step 1, line 145 *)
  f_createUser : fault;         (* step 2, line 168 *)
  f_insertProfile : fault;      (* step 3, line 190 *)
  f_insertTerm : fault;         (* step 4, line 214 *)
  f_cleanup2_school : fault;    (* line 183 *)
  f_cleanup3_user : fault;      (* line 205 *)
  f_cleanup3_school : fault;    (* line 206 *)
  f_catch_user : fault;         (* line 251 *)
  f_catch_school : fault        (* line 259 *)
}.

(** The calls the handler makes, as they reach the backend. *)
Inductive Call :=
| ListUsers
| SelectSchool (pattern : string)
| InsertSchool (id : string)
| CreateUser (id : string)
| InsertProfile (id : string)
| InsertTerm (tenant : string)
| DeleteUser (id : string)
| DeleteSchool (id : string).

(** The backend and the calls made so far, oldest first. *)
Record World := mkWorld { db : Backend.t; trace : list Call }.

Definition run {A : Type} (c : Call) (op : Backend.t -> A * Backend.t)
    (w : World) : A * World :=
  let (a, be) := op (db w) in (a, mkWorld be (trace w ++ [c])).

(** The [let tenantId, userId] of the handler. *)
Record Locals := mkLocals { l_tenantId : option string; l_userId : option string }.

(** How the inner [try] block ends. *)
Inductive Completion :=
| Returned (r : Response)
| Thrown (msg : string).

Definition respond (code : nat) (b : CreateTenantResponse) : Response :=
  mkResponse code (Json b).

Definition failure (msg : string) : CreateTenantResponse :=
  mkBody false None None (Some msg).

Definition schoolRow (env : Env) (r : CreateTenantRequest.t) : School.t :=
  School.mk
    (new_school_id env)
    (JS.trim (str (CreateTenantRequest.schoolName r)))
    (option_map JS.trim (CreateTenantRequest.schoolAddress r))
    (option_map JS.trim (CreateTenantRequest.schoolPhone r))
    (option_map (fun s => JS.trim (JS.toLowerCase s))
       (CreateTenantRequest.schoolEmail r))
    None
    (match CreateTenantRequest.subscriptionTier r with
     | Some tier => tier
     | None => free
     end)
    active
    (Some 500%N)
    (Some 50%N)
    (now env)
    None.

Definition adminUser (env : Env) (r : CreateTenantRequest.t)
    (tenant : string) : AuthUser.t :=
  AuthUser.mk
    (new_user_id env)
    (JS.toLowerCase (str (CreateTenantRequest.email r)))
    (str (CreateTenantRequest.password r))
    (Claims.mk (Some tenant) (Some admin)
       (option_map JS.trim (CreateTenantRequest.adminFirstName r))
       (option_map JS.trim (CreateTenantRequest.adminLastName r)))
    true.

Definition adminProfile (env : Env) (r : CreateTenantRequest.t)
    (tenant user : string) : Profile.t :=
  Profile.mk
    user
    tenant
    (JS.toLowerCase (str (CreateTenantRequest.email r)))
    admin
    (option_map JS.trim (CreateTenantRequest.adminFirstName r))
    (option_map JS.trim (CreateTenantRequest.adminLastName r))
    None
    None
    true
    None
    (now env)
    None.

Definition defaultTerm (env : Env) (tenant : string) : AcademicTerm.t :=
  let y := currentYear env in
  AcademicTerm.mk
    tenant
    ("Fall " ++ JS.show y)
    (JS.show y ++ "-09-01")
    (JS.show (y + 1) ++ "-06-30")
    true
    (JS.show y ++ "-" ++ JS.show (y + 1)).

(** Lines 143-243: the four steps, inside the inner [try]. *)
Definition transaction (env : Env) (f : Faults) (r : CreateTenantRequest.t)
    (w : World) : Completion * Locals * World :=
  (* Step 1: create the school (tenant) *)
  let (school, w) :=
    run (InsertSchool (new_school_id env))
        (insertSchool (f_insertSchool f) (schoolRow env r)) w in
  match Backend.error school, data school with
  | None, Some schoolData =>
      let tenantId := School.id schoolData in
      (* Step 2: create the admin user with tenant metadata *)
      let (user, w) :=
        run (CreateUser (new_user_id env))
            (createUser (f_createUser f) (adminUser env r tenantId)) w in
      match Backend.error user, data user with
      | None, Some userData =>
          let userId := AuthUser.id userData in
          (* Step 3: create the profile record *)
          let (profile, w) :=
            run (InsertProfile userId)
                (insertProfile (f_insertProfile f)
                   (adminProfile env r tenantId userId)) w in
          match Backend.error profile with
          | Some _ =>
              let (_, w) :=
                run (DeleteUser userId)
                    (deleteUser (f_cleanup3_user f) userId) w in
              let (_, w) :=
                run (DeleteSchool tenantId)
                    (deleteSchool (f_cleanup3_school f) tenantId) w in
              (Thrown "Failed to create admin profile",
               mkLocals (Some tenantId) (Some userId), w)
          | None =>
              (* Step 4: create the default academic term *)
              let (_, w) :=
                run (InsertTerm tenantId)
                    (insertTerm (f_insertTerm f) (defaultTerm env tenantId))
                    w in
              (Returned
                 (respond 201 (mkBody true (Some tenantId) (Some userId) None)),
               mkLocals (Some tenantId) (Some userId), w)
          end
      | _, _ =>
          let (_, w) :=
            run (DeleteSchool tenantId)
                (deleteSchool (f_cleanup2_school f) tenantId) w in
          (Thrown "Failed to create admin user",
           mkLocals (Some tenantId) None, w)
      end
  | _, _ => (Thrown "Failed to create school", mkLocals None None, w)
  end.

(** Lines 245-266: the [catch] of the inner [try], before it rethrows. *)
Definition cleanup (f : Faults) (loc : Locals) (w : World) : World :=
  let w :=
    if JS.truthy (l_userId loc)
    then snd (run (DeleteUser (str (l_userId loc)))
                  (deleteUser (f_catch_user f) (str (l_userId loc))) w)
    else w in
  if JS.truthy (l_tenantId loc)
  then snd (run (DeleteSchool (str (l_tenantId loc)))
                (deleteSchool (f_catch_school f) (str (l_tenantId loc))) w)
  else w.

(** The handler given to [serve]. *)
Definition serve (env : Env) (f : Faults) (req : Request) (w : World)
    : Response * World :=
  if method req =? "OPTIONS" then (mkResponse 200 (Text "ok"), w)
  else
    match json req with
    | Malformed msg => (respond 500 (failure msg), w)
    | Parsed_ r =>
        let email := CreateTenantRequest.email r in
        let password := CreateTenantRequest.password r in
        let schoolName := CreateTenantRequest.schoolName r in
        if negb (JS.truthy email) || negb (JS.truthy password)
           || negb (JS.truthy schoolName)
        then (respond 400
                (failure "Email, password, and school name are required"), w)
        else if negb (JS.emailRegex_test (str email))
        then (respond 400 (failure "Invalid email format"), w)
        else if (String.length (str password) <? 8)%nat
        then (respond 400
                (failure "Password must be at least 8 characters long"), w)
        else
          let (existingUser, w) := run ListUsers (listUsers (f_listUsers f)) w in
          let emailExists :=
            match data existingUser with
            | Some listed =>
                existsb
                  (fun u => AuthUser.email u =? JS.toLowerCase (str email))
                  listed
            | None => false
            end in
          if emailExists
          then (respond 409 (failure "Email address is already registered"), w)
          else
            let (existingSchool, w) :=
              run (SelectSchool (JS.trim (str schoolName)))
                  (selectSchoolByName (f_lookupSchool f)
                     (JS.trim (str schoolName))) w in
            if is_some (data existingSchool)
            then (respond 409
                    (failure "A school with this name already exists"), w)
            else
              match transaction env f r w with
              | (Returned resp, _, w) => (resp, w)
              | (Thrown msg, loc, w) =>
                  (* the inner catch cleans up and rethrows; the outer
                     catch answers *)
                  (respond 500 (failure msg), cleanup f loc w)
              end
    end.

(** *** Vocabulary of the statements *)

(** Precondition 1: e-mail, password and school name are present. *)
Definition precondition1 (r : CreateTenantRequest.t) : bool :=
  JS.truthy (CreateTenantRequest.email r)
  && JS.truthy (CreateTenantRequest.password r)
  && JS.truthy (CreateTenantRequest.schoolName r).

(** Precondition 2: the e-mail has the shape of an address. *)
Definition precondition2 (r : CreateTenantRequest.t) : bool :=
  JS.emailRegex_test (str (CreateTenantRequest.email r)).

(** Precondition 3: the password has eight characters or more. *)
Definition precondition3 (r : CreateTenantRequest.t) : bool :=
  (8 <=? String.length (str (CreateTenantRequest.password r)))%nat.

(** The comparison of line 104: an identity on the page that the listing
    answers with whose e-mail is the lower-cased e-mail of the request. *)
Definition email_registered (r : CreateTenantRequest.t) (be : Backend.t) : bool :=
  existsb
    (fun u => AuthUser.email u =? JS.toLowerCase (str (CreateTenantRequest.email r)))
    (first_page (users be)).




(** The lookup of line 120: exactly one school whose name matches the
    trimmed school name of the request as an [ILIKE] pattern. *)
Definition school_registered (r : CreateTenantRequest.t) (be : Backend.t) : bool :=
  is_some
    (data (single
             (filter
                (fun s => ilike (School.name s)
                            (JS.trim (str (CreateTenantRequest.schoolName r))))
                (schools be)))).

(** Neither uniqueness check stops the request: each one either finds
    nothing or is answered with an error, which the handler ignores. *)
Definition passes_uniqueness (f : Faults) (r : CreateTenantRequest.t)
    (be : Backend.t) : bool :=
  (is_some (f_listUsers f) || negb (email_registered r be))
  && (is_some (f_lookupSchool f) || negb (school_registered r be)).

(** The two reads of the uniqueness checks. *)
Definition the_reads (r : CreateTenantRequest.t) : list Call :=
  [ListUsers; SelectSchool (JS.trim (str (CreateTenantRequest.schoolName r)))].

(** Step 1 goes through and the identity provider refuses step 2. *)
Definition fails_at_step2 (f : Faults) : bool :=
  negb (is_some (f_insertSchool f)) && is_some (f_createUser f).

(** Steps 1 and 2 go through and the profile insertion of step 3 fails. *)
Definition fails_at_step3 (f : Faults) : bool :=
  negb (is_some (f_insertSchool f)) && negb (is_some (f_createUser f))
  && is_some (f_insertProfile f).

(** Steps 1 to 3 go through and the term insertion of step 4 fails. *)
Definition fails_at_step4 (f : Faults) : bool :=
  negb (is_some (f_insertSchool f)) && negb (is_some (f_createUser f))
  && negb (is_some (f_insertProfile f)) && is_some (f_insertTerm f).

(** One of the deletes that the handler issues for the school of this
    attempt goes through: the one next to the failed step, or the one of the
    catch block, which runs when the id is truthy. *)
Definition school_delete_lands (env : Env) (f : Faults) : bool :=
  negb (is_some (if is_some (f_createUser f)
                 then f_cleanup2_school f else f_cleanup3_school f))
  || (truthy (Some (new_school_id env)) && negb (is_some (f_catch_school f))).

(** Likewise for the identity of this attempt, when step 2 created one. *)
Definition user_delete_lands (env : Env) (f : Faults) : bool :=
  is_some (f_createUser f)
  || negb (is_some (f_cleanup3_user f))
  || (truthy (Some (new_user_id env)) && negb (is_some (f_catch_user f))).

(** The compensation is not itself defeated by a fault: for each thing to
    undo, one of the deletes issued for it is answered normally. *)
Definition compensation_lands (env : Env) (f : Faults) : bool :=
  school_delete_lands env f && user_delete_lands env f.

(** The steps that were completed when the saga failed, oldest first. *)
Definition completed_steps (env : Env) (f : Faults) : list Call :=
  InsertSchool (new_school_id env)
  :: (if is_some (f_createUser f) then [] else [CreateUser (new_user_id env)]).

(** The step the saga failed at. *)
Definition failed_step (env : Env) (f : Faults) : Call :=
  if is_some (f_createUser f)
  then CreateUser (new_user_id env)
  else InsertProfile (new_user_id env).

(** The call that undoes a completed step. *)
Definition undo (c : Call) : list Call :=
  match c with
  | InsertSchool id => [DeleteSchool id]
  | CreateUser id => [DeleteUser id]
  | _ => []
  end.

(** The compensation of a list of completed steps: their undoing calls,
    latest step first. *)
Definition compensation (steps : list Call) : list Call :=
  flat_map undo (rev steps).

(** The catch block repeats a delete when the id it holds is truthy. *)
Definition repeated (c : Call) : bool :=
  match c with
  | DeleteUser id | DeleteSchool id => negb (id =? EmptyString)
  | _ => false
  end.

Definition has_school (id : string) (be : Backend.t) : bool :=
  existsb (fun s => School.id s =? id) (schools be).

Definition has_user (id : string) (be : Backend.t) : bool :=
  existsb (fun u => AuthUser.id u =? id) (users be).

End Provisioner.


(* ===================================================================== *)
(** ** The session/tenant binder: the [AuthProvider] *)
(* ===================================================================== *)

Module Binder.

Import JS Backend.

(** The user of a session, as far as the provider reads it. *)
Module User.
Record t := mk { id : string; user_metadata : Claims.t }.
End User.

(** A session of the identity provider; its tokens are left out. *)
Module Session.
Record t := mk { user : User.t }.
End Session.

(** [Partial<Profile>] *)
Module ProfilePatch.
Record t := mk {
  id : option string;
  tenant_id : option string;
  email : option string;
  role : option UserRole;
  first_name : option string;
  last_name : option string;
  phone : option string;
  avatar_url : option string;
  is_active : option bool;
  last_login : option string;
  created_at : option string;
  updated_at : option string
}.
End ProfilePatch.

(** [Partial<School>], with the fields [signUp] reads. *)
Module SchoolPatch.
Record t := mk {
  name : option string;
  address : option string;
  phone : option string;
  email : option string;
  subscription_tier : option SubscriptionTier;
  subscription_status : option SubscriptionStatus;
  max_students : option N;
  max_teachers : option N
}.
End SchoolPatch.

(** The [useState] cells of the provider. *)
Record AuthState := mkState {
  initialized : bool;
  session : option Session.t;
  user : option Profile.t;
  school : option School.t;
  role : option UserRole;
  tenantId : option string;
  isLoading : bool
}.

Definition initial : AuthState :=
  mkState false None None None None None true.

Definition setInitialized (b : bool) (st : AuthState) : AuthState :=
  mkState b (session st) (user st) (school st) (role st) (tenantId st)
    (isLoading st).
Definition setSession (s : option Session.t) (st : AuthState) : AuthState :=
  mkState (initialized st) s (user st) (school st) (role st) (tenantId st)
    (isLoading st).
Definition setUser (p : option Profile.t) (st : AuthState) : AuthState :=
  mkState (initialized st) (session st) p (school st) (role st) (tenantId st)
    (isLoading st).
Definition setSchool (s : option School.t) (st : AuthState) : AuthState :=
  mkState (initialized st) (session st) (user st) s (role st) (tenantId st)
    (isLoading st).
Definition setRole (r : option UserRole) (st : AuthState) : AuthState :=
  mkState (initialized st) (session st) (user st) (school st) r (tenantId st)
    (isLoading st).
Definition setTenantId (t : option string) (st : AuthState) : AuthState :=
  mkState (initialized st) (session st) (user st) (school st) (role st) t
    (isLoading st).
Definition setIsLoading (b : bool) (st : AuthState) : AuthState :=
  mkState (initialized st) (session st) (user st) (school st) (role st)
    (tenantId st) b.

(** What the promise of an operation resolves to. *)
Record Result := mkResult {
  success : bool;
  error : option string;
  userId : option string
}.

Definition succeeded : Result := mkResult true None None.
Definition failed_with (msg : string) : Result := mkResult false (Some msg) None.

(** The [{ data: { user, session }, error }] of [auth.signUp] and
    [auth.signInWithPassword]. *)
Record AuthResponse := mkAuthResponse {
  a_user : option User.t;
  a_session : option Session.t;
  a_error : option string
}.

(** The faults of the three calls of [fetchUserData]. *)
Record FetchFaults := mkFetchFaults {
  f_profile : fault;        (* line 198 *)
  f_school : fault;         (* line 216 *)
  f_lastLogin : fault       (* line 240 *)
}.

(** What one operation takes from its surroundings: the clock, what the
    database generates for a new school, what the identity provider answers,
    and one fault per call site. *)
Record Env := mkEnv {
  now : string;
  new_school_id : string;
  signUp_reply : AuthResponse;
  signIn_reply : AuthResponse;
  f_fetch : FetchFaults;
  f_signOut : fault;            (* lines 426 and 549 *)
  f_insertSchool : fault;       (* line 274 *)
  f_insertProfile : fault;      (* line 330 *)
  f_insertTeacher : fault;      (* line 346 *)
  f_insertParent : fault;       (* line 363 *)
  f_updateProfile : fault;      (* line 455 *)
  f_switchProfile : fault;      (* line 483 *)
  f_updateUser : fault          (* line 495 *)
}.

Definition set_last_login (now : string) (p : Profile.t) : Profile.t :=
  Profile.mk (Profile.id p) (Profile.tenant_id p) (Profile.email p)
    (Profile.role p) (Profile.first_name p) (Profile.last_name p)
    (Profile.phone p) (Profile.avatar_url p) (Profile.is_active p)
    (Some now) (Profile.created_at p) (Profile.updated_at p).

(** The filter of line 201: [.eq('id', userId).eq('is_active', true)]. *)
Definition active_profile_of (userId : string) (p : Profile.t) : bool :=
  (Profile.id p =? userId) && Bool.eqb (Profile.is_active p) true.

(** The filter of line 219:
    [.eq('id', tenant).eq('subscription_status', 'active')]. *)
Definition active_school (tenant : string) (s : School.t) : bool :=
  (School.id s =? tenant)
  && SubscriptionStatus_eqb (School.subscription_status s) active.

(** The filter of lines 243-244 and 458-459:
    [.eq('id', id).eq('tenant_id', tenant)]. *)
Definition profile_in_tenant (id tenant : string) (p : Profile.t) : bool :=
  (Profile.id p =? id) && (Profile.tenant_id p =? tenant).

(** Lines 193-253: Bind. *)
Definition fetchUserData (fl : FetchFaults) (now : string) (userId : string)
    (st : AuthState) (be : Backend.t) : bool * AuthState * Backend.t :=
  let st := setIsLoading true st in
  let profile :=
    select_single (f_profile fl) (active_profile_of userId) (profiles be) in
  match Backend.error profile, data profile with
  | None, Some profileData =>
      let school :=
        select_single (f_school fl)
          (active_school (Profile.tenant_id profileData)) (schools be) in
      match Backend.error school, data school with
      | None, Some schoolData =>
          let st := setUser (Some profileData) st in
          let st := setSchool (Some schoolData) st in
          let st := setRole (Some (Profile.role profileData)) st in
          let st := setTenantId (Some (Profile.tenant_id profileData)) st in
          let (_, be) :=
            updateProfiles (f_lastLogin fl)
              (profile_in_tenant userId (Profile.tenant_id profileData))
              (set_last_login now) be in
          (true, setIsLoading false st, be)
      | _, _ => (false, setIsLoading false st, be)
      end
  | _, _ => (false, setIsLoading false st, be)
  end.

(** Lines 255-259. *)
Definition refreshUserData (env : Env) (st : AuthState) (be : Backend.t)
    : AuthState * Backend.t :=
  match session st with
  | Some s =>
      if JS.truthy (Some (User.id (Session.user s)))
      then
        let '(_, st, be) :=
          fetchUserData (f_fetch env) (now env) (User.id (Session.user s)) st be in
        (st, be)
      else (st, be)
  | None => (st, be)
  end.

Definition newSchool (env : Env) (d : SchoolPatch.t) (name : string) : School.t :=
  School.mk
    (new_school_id env)
    name
    (SchoolPatch.address d)
    (SchoolPatch.phone d)
    (SchoolPatch.email d)
    None
    (match SchoolPatch.subscription_tier d with
     | Some tier => tier
     | None => free
     end)
    (match SchoolPatch.subscription_status d with
     | Some status => status
     | None => active
     end)
    (match SchoolPatch.max_students d with
     | Some 0%N | None => Some 500%N
     | Some n => Some n
     end)
    (match SchoolPatch.max_teachers d with
     | Some 0%N | None => Some 50%N
     | Some n => Some n
     end)
    (now env)
    None.

(** The school that teacher and parent sign-ups are attached to. *)
Definition default_school_id : string := "a0eebc99-9c0b-4ef8-bb6d-6bb9bd380a11".

(** Lines 273-299: the tenant of a sign-up.  A school without a name is
    taken to be refused by the database. *)
Definition signUp_school (env : Env) (role : UserRole)
    (schoolData : option SchoolPatch.t) (be : Backend.t)
    : option string * Backend.t :=
  match schoolData, role with
  | Some d, admin =>
      match SchoolPatch.name d with
      | Some name =>
          let (newSchool, be) :=
            insertSchool (f_insertSchool env) (newSchool env d name) be in
          match Backend.error newSchool, data newSchool with
          | None, Some row => (Some (School.id row), be)
          | _, _ => (None, be)
          end
      | None => (None, be)
      end
  | _, _ => (Some default_school_id, be)
  end.

(** Lines 339-371: the role-specific record; its failure is only logged. *)
Definition signUp_extension (env : Env) (role : UserRole)
    (schoolId userId : string) (be : Backend.t) : Backend.t :=
  match role with
  | teacher =>
      snd (insertTeacher (f_insertTeacher env) (Teacher.mk schoolId userId) be)
  | parent =>
      snd (insertParent (f_insertParent env)
             (Parent.mk schoolId userId other false false) be)
  | admin => be
  end.

(** Lines 261-386. *)
Definition signUp (env : Env) (email password : string) (role : UserRole)
    (schoolData : option SchoolPatch.t) (st : AuthState) (be : Backend.t)
    : Result * AuthState * Backend.t :=
  let st := setIsLoading true st in
  match signUp_school env role schoolData be with
  | (None, be) => (failed_with "Failed to create school", setIsLoading false st, be)
  | (Some schoolId, be) =>
      let authData := signUp_reply env in
      match a_error authData, a_user authData with
      | Some msg, _ => (failed_with msg, setIsLoading false st, be)
      | None, None =>
          (failed_with "No user returned from signup", setIsLoading false st, be)
      | None, Some u =>
          (* the provider has recorded the identity with its claims *)
          let be :=
            with_users
              (users be
                 ++ [AuthUser.mk (User.id u) (JS.toLowerCase email) password
                       (Claims.mk (Some schoolId) (Some role) None None) false])
              be in
          let (profile, be) :=
            insertProfile (f_insertProfile env)
              (Profile.mk (User.id u) schoolId (JS.toLowerCase email) role
                 None None None None true None (now env) None) be in
          match Backend.error profile with
          | Some _ =>
              (failed_with "Failed to create user profile",
               setIsLoading false st, be)
          | None =>
              let be := signUp_extension env role schoolId (User.id u) be in
              match a_session authData with
              | Some s =>
                  let st := setSession (Some s) st in
                  let '(_, st, be) :=
                    fetchUserData (f_fetch env) (now env) (User.id u) st be in
                  (mkResult true None (Some (User.id u)),
                   setIsLoading false st, be)
              | None =>
                  (mkResult true None (Some (User.id u)),
                   setIsLoading false st, be)
              end
          end
      end
  end.

(** Lines 388-422. *)
Definition signIn (env : Env) (email password : string) (st : AuthState)
    (be : Backend.t) : Result * AuthState * Backend.t :=
  let st := setIsLoading true st in
  let reply := signIn_reply env in
  match a_error reply with
  | Some msg => (failed_with msg, setIsLoading false st, be)
  | None =>
      match a_session reply, a_user reply with
      | Some s, Some u =>
          let st := setSession (Some s) st in
          let '(ok, st, be) :=
            fetchUserData (f_fetch env) (now env) (User.id u) st be in
          if ok
          then (succeeded, setIsLoading false st, be)
          else (failed_with "Failed to load user data", setIsLoading false st, be)
      | _, _ =>
          (failed_with "No session returned from signin",
           setIsLoading false st, be)
      end
  end.

(** Lines 424-444.  The promise resolves to nothing and never rejects. *)
Definition signOut (env : Env) (st : AuthState) : AuthState :=
  match f_signOut env with
  | Some _ => st
  | None =>
      let st := setSession None st in
      let st := setUser None st in
      let st := setSchool None st in
      let st := setRole None st in
      setTenantId None st
  end.

Definition or_else {A : Type} (new : option A) (old : A) : A :=
  match new with
  | Some v => v
  | None => old
  end.

Definition or_keep {A : Type} (new old : option A) : option A :=
  match new with
  | Some v => Some v
  | None => old
  end.

(** What an update sets in a row: the fields the patch holds. *)
Definition apply_patch (u : ProfilePatch.t) (p : Profile.t) : Profile.t :=
  Profile.mk
    (or_else (ProfilePatch.id u) (Profile.id p))
    (or_else (ProfilePatch.tenant_id u) (Profile.tenant_id p))
    (or_else (ProfilePatch.email u) (Profile.email p))
    (or_else (ProfilePatch.role u) (Profile.role p))
    (or_keep (ProfilePatch.first_name u) (Profile.first_name p))
    (or_keep (ProfilePatch.last_name u) (Profile.last_name p))
    (or_keep (ProfilePatch.phone u) (Profile.phone p))
    (or_keep (ProfilePatch.avatar_url u) (Profile.avatar_url p))
    (or_else (ProfilePatch.is_active u) (Profile.is_active p))
    (or_keep (ProfilePatch.last_login u) (Profile.last_login p))
    (or_else (ProfilePatch.created_at u) (Profile.created_at p))
    (or_keep (ProfilePatch.updated_at u) (Profile.updated_at p)).

(** Line 453: [const { id, tenant_id, created_at, ...allowedUpdates } = updates]. *)
Definition allowedUpdates (u : ProfilePatch.t) : ProfilePatch.t :=
  ProfilePatch.mk None None
    (ProfilePatch.email u) (ProfilePatch.role u) (ProfilePatch.first_name u)
    (ProfilePatch.last_name u) (ProfilePatch.phone u)
    (ProfilePatch.avatar_url u) (ProfilePatch.is_active u)
    (ProfilePatch.last_login u) None (ProfilePatch.updated_at u).

(** Lines 446-474. *)
Definition updateProfile (env : Env) (updates : ProfilePatch.t)
    (st : AuthState) (be : Backend.t) : Result * AuthState * Backend.t :=
  match user st with
  | Some u =>
      if negb (JS.truthy (tenantId st))
      then (failed_with "No authenticated user", st, be)
      else
        let (reply, be) :=
          updateProfiles (f_updateProfile env)
            (profile_in_tenant (Profile.id u) (str (tenantId st)))
            (apply_patch (allowedUpdates updates)) be in
        match Backend.error reply with
        | Some msg => (failed_with msg, st, be)
        | None =>
            let (st, be) := refreshUserData env st be in
            (succeeded, st, be)
        end
  | None => (failed_with "No authenticated user", st, be)
  end.

(** Lines 476-518. *)
Definition switchTenant (env : Env) (newTenantId : string) (st : AuthState)
    (be : Backend.t) : Result * AuthState * Backend.t :=
  match session st with
  | None => (failed_with "No authenticated user", st, be)
  | Some s =>
      let uid := User.id (Session.user s) in
      let profile :=
        select_single (f_switchProfile env) (profile_in_tenant uid newTenantId)
          (profiles be) in
      match Backend.error profile, data profile with
      | None, Some profileData =>
          let (reply, be) :=
            updateUser (f_updateUser env) uid newTenantId
              (Profile.role profileData) be in
          match Backend.error reply with
          | Some msg => (failed_with msg, st, be)
          | None =>
              let '(ok, st, be) :=
                fetchUserData (f_fetch env) (now env) uid st be in
              if ok
              then (succeeded, st, be)
              else (failed_with "Failed to load tenant data", st, be)
          end
      | _, _ => (failed_with "Access denied to this tenant", st, be)
      end
  end.

(** Lines 522-529: the effect restores a persisted session. *)
Definition start (env : Env) (restored : option Session.t) (st : AuthState)
    (be : Backend.t) : AuthState * Backend.t :=
  let st := setSession restored st in
  let (st, be) :=
    match restored with
    | Some s =>
        let '(_, st, be) :=
          fetchUserData (f_fetch env) (now env) (User.id (Session.user s)) st be in
        (st, be)
    | None => (setIsLoading false st, be)
    end in
  (setInitialized true st, be).

(** Lines 534-563: the handler of [onAuthStateChange].  The result tells
    whether the handler asked the provider to sign out. *)
Definition onAuthStateChange (env : Env) (pushed : option Session.t)
    (st : AuthState) (be : Backend.t) : bool * AuthState * Backend.t :=
  let st := setSession pushed st in
  match pushed with
  | Some s =>
      let tenantFromJWT := Claims.tenant_id (User.user_metadata (Session.user s)) in
      let '(ok, st, be) :=
        fetchUserData (f_fetch env) (now env) (User.id (Session.user s)) st be in
      if JS.truthy tenantFromJWT
      then (negb ok, st, be)
      else (false, st, be)
  | None =>
      let st := setUser None st in
      let st := setSchool None st in
      let st := setRole None st in
      let st := setTenantId None st in
      (false, setIsLoading false st, be)
  end.

(** *** The binder as a transition system *)

Inductive Op :=
| Start (restored : option Session.t)
| AuthStateChange (pushed : option Session.t)
| SignUp (email password : string) (role : UserRole)
         (schoolData : option SchoolPatch.t)
| SignIn (email password : string)
| SignOut
| RefreshUserData
| UpdateProfile (updates : ProfilePatch.t)
| SwitchTenant (newTenantId : string).

(** One operation, run to completion: what its promise resolves to (nothing
    for the operations that resolve to [void]), the new state and the new
    backend. *)
Definition step (env : Env) (op : Op) (st : AuthState) (be : Backend.t)
    : option Result * AuthState * Backend.t :=
  match op with
  | Start restored =>
      let (st, be) := start env restored st be in (None, st, be)
  | AuthStateChange pushed =>
      let '(_, st, be) := onAuthStateChange env pushed st be in (None, st, be)
  | SignUp email password role schoolData =>
      let '(r, st, be) := signUp env email password role schoolData st be in
      (Some r, st, be)
  | SignIn email password =>
      let '(r, st, be) := signIn env email password st be in (Some r, st, be)
  | SignOut => (None, signOut env st, be)
  | RefreshUserData =>
      let (st, be) := refreshUserData env st be in (None, st, be)
  | UpdateProfile updates =>
      let '(r, st, be) := updateProfile env updates st be in (Some r, st, be)
  | SwitchTenant newTenantId =>
      let '(r, st, be) := switchTenant env newTenantId st be in (Some r, st, be)
  end.

(** The states the provider can be in: any run of operations from the
    initial state, each against whatever the backend then holds. *)
Inductive reachable : AuthState -> Prop :=
| reachable_initial : reachable initial
| reachable_step env op st be :
    reachable st -> reachable (snd (fst (step env op st be))).

(** *** Vocabulary of the statements *)

(** The four bound fields are unbound. *)
Definition cleared (st : AuthState) : Prop :=
  user st = None /\ school st = None /\ role st = None /\ tenantId st = None.

(** The Unauthenticated state: no session and no bound field. *)
Definition unauthenticated (st : AuthState) : Prop :=
  session st = None /\ cleared st.

(** The state that a successful Bind to profile [p] and school [s] leaves. *)
Definition bind (p : Profile.t) (s : School.t) (st : AuthState) : AuthState :=
  mkState (initialized st) (session st) (Some p) (Some s)
    (Some (Profile.role p)) (Some (Profile.tenant_id p)) false.

(** The bound fields agree with one another: all four unbound, or all four
    bound to one active profile and its active school. *)
Definition consistent (st : AuthState) : Prop :=
  match user st, school st, role st, tenantId st with
  | None, None, None, None => True
  | Some p, Some s, Some r, Some t =>
      r = Profile.role p
      /\ t = Profile.tenant_id p
      /\ School.id s = Profile.tenant_id p
      /\ School.subscription_status s = active
      /\ Profile.is_active p = true
  | _, _, _, _ => False
  end.

(** Some profile row of the identity is active and belongs to a school that
    is there with an active subscription. *)
Definition has_valid_binding (userId : string) (be : Backend.t) : bool :=
  existsb
    (fun p => active_profile_of userId p
              && existsb (active_school (Profile.tenant_id p)) (schools be))
    (profiles be).

(** The identity has no profile row for that tenant. *)
Definition has_profile_in (userId tenant : string) (be : Backend.t) : bool :=
  existsb (profile_in_tenant userId tenant) (profiles be).

(** The environment with another fault on the [last_login] write. *)
Definition with_lastLogin (ft : fault) (env : Env) : Env :=
  mkEnv (now env) (new_school_id env) (signUp_reply env) (signIn_reply env)
    (mkFetchFaults (f_profile (f_fetch env)) (f_school (f_fetch env)) ft)
    (f_signOut env) (f_insertSchool env) (f_insertProfile env)
    (f_insertTeacher env) (f_insertParent env) (f_updateProfile env)
    (f_switchProfile env) (f_updateUser env).

(** Two profile rows that agree in every column but [last_login]. *)
Definition same_but_last_login (p q : Profile.t) : Prop :=
  Profile.id q = Profile.id p
  /\ Profile.tenant_id q = Profile.tenant_id p
  /\ Profile.email q = Profile.email p
  /\ Profile.role q = Profile.role p
  /\ Profile.first_name q = Profile.first_name p
  /\ Profile.last_name q = Profile.last_name p
  /\ Profile.phone q = Profile.phone p
  /\ Profile.avatar_url q = Profile.avatar_url p
  /\ Profile.is_active q = Profile.is_active p
  /\ Profile.created_at q = Profile.created_at p
  /\ Profile.updated_at q = Profile.updated_at p.

(** What the update of lines 240-244 makes of the row [q] when it goes
    through: a row of the identity in the tenant gets the time of the Bind
    as its [last_login] and keeps its other columns, any other row stays. *)
Definition last_login_written (now userId tenant : string) (q q' : Profile.t)
    : Prop :=
  if profile_in_tenant userId tenant q
  then Profile.last_login q' = Some now /\ same_but_last_login q q'
  else q' = q.

(** The Bound state, in step with the backend: the session, the bound user
    and the bound tenant are those of the profile row [p0], which is the
    one active row of its identity and the one row of its identity in its
    tenant (the identity may have rows in other tenants), and [s0] is the
    school of that row, the only active one of its id. *)
Definition bound_in_step (st : AuthState) (be : Backend.t) (p0 : Profile.t)
    (s0 : School.t) : Prop :=
  (exists s u,
      session st = Some s /\ user st = Some u
      /\ User.id (Session.user s) = Profile.id p0
      /\ Profile.id u = Profile.id p0)
  /\ tenantId st = Some (Profile.tenant_id p0)
  /\ truthy (Some (Profile.id p0)) = true
  /\ truthy (Some (Profile.tenant_id p0)) = true
  /\ filter (active_profile_of (Profile.id p0)) (profiles be) = [p0]
  /\ filter (profile_in_tenant (Profile.id p0) (Profile.tenant_id p0))
       (profiles be) = [p0]
  /\ filter (active_school (Profile.tenant_id p0)) (schools be) = [s0].

(** The patch sets [is_active] to [false]. *)
Definition deactivates (u : ProfilePatch.t) : bool :=
  match ProfilePatch.is_active u with
  | Some false => true
  | _ => false
  end.

(** The three columns [updateProfile] strips from its input. *)
Definition protected_columns (p : Profile.t) : string * string * string :=
  (Profile.id p, Profile.tenant_id p, Profile.created_at p).

End Binder.


(* ===================================================================== *)
(** ** Concrete sessions and states *)
(* ===================================================================== *)

Module BinderExamples.

Import JS Backend Binder.

Definition lincoln_school : School.t :=
  School.mk "t-1" "Lincoln" None None None None free active
    (Some 500%N) (Some 50%N) "2025-03-01T09:00:00.000Z" None.

Definition ada (is_active : bool) : Profile.t :=
  Profile.mk "u-1" "t-1" "admin@x.edu" admin (Some "Ada") None None None
    is_active None "2025-03-01T09:00:00.000Z" None.

Definition ada_identity : AuthUser.t :=
  AuthUser.mk "u-1" "admin@x.edu" "Passw0rd!"
    (Claims.mk (Some "t-1") (Some admin) None None) true.

(** The backend after Lincoln was provisioned for Ada. *)
Definition lincoln_backend : Backend.t :=
  Backend.mk [lincoln_school] [ada_identity] [ada true] [] [] [].

(** The same backend once Ada's profile was deactivated. *)
Definition deactivated_backend : Backend.t :=
  Backend.mk [lincoln_school] [ada_identity] [ada false] [] [] [].

Definition ada_session : Session.t :=
  Session.mk (User.mk "u-1" (Claims.mk (Some "t-1") (Some admin) None None)).

(** Ada, signed in and bound to Lincoln. *)
Definition ada_bound : AuthState :=
  mkState true (Some ada_session) (Some (ada true)) (Some lincoln_school)
    (Some admin) (Some "t-1") false.

(** Nobody signed in. *)
Definition signed_out : AuthState :=
  mkState true None None None None None false.

Definition no_fetch_faults : FetchFaults := mkFetchFaults None None None.

(** The provider accepts Ada's credentials; no call is faulted. *)
Definition calm : Env :=
  mkEnv "2025-03-02T08:00:00.000Z" "t-2"
    (mkAuthResponse None None (Some "Signups not allowed"))
    (mkAuthResponse (Some (Session.user ada_session)) (Some ada_session) None)
    no_fetch_faults None None None None None None None None.

(** As [calm], but the provider answers the sign-out with an error. *)
Definition revocation_refused : Env :=
  mkEnv "2025-03-02T08:00:00.000Z" "t-2"
    (mkAuthResponse None None (Some "Signups not allowed"))
    (mkAuthResponse (Some (Session.user ada_session)) (Some ada_session) None)
    no_fetch_faults (Some "network request failed")
    None None None None None None None.

(** [{ first_name: "X", id: "u-9", tenant_id: "t-9", created_at: "1970" }] *)
Definition rename_and_more : ProfilePatch.t :=
  ProfilePatch.mk (Some "u-9") (Some "t-9") None None (Some "X") None None
    None None None (Some "1970-01-01T00:00:00.000Z") None.

End BinderExamples.


(* ===================================================================== *)
(** ** Concrete backends and requests *)
(* ===================================================================== *)

Module Examples.

Import JS Backend Provisioner.

Definition empty_backend : Backend.t := Backend.mk [] [] [] [] [] [].

Definition no_faults : Faults :=
  mkFaults None None None None None None None None None None None.

Definition env2025 : Env := mkEnv 2025 "t-1" "u-1" "2025-03-01T09:00:00.000Z".

(** [{email: "admin@x.edu", password: "Passw0rd!", schoolName: "Lincoln"}] *)
Definition lincoln : CreateTenantRequest.t :=
  CreateTenantRequest.mk (Some "admin@x.edu") (Some "Passw0rd!")
    (Some "Lincoln") None None None None None None.


(** [{email: "a@school.edu", password: "short", schoolName: "X"}] *)
Definition short_password : CreateTenantRequest.t :=
  CreateTenantRequest.mk (Some "a@school.edu") (Some "short") (Some "X")
    None None None None None None.

(** The identity provider refuses step 2. *)
Definition identity_refused : Faults :=
  mkFaults None None None (Some "User not allowed") None None
    None None None None None.

(** The database refuses the profile row of step 3. *)
Definition profile_refused : Faults :=
  mkFaults None None None None (Some "insert failed") None
    None None None None None.

(** The database refuses the term row of step 4. *)
Definition term_refused : Faults :=
  mkFaults None None None None None (Some "insert failed")
    None None None None None.

Definition identity (id email : string) (tenant : string) : AuthUser.t :=
  AuthUser.mk id email "Passw0rd!"
    (Claims.mk (Some tenant) (Some admin) None None) true.

(** A backend whose one identity has the e-mail [admin@x.edu]. *)
Definition one_identity : Backend.t :=
  Backend.mk [] [identity "u-0" "admin@x.edu" "t-0"] [] [] [] [].




End Examples.


(* ===================================================================== *)
(** ** The outcome of the provisioner in closed form *)
(* ===================================================================== *)

(** What [serve] leaves behind, written as a function of the fault plan.
    [ProvisionerMore.serve_stops_early] and [ProvisionerMore.serve_saga]
    prove that the handler computes it. *)
Module Outcome.

Import JS Backend Provisioner.

(** The body of the request, when it parses. *)
Definition body_of (req : Request) : CreateTenantRequest.t :=
  match json req with
  | Parsed_ r => r
  | Malformed _ =>
      CreateTenantRequest.mk None None None None None None None None None
  end.

(** The request gets past the preflight answer, the parsing and the five
    preconditions. *)
Definition reaches_saga (f : Faults) (req : Request) (be : Backend.t) : bool :=
  negb (method req =? "OPTIONS")
  && match json req with
     | Malformed _ => false
     | Parsed_ r =>
         precondition1 r && precondition2 r && precondition3 r
         && passes_uniqueness f r be
     end.

(** How many of the four steps go through before one is refused. *)
Definition steps_done (f : Faults) : nat :=
  if is_some (f_insertSchool f) then 0
  else if is_some (f_createUser f) then 1
  else if is_some (f_insertProfile f) then 2
  else if is_some (f_insertTerm f) then 3
  else 4.

(** The backend once the first [n] steps have added their rows. *)
Definition after_steps (env : Env) (r : CreateTenantRequest.t) (n : nat)
    (be : Backend.t) : Backend.t :=
  let tenant := new_school_id env in
  let user := new_user_id env in
  match n with
  | 0 => be
  | 1 => with_schools (schools be ++ [schoolRow env r]) be
  | 2 =>
      with_users (users be ++ [adminUser env r tenant])
        (with_schools (schools be ++ [schoolRow env r]) be)
  | 3 =>
      with_profiles (profiles be ++ [adminProfile env r tenant user])
        (with_users (users be ++ [adminUser env r tenant])
           (with_schools (schools be ++ [schoolRow env r]) be))
  | _ =>
      with_academic_terms (academic_terms be ++ [defaultTerm env tenant])
        (with_profiles (profiles be ++ [adminProfile env r tenant user])
           (with_users (users be ++ [adminUser env r tenant])
              (with_schools (schools be ++ [schoolRow env r]) be)))
  end.

(** The backend once the deletes that landed have run. *)
Definition undone (env : Env) (school user : bool) (be : Backend.t)
    : Backend.t :=
  let be :=
    if school
    then with_schools
           (filter (fun s => negb (School.id s =? new_school_id env))
              (schools be)) be
    else be in
  if user
  then with_users
         (filter (fun u => negb (AuthUser.id u =? new_user_id env)) (users be))
         be
  else be.

(** The backend that a request that reached the saga leaves. *)
Definition saga_backend (env : Env) (f : Faults) (r : CreateTenantRequest.t)
    (be : Backend.t) : Backend.t :=
  match steps_done f with
  | 0 => be
  | 1 => undone env (school_delete_lands env f) false (after_steps env r 1 be)
  | 2 =>
      undone env (school_delete_lands env f) (user_delete_lands env f)
        (after_steps env r 2 be)
  | n => after_steps env r n be
  end.

Definition saga_status (f : Faults) : nat :=
  if (3 <=? steps_done f)%nat then 201 else 500.

(** The body of a response tells a success. *)
Definition tells_success (resp : Response) : bool :=
  match body resp with
  | Json b => success b
  | Text _ => false
  end.

(** A table that only grew: the old rows, in their places, and new ones
    after them. *)
Definition grew {A : Type} (old new : list A) : Prop :=
  exists added, new = old ++ added.

(** A pattern that the lookup reads letter by letter: it holds no wildcard
    of [LIKE], no escape, and no ["*"], which the REST layer turns into a
    wildcard. *)
Fixpoint plain (pattern : string) : bool :=
  match pattern with
  | EmptyString => true
  | String c rest =>
      negb ((c =? "%")%char || (c =? "_")%char || (c =? "\")%char
            || (c =? "*")%char)
      && plain rest
  end.

(** The schools whose name is the school name of the request, trimmed, case
    disregarded. *)
Definition namesakes (r : CreateTenantRequest.t) (be : Backend.t)
    : list School.t :=
  filter
    (fun s => JS.toLowerCase (School.name s)
              =? JS.toLowerCase (JS.trim (str (CreateTenantRequest.schoolName r))))
    (schools be).

(** The schools that the lookup of line 120 matches. *)
Definition matched_schools (r : CreateTenantRequest.t) (be : Backend.t)
    : list School.t :=
  filter
    (fun s => ilike (School.name s)
                (JS.trim (str (CreateTenantRequest.schoolName r))))
    (schools be).

End Outcome.


Module MoreExamples.

Import JS Backend Provisioner.

(** The database refuses the school row of step 1. *)
Definition school_refused : Faults :=
  mkFaults None None (Some "insert failed") None None None
    None None None None None.

Definition school_named (id name : string) : School.t :=
  School.mk id name None None None None free active (Some 500%N) (Some 50%N)
    "2024-09-01T00:00:00.000Z" None.

(** One school called Lincoln, stored in capitals. *)
Definition one_lincoln : Backend.t :=
  Backend.mk [school_named "t-0" "LINCOLN"] [] [] [] [] [].

(** Two schools called Lincoln. *)
Definition two_lincolns : Backend.t :=
  Backend.mk [school_named "t-0" "LINCOLN"; school_named "t-9" "lincoln"]
    [] [] [] [] [].

(** Two schools whose names differ in one character, a ["*"]. *)
Definition star_schools : Backend.t :=
  Backend.mk [school_named "t-0" "A*B"; school_named "t-9" "AxB"]
    [] [] [] [] [].

(** [{email: "admin@x.edu", password: "Passw0rd!", schoolName: "A*B"}] *)
Definition star_request : CreateTenantRequest.t :=
  CreateTenantRequest.mk (Some "admin@x.edu") (Some "Passw0rd!")
    (Some "A*B") None None None None None None.

(** A request without a password. *)
Definition no_password : CreateTenantRequest.t :=
  CreateTenantRequest.mk (Some "admin@x.edu") None (Some "Lincoln")
    None None None None None None.

End MoreExamples.


(* ===================================================================== *)
(** ** What the binder reads and what it leaves *)
(* ===================================================================== *)

Module BinderOutcome.

Import JS Backend Binder.

(** The four fields that Bind assigns. *)
Definition bound_fields (st : AuthState)
    : option Profile.t * option School.t * option UserRole * option string :=
  (user st, school st, role st, tenantId st).

(** A profile row as the write of lines 240-244 may leave it: untouched, or,
    for a row of the identity, with [last_login] set to the time of the
    Bind. *)
Definition stamped (userId now : string) (p q : Profile.t) : Prop :=
  q = p \/ (Profile.id p = userId /\ q = set_last_login now p).

(** The tables that are not [profiles]. *)
Definition other_tables (be : Backend.t)
    : list School.t * list AuthUser.t * list AcademicTerm.t * list Teacher.t
      * list Parent.t :=
  (schools be, users be, academic_terms be, teachers be, parents be).

(** What the provider keeps of an identity apart from its claims. *)
Definition credentials (u : AuthUser.t) : string * string * string :=
  (AuthUser.id u, AuthUser.email u, AuthUser.password u).

(** The claims of the identities, by id. *)
Definition claims_of (be : Backend.t) : list (string * Claims.t) :=
  map (fun u => (AuthUser.id u, AuthUser.user_metadata u)) (users be).

(** The second backend holds what the first one holds, and maybe more: no
    row is gone, no school was changed, no identity changed its id, e-mail
    or password, no profile changed one of its protected columns, and the
    terms are the same. *)
Definition extends (be be' : Backend.t) : Prop :=
  Outcome.grew (schools be) (schools be')
  /\ Outcome.grew (map credentials (users be)) (map credentials (users be'))
  /\ Outcome.grew (map protected_columns (profiles be))
       (map protected_columns (profiles be'))
  /\ academic_terms be' = academic_terms be
  /\ Outcome.grew (teachers be) (teachers be')
  /\ Outcome.grew (parents be) (parents be').

(** A session of the identity [uid] whose token carries the claims [c]. *)
Definition session_of (uid : string) (c : Claims.t) : Session.t :=
  Session.mk (User.mk uid c).

(** The environment with other faults on the two role-specific inserts of
    [signUp]. *)
Definition with_extension_faults (ft fp : fault) (env : Env) : Env :=
  mkEnv (now env) (new_school_id env) (signUp_reply env) (signIn_reply env)
    (f_fetch env) (f_signOut env) (f_insertSchool env) (f_insertProfile env)
    ft fp (f_updateProfile env) (f_switchProfile env) (f_updateUser env).

(** The operation is one of those whose body sits in a [try]/[finally] that
    turns the loading flag off, or the handler of the provider's events. *)
Definition settles_loading (op : Op) : bool :=
  match op with
  | Start _ | AuthStateChange _ | SignUp _ _ _ _ | SignIn _ _ => true
  | _ => false
  end.

End BinderOutcome.


Module BinderMoreExamples.

Import JS Backend Binder.

Definition hilltop_school : School.t :=
  School.mk "t-2" "Hilltop" None None None None free active
    (Some 500%N) (Some 50%N) "2025-03-01T09:00:00.000Z" None.

(** Ada's row at Hilltop. *)
Definition ada_at_hilltop (is_active : bool) : Profile.t :=
  Profile.mk "u-1" "t-2" "admin@x.edu" teacher (Some "Ada") None None None
    is_active None "2025-03-01T09:00:00.000Z" None.

(** Ada is admin at Lincoln, and has a deactivated row at Hilltop. *)
Definition two_tenant_backend : Backend.t :=
  Backend.mk [BinderExamples.lincoln_school; hilltop_school]
    [BinderExamples.ada_identity]
    [BinderExamples.ada true; ada_at_hilltop false] [] [] [].

Definition grace : User.t :=
  User.mk "u-2" (Claims.mk (Some default_school_id) (Some teacher) None None).

(** The provider accepts the sign-up of Grace, without a session (her e-mail
    is still to be confirmed); no call is faulted. *)
Definition signup_accepted : Env :=
  mkEnv "2025-03-02T08:00:00.000Z" "t-2"
    (mkAuthResponse (Some grace) None None)
    (mkAuthResponse None None (Some "Invalid login credentials"))
    BinderExamples.no_fetch_faults None None None None None None None None.

(** [{ name: "Hilltop" }] *)
Definition hilltop_data : SchoolPatch.t :=
  SchoolPatch.mk (Some "Hilltop") None None None None None None None.

End BinderMoreExamples.


(* ===================================================================== *)
(** ** The tenant-aware database hooks: [src/lib/hooks/useDatabase.ts] *)
(* ===================================================================== *)

(** The hooks work on any table, so a row is kept as the object the client
    library hands over: its columns by name.  A filter value is taken to
    have the type of its column, and a column that a row does not hold reads
    as SQL [NULL]. *)
Module Hooks.

Import JS Backend.

(** A cell of a row. *)
Inductive scalar :=
| Null
| Bool (b : bool)
| Str (s : string)
| Num (n : Z).

(** A JavaScript object whose values are scalars; a row of a table. *)
Definition object : Type := list (string * scalar).

Fixpoint lookup (key : string) (o : object) : option scalar :=
  match o with
  | [] => None
  | (k, v) :: rest => if k =? key then Some v else lookup key rest
  end.

(** [o[key]], with [NULL] for a column that is not there. *)
Definition get (key : string) (o : object) : scalar :=
  match lookup key o with
  | Some v => v
  | None => Null
  end.

(** [{ ...o, [key]: v }] *)
Definition set (key : string) (v : scalar) (o : object) : object :=
  (key, v) :: filter (fun kv => negb (fst kv =? key)) o.

(** [{ ...o, ...patch }]: what [update(patch)] makes of the row [o], and
    what an insert of [patch] makes of the defaults [o] of the table. *)
Definition merge (o patch : object) : object :=
  fold_right (fun kv acc => set (fst kv) (snd kv) acc) o patch.

(** SQL [=]: never true on [NULL]. *)
Definition sql_eq (a b : scalar) : bool :=
  match a, b with
  | Bool x, Bool y => Bool.eqb x y
  | Str x, Str y => (x =? y)%string
  | Num x, Num y => BinInt.Z.eqb x y
  | _, _ => false
  end.

(** A value of the [filters] record of [useTenantQuery]. *)
Inductive filter_value :=
| Undefined
| One (v : scalar)
| Many (l : list scalar).

(** Lines 62-68: one entry of [filters], as a test on a row.  An array
    becomes [.in], [undefined] and [null] are skipped, anything else
    becomes [.eq]. *)
Definition entry_holds (entry : string * filter_value) (r : object) : bool :=
  match snd entry with
  | Many l => existsb (sql_eq (get (fst entry) r)) l
  | Undefined | One Null => true
  | One v => sql_eq (get (fst entry) r) v
  end.

(** Lines 55-69: the filters of the query. *)
Definition query_keeps (tenantId : string)
    (filters : option (list (string * filter_value))) (r : object) : bool :=
  sql_eq (get "tenant_id" r) (Str tenantId)
  && match filters with
     | Some entries => forallb (fun e => entry_holds e r) entries
     | None => true
     end.

Fixpoint insert_by (leb : object -> object -> bool) (r : object)
    (sorted : list object) : list object :=
  match sorted with
  | [] => [r]
  | x :: rest => if leb r x then r :: sorted else x :: insert_by leb r rest
  end.

Definition sort_by (leb : object -> object -> bool) (rows : list object)
    : list object :=
  fold_right (insert_by leb) [] rows.

(** Lines 72-74: [.order(column, { ascending: ascending ?? true })].  How
    the database compares two cells of a column (its collation, where it
    puts [NULL]) is a parameter; among rows that compare equal the database
    promises no order, and the model takes one. *)
Definition order (compare : string -> scalar -> scalar -> bool)
    (orderBy : option (string * option bool)) (rows : list object)
    : list object :=
  match orderBy with
  | Some (column, ascending) =>
      let up a b := compare column (get column a) (get column b) in
      sort_by
        (match ascending with
         | Some false => fun a b => up b a
         | _ => up
         end)
        rows
  | None => rows
  end.

(** The [useState] cells of [useTenantQuery]. *)
Record QueryState := mkQueryState {
  q_data : list object;
  q_loading : bool;
  q_error : option string
}.

Definition setData (d : list object) (st : QueryState) : QueryState :=
  mkQueryState d (q_loading st) (q_error st).
Definition setLoading (b : bool) (st : QueryState) : QueryState :=
  mkQueryState (q_data st) b (q_error st).
Definition setError (e : option string) (st : QueryState) : QueryState :=
  mkQueryState (q_data st) (q_loading st) e.

(** Line 57: [.select(select)].  With ["*"] the query answers with the rows
    themselves.  What the server makes of any other [select] (a list of
    columns, embedded tables, inner joins that drop rows) is a parameter of
    the model: [shape select] takes the rows that pass the filters, in
    their order, to the objects the query answers with. *)
Definition selected (shape : string -> list object -> list object)
    (select : string) (rows : list object) : list object :=
  if select =? "*" then rows else shape select rows.

(** Lines 45-92: [fetchData] of [useTenantQuery], against the rows of the
    table it names.  [authLoading] and [tenantId] are what [useAuth] hands
    over. *)
Definition fetchData (ft : fault)
    (compare : string -> scalar -> scalar -> bool)
    (shape : string -> list object -> list object)
    (authLoading : bool) (tenantId : option string)
    (select : string)
    (filters : option (list (string * filter_value)))
    (orderBy : option (string * option bool))
    (rows : list object) (st : QueryState) : QueryState :=
  if authLoading || negb (truthy tenantId)
  then setLoading false st
  else
    let st := setLoading true st in
    let st := setError None st in
    match ft with
    | Some msg => setLoading false (setError (Some msg) st)
    | None =>
        let result :=
          selected shape select
            (order compare orderBy
               (filter (query_keeps (str tenantId) filters) rows)) in
        setLoading false (setData result st)
    end.

(** Lines 102-104: [useStudents], a caller that selects ["*"]. *)
Definition useStudents_fetch (ft : fault)
    (compare : string -> scalar -> scalar -> bool)
    (shape : string -> list object -> list object)
    (authLoading : bool) (tenantId : option string)
    (students : list object) (st : QueryState) : QueryState :=
  fetchData ft compare shape authLoading tenantId "*"
    (Some [("is_active", One (Bool true))]) (Some ("grade_level", None))
    students st.

(** What an [async] utility does: it returns, or it throws. *)
Inductive outcome (A : Type) :=
| Returned (a : A)
| Thrown (message : string).
Arguments Returned {A} a.
Arguments Thrown {A} message.

(** Lines 594-614.  [defaults] is what the table gives to the columns that
    the insert does not name (a generated id, say). *)
Definition createRecord (ft : fault) (defaults : object) (now : string)
    (data : object) (tenantId : string) (rows : list object)
    : outcome object * list object :=
  let sent := set "created_at" (Str now) (set "tenant_id" (Str tenantId) data) in
  match ft with
  | Some msg => (Thrown msg, rows)
  | None =>
      let stored := merge defaults sent in
      (Returned stored, rows ++ [stored])
  end.

(** The filter of lines 629-630 and 650-651:
    [.eq('id', id).eq('tenant_id', tenantId)]. *)
Definition record_of (id tenantId : string) (r : object) : bool :=
  sql_eq (get "id" r) (Str id) && sql_eq (get "tenant_id" r) (Str tenantId).

(** Lines 617-639.  With [.select().single()] on a write, the server undoes
    the write when it did not change exactly one row. *)
Definition updateRecord (ft : fault) (now : string) (id : string)
    (data : object) (tenantId : string) (rows : list object)
    : outcome object * list object :=
  let patch := set "updated_at" (Str now) data in
  match ft with
  | Some msg => (Thrown msg, rows)
  | None =>
      match filter (record_of id tenantId) rows with
      | [r] =>
          (Returned (merge r patch),
           map (fun x => if record_of id tenantId x then merge x patch else x)
             rows)
      | _ => (Thrown no_single_row, rows)
      end
  end.

(** Lines 642-658. *)
Definition deleteRecord (ft : fault) (id tenantId : string)
    (rows : list object) : outcome bool * list object :=
  match ft with
  | Some msg => (Thrown msg, rows)
  | None =>
      (Returned true, filter (fun r => negb (record_of id tenantId r)) rows)
  end.

(** The row belongs to the tenant. *)
Definition of_tenant (tenantId : string) (r : object) : bool :=
  sql_eq (get "tenant_id" r) (Str tenantId).

End Hooks.


(* ===================================================================== *)
(** ** The sign-up form: [onSubmit] of [src/app/(public)/sign-up.tsx] *)
(* ===================================================================== *)

Module SignUpForm.

Import JS Backend Binder.

(** [SignUpFormData] *)
Record SignUpFormData := mkForm {
  email : string;
  password : string;
  confirmPassword : string;
  role : UserRole;
  firstName : string;
  lastName : string;
  schoolName : string;
  schoolAddress : string;
  schoolPhone : string;
  schoolEmail : string
}.

(** [Alert.alert(title, message)] *)
Record Alert := mkAlert { title : string; message : string }.

(** Lines 41-53. *)
Definition schoolData_of (data : SignUpFormData) : option SchoolPatch.t :=
  match role data with
  | admin =>
      Some (SchoolPatch.mk (Some (schoolName data)) (Some (schoolAddress data))
              (Some (schoolPhone data)) (Some (schoolEmail data))
              (Some free) (Some active) None None)
  | _ => None
  end.

(** Lines 39-78.  [signUp] catches what its body throws, so the [catch] of
    line 74 is never entered; what the button of the alert does when
    pressed is left out. *)
Definition onSubmit (env : Env) (data : SignUpFormData) (st : AuthState)
    (be : Backend.t) : Alert * AuthState * Backend.t :=
  let '(result, st, be) :=
    signUp env (email data) (password data) (role data) (schoolData_of data)
      st be in
  if success result
  then
    (mkAlert "Success!"
       (match role data with
        | admin =>
            "School created successfully! Please check your email to verify your account."
        | _ =>
            "Account created successfully! Please check your email to verify your account."
        end),
     st, be)
  else
    (mkAlert "Error"
       (if truthy (error result) then str (error result)
        else "Failed to create account"),
     st, be).

End SignUpForm.


(* ===================================================================== *)
(** ** Letter grades: [src/types/database.ts] *)
(* ===================================================================== *)

Module Grades.

Import BinInt.

(** A JavaScript number: a finite double is the rational it stands for. *)
Inductive number :=
| NaN
| NegInfinity
| Finite (q : QArith_base.Q)
| Infinity.

(** [x >= n] for an integer literal [n]. *)
Definition ge (x : number) (n : Z) : bool :=
  match x with
  | NaN | NegInfinity => false
  | Finite q => QArith_base.Qle_bool (QArith_base.inject_Z n) q
  | Infinity => true
  end.

(** [x <= y] *)
Definition le (x y : number) : bool :=
  match x, y with
  | NaN, _ | _, NaN => false
  | NegInfinity, _ => true
  | _, Infinity => true
  | Finite a, Finite b => QArith_base.Qle_bool a b
  | _, _ => false
  end.

Inductive LetterGrade :=
| A_plus | A | A_minus
| B_plus | B | B_minus
| C_plus | C | C_minus
| D_plus | D | D_minus
| F.

(** Lines 469-476, in tenths of a grade point. *)
Definition LETTER_GRADE_VALUES (g : LetterGrade) : Z :=
  match g with
  | A_plus => 40 | A => 40 | A_minus => 37
  | B_plus => 33 | B => 30 | B_minus => 27
  | C_plus => 23 | C => 20 | C_minus => 17
  | D_plus => 13 | D => 10 | D_minus => 7
  | F => 0
  end%Z.

(** Lines 479-493. *)
Definition percentageToLetterGrade (percentage : number) : LetterGrade :=
  if ge percentage 97%Z then A_plus
  else if ge percentage 93%Z then A
  else if ge percentage 90%Z then A_minus
  else if ge percentage 87%Z then B_plus
  else if ge percentage 83%Z then B
  else if ge percentage 80%Z then B_minus
  else if ge percentage 77%Z then C_plus
  else if ge percentage 73%Z then C
  else if ge percentage 70%Z then C_minus
  else if ge percentage 67%Z then D_plus
  else if ge percentage 65%Z then D
  else if ge percentage 60%Z then D_minus
  else F.

(** The lower bound of the band of a grade, when it has one. *)
Definition threshold (g : LetterGrade) : option Z :=
  match g with
  | A_plus => Some 97 | A => Some 93 | A_minus => Some 90
  | B_plus => Some 87 | B => Some 83 | B_minus => Some 80
  | C_plus => Some 77 | C => Some 73 | C_minus => Some 70
  | D_plus => Some 67 | D => Some 65 | D_minus => Some 60
  | F => None
  end%Z.

End Grades.


(* ===================================================================== *)
(** ** The string helpers do what their JavaScript originals do *)
(* ===================================================================== *)

Module JSFacts.

Import JS.
Local Open Scope string_scope.

Lemma toLowerCase_idem (s : string) :
  toLowerCase (toLowerCase s) = toLowerCase s.
Proof.
  induction s as [|c s IH]; simpl; [reflexivity|].
  rewrite IH. f_equal.
  destruct c as [[] [] [] [] [] [] [] []]; reflexivity.
Qed.

Lemma all_email_chars_app (a b : string) :
  all_email_chars (a ++ b) = all_email_chars a && all_email_chars b.
Proof.
  induction a as [|c a IH]; simpl; [reflexivity|].
  rewrite IH. apply andb_assoc.
Qed.

Lemma span_email_chars_spec (s a rest : string) :
  span_email_chars s = (a, rest) ->
  s = a ++ rest
  /\ all_email_chars a = true
  /\ (rest = EmptyString
      \/ exists c r, rest = String c r /\ email_char c = false).
Proof.
  revert a rest. induction s as [|c s IH]; simpl; intros a rest E.
  - injection E as <- <-. repeat split. left. reflexivity.
  - destruct (email_char c) eqn:Hc.
    + destruct (span_email_chars s) as [a' rest'].
      injection E as <- <-.
      destruct (IH a' rest' eq_refl) as [Hs [Ha Hr]].
      simpl. rewrite Hc, Ha. repeat split; [f_equal; exact Hs | exact Hr].
    + injection E as <- <-. repeat split.
      right. exists c, s. split; [reflexivity | exact Hc].
Qed.

Lemma span_email_chars_app (a r : string) (c : ascii) :
  all_email_chars a = true -> email_char c = false ->
  span_email_chars (a ++ String c r) = (a, String c r).
Proof.
  intros Ha Hc. induction a as [|x a IH]; simpl.
  - rewrite Hc. reflexivity.
  - simpl in Ha. apply andb_true_iff in Ha as [Hx Ha].
    rewrite Hx, (IH Ha). reflexivity.
Qed.

Lemma dot_then_more_spec (s : string) :
  dot_then_more s = true <->
  exists b c, s = b ++ "." ++ c /\ c <> EmptyString.
Proof.
  induction s as [|x s IH]; simpl.
  - split; [discriminate|]. intros [b [c [E _]]].
    destruct b; discriminate.
  - rewrite orb_true_iff, andb_true_iff, IH. split.
    + intros [[Hx Hs]|[b [c [E Hc]]]].
      * apply Ascii.eqb_eq in Hx. subst x. exists EmptyString, s.
        split; [reflexivity|]. intros ->. discriminate.
      * exists (String x b), c. split; [simpl; f_equal; exact E | exact Hc].
    + intros [b [c [E Hc]]]. destruct b as [|y b]; simpl in E.
      * injection E as -> ->. left. split; [reflexivity|].
        destruct c; [contradiction|reflexivity].
      * injection E as -> ->. right. exists b, c. split; [reflexivity|exact Hc].
Qed.

Lemma at_sign_is_not_an_email_char : email_char "@" = false.
Proof. reflexivity. Qed.

(** [emailRegex_test] decides the language of the regular expression. *)
Lemma emailRegex_test_spec (s : string) :
  emailRegex_test s = true <-> matches_emailRegex s.
Proof.
  unfold emailRegex_test, matches_emailRegex, email_run. split.
  - destruct (span_email_chars s) as [a rest] eqn:E.
    apply span_email_chars_spec in E as [Hs [Ha _]].
    intros H. apply andb_true_iff in H as [Hne H].
    destruct rest as [|c rest']; [discriminate|].
    destruct c as [[] [] [] [] [] [] [] []]; try discriminate.
    destruct rest' as [|x d']; [discriminate|].
    apply andb_true_iff in H as [Hd Hdot].
    apply dot_then_more_spec in Hdot as [b [c [-> Hc]]].
    exists a, (String x b), c. split; [exact Hs|].
    change (String x (b ++ "." ++ c)) with (String x b ++ String "." c) in Hd.
    rewrite all_email_chars_app in Hd. apply andb_true_iff in Hd as [Hb Hdc].
    simpl in Hdc. repeat split; try assumption.
    + intros ->. discriminate.
    + discriminate.
  - intros [a [b [c [-> [[Ha1 Ha2] [[Hb1 Hb2] [Hc1 Hc2]]]]]]].
    change (a ++ "@" ++ b ++ "." ++ c)
      with (a ++ String "@" (b ++ "." ++ c)).
    rewrite (span_email_chars_app a _ "@" Ha2 at_sign_is_not_an_email_char).
    destruct a as [|y a]; [contradiction|]. cbn [String.eqb negb andb].
    destruct b as [|x b]; [contradiction|]. cbn [append].
    apply andb_true_iff. split.
    + change (String x (b ++ String "." c)) with (String x b ++ String "." c).
      rewrite all_email_chars_app, Hb2. simpl. exact Hc2.
    + apply dot_then_more_spec. exists b, c. split; [reflexivity|exact Hc1].
Qed.

Example emailRegex_test_examples :
  map emailRegex_test
    ["a@school.edu"; "admin@x.edu"; "a@b.c.d"; "a@b..c";
     "a@b"; "@b.c"; "a@.c"; "a@b."; "a b@c.d"; "a@b@c.d"; ""]%list
  = [true; true; true; true;
     false; false; false; false; false; false; false]%list.
Proof. reflexivity. Qed.

Example trim_examples :
  (trim "  Lincoln High  ", trim "", trim "   ") = ("Lincoln High", "", "").
Proof. reflexivity. Qed.

Example ilike_examples :
  map (Backend.ilike "Lincoln")
    ["lincoln"; "LIN%"; "l_ncoln"; "lin"; "\%"; "lin*"; "L*N"; "*"]%list
  = [true; true; true; false; false; true; true; true]%list.
Proof. reflexivity. Qed.

(** [toLowerCase] on Latin-1: U+00C9 becomes U+00E9; the multiplication
    sign U+00D7 and the sharp s U+00DF stay. *)
Example toLowerCase_latin1 :
  map (fun n => nat_of_ascii (lower_char (ascii_of_nat n)))
    [65; 90; 97; 192; 201; 214; 215; 216; 222; 223; 233; 255]%list
  = [97; 122; 97; 224; 233; 246; 215; 248; 254; 223; 233; 255]%list.
Proof. reflexivity. Qed.

End JSFacts.


(* ===================================================================== *)
(** ** The provisioner: what the handler guarantees *)
(* ===================================================================== *)

Module ProvisionerFacts.

Import JS Backend Provisioner.

(** Rows that a delete by id leaves behind do not carry that id. *)
Lemma deleted_school_gone (id : string) (l : list School.t) :
  existsb (fun s => School.id s =? id)
          (filter (fun s => negb (School.id s =? id)) l) = false.
Proof.
  induction l as [|s l IH]; simpl; [reflexivity|].
  destruct (School.id s =? id) eqn:E; simpl; [exact IH|].
  rewrite E. exact IH.
Qed.

Lemma deleted_user_gone (id : string) (l : list AuthUser.t) :
  existsb (fun u => AuthUser.id u =? id)
          (filter (fun u => negb (AuthUser.id u =? id)) l) = false.
Proof.
  induction l as [|u l IH]; simpl; [reflexivity|].
  destruct (AuthUser.id u =? id) eqn:E; simpl; [exact IH|].
  rewrite E. exact IH.
Qed.

(** A delete by an id that no row carries changes nothing. *)
Lemma delete_absent {A : Type} (key : A -> string) (id : string) (l : list A) :
  existsb (fun a => key a =? id) l = false ->
  filter (fun a => negb (key a =? id)) l = l.
Proof.
  induction l as [|a l IH]; simpl; [reflexivity|].
  intros H. apply orb_false_iff in H as [E H].
  rewrite E. simpl. f_equal. exact (IH H).
Qed.

(** Inserting a row with a fresh id and deleting by that id restores the
    table. *)
Lemma delete_inserted {A : Type} (key : A -> string) (row : A) (l : list A) :
  existsb (fun a => key a =? key row) l = false ->
  filter (fun a => negb (key a =? key row)) (l ++ [row]) = l.
Proof.
  intros H. rewrite filter_app. simpl. rewrite String.eqb_refl. simpl.
  rewrite app_nil_r. apply delete_absent. exact H.
Qed.

Lemma delete_inserted_at {A : Type} (key : A -> string) (id : string)
    (row : A) (l : list A) :
  key row = id ->
  existsb (fun a => key a =? id) l = false ->
  filter (fun a => negb (key a =? id)) (l ++ [row]) = l.
Proof. intros <-. apply delete_inserted. Qed.

Lemma filter_idem {A : Type} (keep : A -> bool) (l : list A) :
  filter keep (filter keep l) = filter keep l.
Proof.
  induction l as [|a l IH]; simpl; [reflexivity|].
  destruct (keep a) eqn:E; simpl; [rewrite E, IH; reflexivity | exact IH].
Qed.

(** A request that passes the five preconditions reaches the saga, after the
    two reads of the uniqueness checks. *)
Lemma serve_reaches_transaction env f m r w :
  (m =? "OPTIONS") = false ->
  precondition1 r = true -> precondition2 r = true -> precondition3 r = true ->
  passes_uniqueness f r (db w) = true ->
  serve env f (mkRequest m (Parsed_ r)) w =
    let w1 :=
      mkWorld (db w)
        (trace w ++ [ListUsers]
           ++ [SelectSchool (JS.trim (str (CreateTenantRequest.schoolName r)))]) in
    match transaction env f r w1 with
    | (Returned resp, _, w') => (resp, w')
    | (Thrown msg, loc, w') => (respond 500 (failure msg), cleanup f loc w')
    end.
Proof.
  intros Hm H1 H2 H3 Hu.
  unfold precondition1 in H1. unfold precondition2 in H2.
  unfold precondition3 in H3.
  apply andb_true_iff in H1 as [H1 H1c]. apply andb_true_iff in H1 as [H1a H1b].
  unfold passes_uniqueness in Hu. apply andb_true_iff in Hu as [Hu4 Hu5].
  unfold serve. cbn [method json]. rewrite Hm, H1a, H1b, H1c, H2.
  cbn [negb orb].
  replace (String.length (str (CreateTenantRequest.password r)) <? 8)%nat
    with false
    by (symmetry; apply Nat.ltb_ge; apply Nat.leb_le; exact H3).
  unfold run, listUsers, selectSchoolByName, select_single.
  destruct w as [be tr]. cbn [db trace] in *.
  assert (E4 : match data (fst (match f_listUsers f with
                                | Some msg => (failed msg, be)
                                | None => (ok (first_page (users be)), be)
                                end)) with
               | Some listed =>
                   existsb
                     (fun u => AuthUser.email u
                               =? JS.toLowerCase (str (CreateTenantRequest.email r)))
                     listed
               | None => false
               end = false).
  { destruct (f_listUsers f); cbn [fst data failed ok is_some orb negb] in *;
      [reflexivity|].
    unfold email_registered in Hu4. destruct (existsb _ _); [discriminate|reflexivity]. }
  destruct (f_listUsers f) as [e4|]; cbn [fst data failed ok db trace] in *.
  - destruct (f_lookupSchool f) as [e5|]; cbn [fst data failed ok db trace is_some] in *.
    + rewrite <- app_assoc. reflexivity.
    + unfold school_registered in Hu5. cbn [orb negb] in Hu5.
      destruct (is_some _); [discriminate|]. rewrite <- app_assoc. reflexivity.
  - rewrite E4.
    destruct (f_lookupSchool f) as [e5|]; cbn [fst data failed ok db trace is_some] in *.
    + rewrite <- app_assoc. reflexivity.
    + unfold school_registered in Hu5. cbn [orb negb] in Hu5.
      destruct (is_some _); [discriminate|]. rewrite <- app_assoc. reflexivity.
Qed.


Ltac settle_tables :=
  repeat rewrite filter_idem;
  first
    [ reflexivity
    | apply deleted_school_gone
    | apply deleted_user_gone
    | (eexists; reflexivity)
    | (repeat rewrite <- app_assoc; reflexivity)
    | (intros _; apply deleted_user_gone)
    | discriminate
    | (let Hs := fresh in
       let Hu := fresh in
       intros Hs Hu;
       try (rewrite (delete_inserted_at School.id); [|reflexivity|exact Hs]);
       try (rewrite (delete_inserted_at AuthUser.id); [|reflexivity|exact Hu]);
       reflexivity) ].

(** C1.  A provisioning request that passes the preconditions and fails at
    step 2 (the identity is refused) or at step 3 (the profile insertion
    fails), the compensation not being itself defeated by a fault, is
    answered with status 500 and a failure body, never with a success.  When
    the handler returns, no school row carries the id of the tenant created
    in step 1, the identity created in step 2 is gone (when step 2 itself
    failed the identities are untouched), and no profile or term was added.
    The calls that reached the backend are the completed steps, the failed
    step, then the undoing calls of the completed steps in reverse order,
    which the catch block repeats for every id it holds.  When the
    generated ids were fresh, the backend is back to what it was before the
    request. *)
Theorem failed_saga_is_compensated env f m r w :
  (m =? "OPTIONS") = false ->
  precondition1 r = true -> precondition2 r = true -> precondition3 r = true ->
  passes_uniqueness f r (db w) = true ->
  fails_at_step2 f || fails_at_step3 f = true ->
  compensation_lands env f = true ->
  let out := serve env f (mkRequest m (Parsed_ r)) w in
  (status (fst out) = 500 /\ exists msg, body (fst out) = Json (failure msg))
  /\ has_school (new_school_id env) (db (snd out)) = false
  /\ (fails_at_step3 f = true ->
      has_user (new_user_id env) (db (snd out)) = false)
  /\ (fails_at_step2 f = true -> users (db (snd out)) = users (db w))
  /\ profiles (db (snd out)) = profiles (db w)
  /\ academic_terms (db (snd out)) = academic_terms (db w)
  /\ trace (snd out) =
       trace w ++ the_reads r
         ++ completed_steps env f ++ [failed_step env f]
         ++ compensation (completed_steps env f)
         ++ filter repeated (compensation (completed_steps env f))
  /\ (has_school (new_school_id env) (db w) = false ->
      has_user (new_user_id env) (db w) = false ->
      db (snd out) = db w).
Proof.
  intros Hm H1 H2 H3 Hu Hfail Hcomp out. subst out.
  rewrite (serve_reaches_transaction env f m r w Hm H1 H2 H3 Hu).
  clear Hm H1 H2 H3 Hu.
  destruct w as [[sch usr prf trm tch par] tr].
  destruct f as [f4 f5 fs fu fp ft c2 c3u c3s cu cs].
  destruct env as [year tid uid now0].
  unfold fails_at_step2, fails_at_step3 in *. cbn in Hfail.
  destruct fs as [es|]; [discriminate|].
  unfold compensation_lands, school_delete_lands, user_delete_lands in Hcomp.
  unfold the_reads, completed_steps, failed_step, compensation,
    has_school, has_user.
  cbn [f_createUser f_insertSchool f_insertProfile f_cleanup2_school
       f_cleanup3_school f_cleanup3_user f_catch_school f_catch_user
       new_school_id new_user_id is_some negb andb] in *.
  destruct fu as [eu|].
  - (* step 2 fails *)
    destruct c2, cs, tid as [|c tid]; cbn in Hcomp; try discriminate Hcomp;
      cbn -[filter String.eqb JS.trim JS.toLowerCase String.length app];
      repeat split; settle_tables.
  - (* step 3 fails *)
    destruct fp as [ep|]; [clear Hfail | discriminate].
    destruct c3u, c3s, cu, cs, tid as [|c tid], uid as [|d uid];
      cbn in Hcomp; try discriminate Hcomp;
      cbn -[filter String.eqb JS.trim JS.toLowerCase String.length app];
      repeat split; settle_tables.
Qed.

Lemma failed_saga_is_compensated_witness :
  let out :=
    serve Examples.env2025 Examples.profile_refused
      (mkRequest "POST" (Parsed_ Examples.lincoln))
      (mkWorld Examples.empty_backend []) in
  status (fst out) = 500
  /\ has_school "t-1" (db (snd out)) = false
  /\ has_user "u-1" (db (snd out)) = false
  /\ db (snd out) = Examples.empty_backend
  /\ trace (snd out) =
       [ListUsers; SelectSchool "Lincoln"; InsertSchool "t-1"; CreateUser "u-1";
        InsertProfile "u-1"; DeleteUser "u-1"; DeleteSchool "t-1";
        DeleteUser "u-1"; DeleteSchool "t-1"].
Proof.
  destruct
    (failed_saga_is_compensated Examples.env2025 Examples.profile_refused
       "POST" Examples.lincoln (mkWorld Examples.empty_backend [])
       eq_refl eq_refl eq_refl eq_refl eq_refl eq_refl eq_refl)
    as [[Hstatus _] [Hschool [Huser [_ [_ [_ [Htrace Hdb]]]]]]].
  split; [exact Hstatus|].
  split; [exact Hschool|].
  split; [exact (Huser eq_refl)|].
  split; [exact (Hdb eq_refl eq_refl) | exact Htrace].
Defined.

(** The compensation at work when only the catch block gets through. *)
Example second_attempt_compensates :
  let f :=
    mkFaults None None None None (Some "insert failed") None
      None (Some "delete failed") (Some "delete failed") None None in
  compensation_lands Examples.env2025 f = true
  /\ db (snd (serve Examples.env2025 f
                (mkRequest "POST" (Parsed_ Examples.lincoln))
                (mkWorld Examples.empty_backend [])))
     = Examples.empty_backend.
Proof. split; reflexivity. Qed.

(** Compensation is best effort: the answers of the deletes are not looked
    at, so when every delete for the school is refused as well, the tenant
    stays behind. *)
Example refused_compensation_leaves_the_tenant :
  let f :=
    mkFaults None None None (Some "User not allowed") None None
      (Some "delete failed") None None None (Some "delete failed") in
  let out :=
    serve Examples.env2025 f (mkRequest "POST" (Parsed_ Examples.lincoln))
      (mkWorld Examples.empty_backend []) in
  compensation_lands Examples.env2025 f = false
  /\ status (fst out) = 500
  /\ has_school "t-1" (db (snd out)) = true.
Proof. repeat split; reflexivity. Qed.

(** C4.  When steps 1 to 3 go through and the insertion of the default term
    (step 4) fails, the handler answers 201 with [success], the tenant id and
    the user id; the backend holds the school row, the identity and the
    admin profile of steps 1 to 3 and no new term; and no delete was issued:
    the calls are the two reads and the four steps. *)
Theorem failed_term_is_tolerated env f m r w :
  (m =? "OPTIONS") = false ->
  precondition1 r = true -> precondition2 r = true -> precondition3 r = true ->
  passes_uniqueness f r (db w) = true ->
  fails_at_step4 f = true ->
  serve env f (mkRequest m (Parsed_ r)) w =
    (respond 201
       (mkBody true (Some (new_school_id env)) (Some (new_user_id env)) None),
     mkWorld
       (Backend.mk
          (schools (db w) ++ [schoolRow env r])
          (users (db w) ++ [adminUser env r (new_school_id env)])
          (profiles (db w)
             ++ [adminProfile env r (new_school_id env) (new_user_id env)])
          (academic_terms (db w))
          (teachers (db w))
          (parents (db w)))
       (trace w ++ the_reads r
          ++ [InsertSchool (new_school_id env); CreateUser (new_user_id env);
              InsertProfile (new_user_id env); InsertTerm (new_school_id env)])).
Proof.
  intros Hm H1 H2 H3 Hu H4.
  rewrite (serve_reaches_transaction env f m r w Hm H1 H2 H3 Hu).
  clear Hm H1 H2 H3 Hu.
  destruct w as [[sch usr prf trm tch par] tr].
  destruct f as [f4 f5 fs fu fp ft c2 c3u c3s cu cs].
  unfold fails_at_step4 in H4. cbn in H4.
  destruct fs; [discriminate|]. destruct fu; [discriminate|].
  destruct fp; [discriminate|]. destruct ft as [et|]; [|discriminate].
  unfold the_reads.
  cbn -[JS.trim JS.toLowerCase String.length app].
  repeat rewrite <- app_assoc. reflexivity.
Qed.

Lemma failed_term_is_tolerated_witness :
  serve Examples.env2025 Examples.term_refused
    (mkRequest "POST" (Parsed_ Examples.lincoln))
    (mkWorld Examples.empty_backend [])
  = (respond 201 (mkBody true (Some "t-1") (Some "u-1") None),
     mkWorld
       (Backend.mk
          [schoolRow Examples.env2025 Examples.lincoln]
          [adminUser Examples.env2025 Examples.lincoln "t-1"]
          [adminProfile Examples.env2025 Examples.lincoln "t-1" "u-1"]
          [] [] [])
       [ListUsers; SelectSchool "Lincoln"; InsertSchool "t-1"; CreateUser "u-1";
        InsertProfile "u-1"; InsertTerm "t-1"]).
Proof.
  exact (failed_term_is_tolerated Examples.env2025 Examples.term_refused
           "POST" Examples.lincoln (mkWorld Examples.empty_backend [])
           eq_refl eq_refl eq_refl eq_refl eq_refl eq_refl).
Defined.

(** The term that step 4 inserts when nothing fails, for the year 2025. *)
Example default_term_2025 :
  academic_terms
    (db (snd (serve Examples.env2025 Examples.no_faults
                (mkRequest "POST" (Parsed_ Examples.lincoln))
                (mkWorld Examples.empty_backend []))))
  = [AcademicTerm.mk "t-1" "Fall 2025" "2025-09-01" "2026-06-30" true
       "2025-2026"].
Proof. reflexivity. Qed.

(** C8.  A request that passes preconditions 1 and 2 and whose password has
    fewer than eight characters is answered with status 400 and the message
    about the password length; the backend is unchanged and no call was
    made to it. *)
Theorem short_password_is_rejected env f m r w :
  (m =? "OPTIONS") = false ->
  precondition1 r = true -> precondition2 r = true ->
  String.length (str (CreateTenantRequest.password r)) < 8 ->
  serve env f (mkRequest m (Parsed_ r)) w =
    (respond 400 (failure "Password must be at least 8 characters long"), w).
Proof.
  intros Hm H1 H2 H3.
  unfold precondition1 in H1. unfold precondition2 in H2.
  apply andb_true_iff in H1 as [H1 H1c]. apply andb_true_iff in H1 as [H1a H1b].
  unfold serve. cbn [method json]. rewrite Hm, H1a, H1b, H1c, H2.
  cbn [negb orb].
  apply Nat.ltb_lt in H3. rewrite H3. reflexivity.
Qed.

Lemma short_password_is_rejected_witness :
  serve Examples.env2025 Examples.no_faults
    (mkRequest "POST" (Parsed_ Examples.short_password))
    (mkWorld Examples.empty_backend [])
  = (respond 400 (failure "Password must be at least 8 characters long"),
     mkWorld Examples.empty_backend []).
Proof.
  apply (short_password_is_rejected Examples.env2025 Examples.no_faults
           "POST" Examples.short_password (mkWorld Examples.empty_backend []));
    [reflexivity | reflexivity | reflexivity | simpl; lia].
Defined.





(** The handler answers a request whose lower-cased e-mail is the stored
    e-mail of a listed identity with the conflict. *)
Lemma listed_email_is_a_conflict env f m r w :
  (m =? "OPTIONS") = false ->
  precondition1 r = true -> precondition2 r = true -> precondition3 r = true ->
  f_listUsers f = None ->
  email_registered r (db w) = true ->
  serve env f (mkRequest m (Parsed_ r)) w =
    (respond 409 (failure "Email address is already registered"),
     mkWorld (db w) (trace w ++ [ListUsers])).
Proof.
  intros Hm H1 H2 H3 Hl He.
  unfold precondition1 in H1. unfold precondition2 in H2.
  unfold precondition3 in H3.
  apply andb_true_iff in H1 as [H1 H1c]. apply andb_true_iff in H1 as [H1a H1b].
  unfold serve. cbn [method json]. rewrite Hm, H1a, H1b, H1c, H2.
  cbn [negb orb].
  replace (String.length (str (CreateTenantRequest.password r)) <? 8)%nat
    with false
    by (symmetry; apply Nat.ltb_ge; apply Nat.leb_le; exact H3).
  unfold run, listUsers. rewrite Hl. cbn [data ok].
  unfold email_registered in He. rewrite He. reflexivity.
Qed.




(** The preconditions are checked in order: a taken e-mail with a short
    password gets the 400 of precondition 3. *)
Lemma earlier_precondition_answers_first :
  status
    (fst (serve Examples.env2025 Examples.no_faults
            (mkRequest "POST"
               (Parsed_ (CreateTenantRequest.mk (Some "admin@x.edu")
                           (Some "short") (Some "Lincoln")
                           None None None None None None)))
            (mkWorld Examples.one_identity [])))
  = 400.
Proof. reflexivity. Qed.

(** An error of the listing is ignored: the request, whose e-mail is that
    of the one identity there is, goes on to the saga; the school is
    inserted, the identity provider refuses the second identity of that
    e-mail, and the school is deleted again. *)
Lemma refused_listing_is_ignored :
  let out :=
    serve Examples.env2025
      (mkFaults (Some "listing failed") None None
         (Some "A user with this email address has already been registered")
         None None None None None None None)
      (mkRequest "POST" (Parsed_ Examples.lincoln))
      (mkWorld Examples.one_identity []) in
  status (fst out) = 500
  /\ trace (snd out)
     = [ListUsers; SelectSchool "Lincoln"; InsertSchool "t-1";
        CreateUser "u-1"; DeleteSchool "t-1"; DeleteSchool "t-1"].
Proof. split; reflexivity. Qed.


Lemma forallb_filter {A : Type} (P keep : A -> bool) (l : list A) :
  forallb P l = true -> forallb P (filter keep l) = true.
Proof.
  induction l as [|a l IH]; simpl; [reflexivity|].
  intros H. apply andb_true_iff in H as [Ha Hl].
  destruct (keep a); simpl; [rewrite Ha|]; exact (IH Hl).
Qed.

Lemma adminUser_lower_cased env r tenant :
  (JS.toLowerCase (AuthUser.email (adminUser env r tenant))
   =? AuthUser.email (adminUser env r tenant)) = true.
Proof. apply String.eqb_eq. apply JSFacts.toLowerCase_idem. Qed.

Ltac lower_cased H :=
  repeat first
    [ exact H
    | apply forallb_filter
    | rewrite forallb_app; apply andb_true_iff; split
    | (cbn [forallb]; rewrite adminUser_lower_cased; reflexivity) ].

(** The handler keeps the identities in lower case: the only identity it
    creates carries the lower-cased e-mail of the request. *)
Lemma serve_keeps_emails_lower_cased env f req w :
  emails_lower_cased (db w) = true ->
  emails_lower_cased (db (snd (serve env f req w))) = true.
Proof.
  intros H. unfold serve.
  destruct (method req =? "OPTIONS"); [exact H|].
  destruct (json req) as [msg|r]; [exact H|].
  destruct (negb _ || negb _ || negb _); [exact H|].
  destruct (negb (emailRegex_test _)); [exact H|].
  destruct (String.length _ <? 8)%nat; [exact H|].
  destruct w as [be tr]. destruct f as [f4 f5 fs fu fp ft c2 c3u c3s cu cs].
  unfold run, listUsers. cbn [db trace f_listUsers].
  destruct f4; cbn [data fst snd failed ok].
  - unfold selectSchoolByName. cbn [f_lookupSchool db trace].
    destruct (is_some _); [exact H|].
    unfold transaction, cleanup, run, insertSchool, createUser, insertProfile,
      insertTerm, deleteUser, deleteSchool, write, emails_lower_cased in *.
    cbn [f_insertSchool f_createUser f_insertProfile f_insertTerm
         f_cleanup2_school f_cleanup3_user f_cleanup3_school f_catch_user
         f_catch_school db trace].
    destruct fs, fu, fp, ft, c2, c3u, c3s, cu, cs;
      cbn -[adminUser schoolRow adminProfile defaultTerm filter forallb
            String.eqb];
      repeat match goal with
             | |- context [if ?b then _ else _] => destruct b
             end;
      cbn -[adminUser schoolRow adminProfile defaultTerm filter forallb
            String.eqb];
      lower_cased H.
  - destruct (existsb _ (first_page (users be))); [exact H|].
    unfold selectSchoolByName. cbn [f_lookupSchool db trace].
    destruct (is_some _); [exact H|].
    unfold transaction, cleanup, run, insertSchool, createUser, insertProfile,
      insertTerm, deleteUser, deleteSchool, write, emails_lower_cased in *.
    cbn [f_insertSchool f_createUser f_insertProfile f_insertTerm
         f_cleanup2_school f_cleanup3_user f_cleanup3_school f_catch_user
         f_catch_school db trace].
    destruct fs, fu, fp, ft, c2, c3u, c3s, cu, cs;
      cbn -[adminUser schoolRow adminProfile defaultTerm filter forallb
            String.eqb];
      repeat match goal with
             | |- context [if ?b then _ else _] => destruct b
             end;
      cbn -[adminUser schoolRow adminProfile defaultTerm filter forallb
            String.eqb];
      lower_cased H.
Qed.

End ProvisionerFacts.


(* ===================================================================== *)
(** ** The binder: what its transitions guarantee *)
(* ===================================================================== *)

Module BinderFacts.

Import JS Backend Binder.

(** *** Reads *)

Lemma select_single_cases {A : Type} (ft : fault) (keep : A -> bool)
    (rows : list A) :
  (exists msg, select_single ft keep rows = failed msg)
  \/ (exists r, ft = None /\ filter keep rows = [r]
                /\ select_single ft keep rows = ok r).
Proof.
  unfold select_single, single. destruct ft as [msg|].
  - left. exists msg. reflexivity.
  - destruct (filter keep rows) as [|r [|r' l]] eqn:E.
    + left. eexists. reflexivity.
    + right. exists r. repeat split.
    + left. eexists. reflexivity.
Qed.

Lemma filter_singleton {A : Type} (keep : A -> bool) (rows : list A) (r : A) :
  filter keep rows = [r] -> In r rows /\ keep r = true.
Proof.
  intros E. apply filter_In. rewrite E. left. reflexivity.
Qed.

Lemma existsb_false_filter {A : Type} (keep : A -> bool) (rows : list A) :
  existsb keep rows = false -> filter keep rows = [].
Proof.
  induction rows as [|a l IH]; simpl; [reflexivity|].
  intros H. apply orb_false_iff in H as [Ha Hl]. rewrite Ha. exact (IH Hl).
Qed.

(** *** Bind *)

(** Bind either fails and assigns nothing, or binds the state to an active
    profile row of the identity and to the active school of that row. *)
Lemma fetchUserData_cases fl now userId st be :
  fetchUserData fl now userId st be = (false, setIsLoading false st, be)
  \/ exists p s,
       filter (active_profile_of userId) (profiles be) = [p]
       /\ filter (active_school (Profile.tenant_id p)) (schools be) = [s]
       /\ f_profile fl = None /\ f_school fl = None
       /\ fetchUserData fl now userId st be =
            (true, bind p s st,
             snd (updateProfiles (f_lastLogin fl)
                    (profile_in_tenant userId (Profile.tenant_id p))
                    (set_last_login now) be)).
Proof.
  unfold fetchUserData.
  destruct (select_single_cases (f_profile fl) (active_profile_of userId)
              (profiles be)) as [[msg E]|[p [Hf [Hp E]]]]; rewrite E.
  - left. reflexivity.
  - cbn [Backend.error data ok].
    destruct (select_single_cases (f_school fl)
                (active_school (Profile.tenant_id p)) (schools be))
      as [[msg E']|[s [Hf' [Hs E']]]]; rewrite E'.
    + left. reflexivity.
    + right. exists p, s. cbn [Backend.error data ok].
      repeat split; try assumption.
      destruct (updateProfiles _ _ _ be). reflexivity.
Qed.


Lemma bound_rows_are_a_valid_binding userId be p s :
  filter (active_profile_of userId) (profiles be) = [p] ->
  filter (active_school (Profile.tenant_id p)) (schools be) = [s] ->
  has_valid_binding userId be = true.
Proof.
  intros Hp Hs. unfold has_valid_binding.
  apply filter_singleton in Hp as [Hp1 Hp2].
  apply filter_singleton in Hs as [Hs1 Hs2].
  apply existsb_exists. exists p. split; [exact Hp1|].
  rewrite Hp2. cbn [andb]. apply existsb_exists. exists s. split; assumption.
Qed.

(** An identity without an active profile row has no valid binding. *)
Lemma no_active_profile_no_binding userId be :
  existsb (active_profile_of userId) (profiles be) = false ->
  has_valid_binding userId be = false.
Proof.
  unfold has_valid_binding. induction (profiles be) as [|p l IH]; simpl;
    [reflexivity|].
  intros H. apply orb_false_iff in H as [Hp Hl]. rewrite Hp. exact (IH Hl).
Qed.

(** Nor has an identity whose tenants are absent or not active. *)
Lemma no_active_tenant_no_binding userId be :
  (forall p, In p (profiles be) -> Profile.id p = userId ->
             existsb (active_school (Profile.tenant_id p)) (schools be) = false) ->
  has_valid_binding userId be = false.
Proof.
  unfold has_valid_binding. intros H.
  destruct (existsb _ (profiles be)) eqn:E; [|reflexivity].
  apply existsb_exists in E as [p [Hin Hp]].
  apply andb_true_iff in Hp as [Ha Hs].
  unfold active_profile_of in Ha. apply andb_true_iff in Ha as [Hid _].
  apply String.eqb_eq in Hid. rewrite (H p Hin Hid) in Hs. discriminate.
Qed.

Lemma fetchUserData_without_binding fl now userId st be :
  has_valid_binding userId be = false ->
  fetchUserData fl now userId st be = (false, setIsLoading false st, be).
Proof.
  intros H.
  destruct (fetchUserData_cases fl now userId st be)
    as [E|[p [s [Hp [Hs _]]]]]; [exact E|].
  rewrite (bound_rows_are_a_valid_binding userId be p s Hp Hs) in H.
  discriminate.
Qed.

(** C2, as the code has it.  A Bind against an identity whose profile row
    is absent or inactive, or whose tenant is absent or not active, reports
    failure and assigns none of the bound fields: the state is the one
    before the call with [isLoading] off, and the backend is untouched.  So
    fields that were cleared remain cleared, and no field is ever bound
    without the others.  After a sign-in whose Bind fails so, the caller gets
    the failure "Failed to load user data"; the state holds the new session
    and the bound fields it had before. *)
Theorem failed_bind_assigns_nothing env email password userId st be :
  has_valid_binding userId be = false ->
  fetchUserData (f_fetch env) (now env) userId st be
    = (false, setIsLoading false st, be)
  /\ (cleared st ->
      cleared (snd (fst (fetchUserData (f_fetch env) (now env) userId st be))))
  /\ (forall u s,
         signIn_reply env = mkAuthResponse (Some u) (Some s) None ->
         User.id u = userId ->
         signIn env email password st be
           = (failed_with "Failed to load user data",
              setIsLoading false (setSession (Some s) st), be)).
Proof.
  intros H. split; [|split].
  - apply fetchUserData_without_binding. exact H.
  - rewrite (fetchUserData_without_binding _ _ _ _ _ H). intros C. exact C.
  - intros u s Hr Hu. unfold signIn. rewrite Hr. cbn [a_error a_session a_user].
    rewrite Hu.
    rewrite (fetchUserData_without_binding _ _ _ _ _ H). reflexivity.
Qed.

Lemma failed_bind_assigns_nothing_witness :
  signIn BinderExamples.calm "Admin@x.edu" "Passw0rd!"
    BinderExamples.signed_out BinderExamples.deactivated_backend
  = (failed_with "Failed to load user data",
     setSession (Some BinderExamples.ada_session) BinderExamples.signed_out,
     BinderExamples.deactivated_backend).
Proof.
  destruct
    (failed_bind_assigns_nothing BinderExamples.calm "Admin@x.edu" "Passw0rd!"
       "u-1" BinderExamples.signed_out BinderExamples.deactivated_backend
       eq_refl) as [_ [_ H]].
  exact (H _ _ eq_refl eq_refl).
Defined.

(** C2, as stated, fails: Ada is bound to Lincoln and her profile is then
    deactivated; the next Bind reports failure and leaves her profile,
    school, role and tenant bound, so the Binder is not Unauthenticated. *)
Lemma failed_bind_keeps_the_old_binding :
  let out :=
    fetchUserData BinderExamples.no_fetch_faults "2025-03-02T08:00:00.000Z"
      "u-1" BinderExamples.ada_bound BinderExamples.deactivated_backend in
  existsb (active_profile_of "u-1") (profiles BinderExamples.deactivated_backend)
    = false
  /\ fst (fst out) = false
  /\ user (snd (fst out)) = Some (BinderExamples.ada true)
  /\ school (snd (fst out)) = Some BinderExamples.lincoln_school
  /\ role (snd (fst out)) = Some admin
  /\ tenantId (snd (fst out)) = Some "t-1"
  /\ ~ unauthenticated (snd (fst out)).
Proof.
  repeat split; try reflexivity.
  intros [Hs _]. discriminate Hs.
Qed.

(** Where the identity provider pushes a session whose claims name a tenant
    and the Bind fails, the handler asks the provider to sign out; the
    push of the empty session that follows is what clears the fields. *)
Lemma pushed_session_without_binding env s st be :
  truthy (Claims.tenant_id (User.user_metadata (Session.user s))) = true ->
  has_valid_binding (User.id (Session.user s)) be = false ->
  onAuthStateChange env (Some s) st be
  = (true, setIsLoading false (setSession (Some s) st), be).
Proof.
  intros Ht H. unfold onAuthStateChange.
  rewrite (fetchUserData_without_binding _ _ _ _ _ H), Ht. reflexivity.
Qed.

Lemma pushed_sign_out_clears env st be :
  unauthenticated (snd (fst (onAuthStateChange env None st be))).
Proof. repeat split. Qed.

(** *** SignOut *)

(** C5, as the code has it.  [signOut] resolves to nothing and has no way to
    fail its caller.  When the provider revokes the session, the session and
    the four bound fields are cleared.  When the revocation errors, the
    state is left exactly as it was.  From the Unauthenticated state it is a
    no-op either way. *)
Theorem signOut_clears_when_revoked env st :
  (f_signOut env = None ->
   signOut env st
     = mkState (initialized st) None None None None None (isLoading st))
  /\ (forall msg, f_signOut env = Some msg -> signOut env st = st)
  /\ (unauthenticated st -> signOut env st = st).
Proof.
  unfold signOut. split; [|split].
  - intros E. rewrite E. reflexivity.
  - intros msg E. rewrite E. reflexivity.
  - intros [Hs [Hu [Hsc [Hr Ht]]]]. destruct (f_signOut env); [reflexivity|].
    destruct st as [i se u sc r t l]. cbn in *. subst. reflexivity.
Qed.

Lemma signOut_clears_when_revoked_witness :
  signOut BinderExamples.calm BinderExamples.ada_bound
  = BinderExamples.signed_out
  /\ signOut BinderExamples.revocation_refused BinderExamples.signed_out
     = BinderExamples.signed_out.
Proof.
  destruct (signOut_clears_when_revoked BinderExamples.calm
              BinderExamples.ada_bound) as [H _].
  destruct (signOut_clears_when_revoked BinderExamples.revocation_refused
              BinderExamples.signed_out) as [_ [H' _]].
  split; [exact (H eq_refl) | exact (H' _ eq_refl)].
Defined.

(** C5, as stated, fails: when the revocation errors, [signOut] returns
    before it clears anything, and Ada stays bound. *)
Lemma refused_revocation_keeps_the_binding :
  signOut BinderExamples.revocation_refused BinderExamples.ada_bound
    = BinderExamples.ada_bound
  /\ ~ unauthenticated
        (signOut BinderExamples.revocation_refused BinderExamples.ada_bound).
Proof.
  split; [reflexivity|]. intros [Hs _]. discriminate Hs.
Qed.

(** *** SwitchTenant *)

(** C3.  With an identity signed in, a switch to a tenant for which that
    identity has no profile row is answered with the failure "Access denied
    to this tenant"; the state of the provider (session, user, school, role,
    tenant) and the backend, the claims of the identity among it, are
    exactly what they were. *)
Theorem switch_without_profile_is_denied env newTenantId st be s :
  session st = Some s ->
  has_profile_in (User.id (Session.user s)) newTenantId be = false ->
  switchTenant env newTenantId st be
    = (failed_with "Access denied to this tenant", st, be).
Proof.
  intros Hs Hp. unfold switchTenant. rewrite Hs.
  unfold select_single. destruct (f_switchProfile env); [reflexivity|].
  unfold has_profile_in in Hp. rewrite (existsb_false_filter _ _ Hp).
  reflexivity.
Qed.

Lemma switch_without_profile_is_denied_witness :
  switchTenant BinderExamples.calm "t-2" BinderExamples.ada_bound
    BinderExamples.lincoln_backend
  = (failed_with "Access denied to this tenant", BinderExamples.ada_bound,
     BinderExamples.lincoln_backend).
Proof.
  exact (switch_without_profile_is_denied BinderExamples.calm "t-2"
           BinderExamples.ada_bound BinderExamples.lincoln_backend
           BinderExamples.ada_session eq_refl eq_refl).
Defined.


(** *** The [last_login] write *)

(** What Bind reports and the state it leaves do not depend on the fate of
    the [last_login] write. *)
Lemma fetchUserData_view fp fs l1 l2 now userId st be :
  fst (fetchUserData (mkFetchFaults fp fs l1) now userId st be)
  = fst (fetchUserData (mkFetchFaults fp fs l2) now userId st be).
Proof.
  unfold fetchUserData. cbn [f_profile f_school f_lastLogin].
  destruct (select_single fp (active_profile_of userId) (profiles be))
    as [[p|] [e|]]; try reflexivity.
  cbn [Backend.error data].
  destruct (select_single fs (active_school (Profile.tenant_id p)) (schools be))
    as [[s|] [e|]]; try reflexivity.
  destruct (updateProfiles l1 _ _ be), (updateProfiles l2 _ _ be). reflexivity.
Qed.

Ltac fetch_both :=
  match goal with
  | |- context [fetchUserData (mkFetchFaults ?fp ?fs ?l1) ?n ?u ?st ?be] =>
      match goal with
      | |- context [fetchUserData (mkFetchFaults fp fs ?l2) n u st be] =>
          lazymatch l2 with
          | l1 => fail
          | _ =>
              let H := fresh "H" in
              pose proof (fetchUserData_view fp fs l1 l2 n u st be) as H;
              destruct (fetchUserData (mkFetchFaults fp fs l1) n u st be)
                as [[? ?] ?];
              destruct (fetchUserData (mkFetchFaults fp fs l2) n u st be)
                as [[? ?] ?];
              cbn [fst] in H; inversion H; subst; clear H
          end
      end
  end.

Lemma last_login_written_map now userId tenant (rows : list Profile.t) :
  Forall2 (last_login_written now userId tenant) rows
    (map (fun q => if profile_in_tenant userId tenant q
                   then set_last_login now q else q) rows).
Proof.
  induction rows as [|q rows IH]; cbn [map]; constructor; [|exact IH].
  unfold last_login_written.
  destruct (profile_in_tenant userId tenant q); [|reflexivity].
  split; [reflexivity|]. repeat split.
Qed.

(** C9.  Every successful Bind writes [last_login], and what becomes of
    the write is not looked at.  Whatever operation triggers the Bind
    (sign-in, tenant switch, refresh, or any other), what its promise
    resolves to and the state it leaves are the same whether the write
    fails or goes through; so are the report and the state of Bind itself.
    A Bind whose two reads find a profile and a school and whose write
    fails reports success, leaves the state bound to that profile and
    school, and leaves the backend as it was.  When the write goes through,
    the report and the state are the same, and in the backend that Bind
    leaves (line 240 waits for the write and drops its answer) every row of
    the identity in the bound tenant, the bound row among them, has the
    time of the Bind as its [last_login] and its other columns as they
    were, and every other row is as it was. *)
Theorem failed_last_login_is_silent env msg op userId st be :
  fst (step (with_lastLogin (Some msg) env) op st be)
  = fst (step (with_lastLogin None env) op st be)
  /\ fst (fetchUserData (f_fetch (with_lastLogin (Some msg) env)) (now env)
            userId st be)
     = fst (fetchUserData (f_fetch (with_lastLogin None env)) (now env)
              userId st be)
  /\ (forall p s,
         f_profile (f_fetch env) = None ->
         f_school (f_fetch env) = None ->
         filter (active_profile_of userId) (profiles be) = [p] ->
         filter (active_school (Profile.tenant_id p)) (schools be) = [s] ->
         fetchUserData (f_fetch (with_lastLogin (Some msg) env)) (now env)
           userId st be
         = (true, bind p s st, be)
         /\ fetchUserData (f_fetch (with_lastLogin None env)) (now env)
              userId st be
            = (true, bind p s st,
               with_profiles
                 (map (fun q =>
                         if profile_in_tenant userId (Profile.tenant_id p) q
                         then set_last_login (now env) q else q)
                    (profiles be)) be)
         /\ Forall2
              (last_login_written (now env) userId (Profile.tenant_id p))
              (profiles be)
              (profiles
                 (snd (fetchUserData (f_fetch (with_lastLogin None env))
                         (now env) userId st be)))
         /\ exists q,
              In q
                (profiles
                   (snd (fetchUserData (f_fetch (with_lastLogin None env))
                           (now env) userId st be)))
              /\ Profile.id q = userId
              /\ Profile.tenant_id q = Profile.tenant_id p
              /\ Profile.last_login q = Some (now env)).
Proof.
  destruct env as [n sid sur sir [fp fs fl] fso fis fip fit fipa fup fsp fuu].
  unfold with_lastLogin.
  cbn [now new_school_id signUp_reply signIn_reply f_fetch f_signOut
       f_insertSchool f_insertProfile f_insertTeacher f_insertParent
       f_updateProfile f_switchProfile f_updateUser f_profile f_school
       f_lastLogin].
  split; [|split].
  - destruct op as [restored|pushed|email password r sd|email password| |
                    |updates|newTenantId]; unfold step.
    + unfold start. cbn [f_fetch now].
      destruct restored as [s|]; [fetch_both; reflexivity | reflexivity].
    + unfold onAuthStateChange. cbn [f_fetch now].
      destruct pushed as [s|]; [fetch_both|reflexivity].
      destruct (truthy _); reflexivity.
    + unfold signUp.
      cbn [f_fetch now signUp_reply f_insertProfile].
      replace (signUp_school
                 (mkEnv n sid sur sir (mkFetchFaults fp fs (Some msg)) fso fis
                    fip fit fipa fup fsp fuu) r sd be)
        with (signUp_school
                (mkEnv n sid sur sir (mkFetchFaults fp fs None) fso fis
                   fip fit fipa fup fsp fuu) r sd be)
        by reflexivity.
      destruct (signUp_school _ r sd be) as [[schoolId|] be1]; [|reflexivity].
      destruct (a_error sur); [reflexivity|].
      destruct (a_user sur) as [u|]; [|reflexivity].
      destruct (insertProfile fip _ _) as [profile be2].
      destruct (Backend.error profile); [reflexivity|].
      replace (signUp_extension
                 (mkEnv n sid sur sir (mkFetchFaults fp fs (Some msg)) fso fis
                    fip fit fipa fup fsp fuu) r schoolId (User.id u) be2)
        with (signUp_extension
                (mkEnv n sid sur sir (mkFetchFaults fp fs None) fso fis
                   fip fit fipa fup fsp fuu) r schoolId (User.id u) be2)
        by reflexivity.
      destruct (a_session sur); [fetch_both; reflexivity | reflexivity].
    + unfold signIn. cbn [f_fetch now signIn_reply].
      destruct (a_error sir); [reflexivity|].
      destruct (a_session sir); [|reflexivity].
      destruct (a_user sir); [|reflexivity].
      fetch_both.
      match goal with |- context [if ?b then _ else _] => destruct b end;
        reflexivity.
    + reflexivity.
    + unfold refreshUserData. cbn [f_fetch now].
      destruct (session st) as [s|]; [|reflexivity].
      destruct (truthy _); [fetch_both; reflexivity | reflexivity].
    + unfold updateProfile. cbn [f_updateProfile].
      destruct (user st); [|reflexivity].
      destruct (negb _); [reflexivity|].
      destruct (updateProfiles fup _ _ be) as [reply be1].
      destruct (Backend.error reply); [reflexivity|].
      unfold refreshUserData. cbn [f_fetch now].
      destruct (session st) as [s|]; [|reflexivity].
      destruct (truthy _); [fetch_both; reflexivity | reflexivity].
    + unfold switchTenant. cbn [f_switchProfile f_updateUser f_fetch now].
      destruct (session st) as [s|]; [|reflexivity].
      destruct (select_single fsp
                  (profile_in_tenant (User.id (Session.user s)) newTenantId)
                  (profiles be))
        as [[p|] [e|]]; try reflexivity.
      cbn [Backend.error data].
      destruct (updateUser fuu _ _ _ be) as [reply be1].
      destruct (Backend.error reply); [reflexivity|].
      fetch_both.
      match goal with |- context [if ?b then _ else _] => destruct b end;
        reflexivity.
  - apply fetchUserData_view.
  - intros p s Hfp Hfs Hp Hs. subst fp fs.
    unfold fetchUserData, select_single.
    cbn [f_profile f_school f_lastLogin]. rewrite Hp.
    cbn [single ok Backend.error data].
    rewrite Hs. cbn [single ok Backend.error data updateProfiles write snd].
    split; [reflexivity|]. split; [reflexivity|].
    cbn [profiles with_profiles]. split; [apply last_login_written_map|].
    destruct (filter_singleton _ _ _ Hp) as [Hin Hact].
    unfold active_profile_of in Hact. apply andb_true_iff in Hact as [Hid _].
    exists (set_last_login n p). split; [|split; [|split]].
    + apply in_map_iff. exists p. split; [|exact Hin].
      unfold profile_in_tenant. rewrite Hid, String.eqb_refl. reflexivity.
    + apply String.eqb_eq. exact Hid.
    + reflexivity.
    + reflexivity.
Qed.

Lemma failed_last_login_is_silent_witness :
  fst (step (with_lastLogin (Some "write refused") BinderExamples.calm)
         (SignIn "admin@x.edu" "Passw0rd!") BinderExamples.signed_out
         BinderExamples.lincoln_backend)
  = (Some succeeded, BinderExamples.ada_bound)
  /\ map Profile.last_login
       (profiles
          (snd (fetchUserData (f_fetch BinderExamples.calm)
                  (now BinderExamples.calm) "u-1" BinderExamples.signed_out
                  BinderExamples.lincoln_backend)))
     = [Some "2025-03-02T08:00:00.000Z"].
Proof.
  destruct (failed_last_login_is_silent BinderExamples.calm "write refused"
              (SignIn "admin@x.edu" "Passw0rd!") "u-1"
              BinderExamples.signed_out BinderExamples.lincoln_backend)
    as [Hstep [_ Hbind]].
  split; [exact (eq_trans Hstep eq_refl)|].
  destruct (Hbind (BinderExamples.ada true) BinderExamples.lincoln_school
              eq_refl eq_refl eq_refl eq_refl) as [_ [Hwritten _]].
  exact (f_equal (fun out => map Profile.last_login (profiles (snd out)))
           Hwritten).
Defined.


(** *** The bound fields agree with one another *)

Lemma SubscriptionStatus_eqb_eq a b :
  SubscriptionStatus_eqb a b = true -> a = b.
Proof. destruct a, b; simpl; intros H; try reflexivity; discriminate. Qed.

Lemma consistent_cleared st :
  cleared st -> consistent st.
Proof.
  intros [Hu [Hs [Hr Ht]]]. unfold consistent. rewrite Hu, Hs, Hr, Ht. exact I.
Qed.

(** The state a successful Bind leaves is consistent: the filters of the
    two reads are what makes it so. *)
Lemma consistent_bind userId p s st be :
  filter (active_profile_of userId) (profiles be) = [p] ->
  filter (active_school (Profile.tenant_id p)) (schools be) = [s] ->
  consistent (bind p s st).
Proof.
  intros Hp Hs.
  apply filter_singleton in Hp as [_ Hp]. apply filter_singleton in Hs as [_ Hs].
  unfold active_profile_of in Hp. apply andb_true_iff in Hp as [_ Hact].
  unfold active_school in Hs. apply andb_true_iff in Hs as [Hid Hst].
  apply String.eqb_eq in Hid. apply SubscriptionStatus_eqb_eq in Hst.
  apply Bool.eqb_prop in Hact.
  unfold consistent, bind. cbn [user school role tenantId].
  repeat split; assumption.
Qed.

Lemma fetchUserData_consistent fl now userId st be :
  consistent st ->
  consistent (snd (fst (fetchUserData fl now userId st be))).
Proof.
  intros H.
  destruct (fetchUserData_cases fl now userId st be)
    as [E|[p [s [Hp [Hs [_ [_ E]]]]]]]; rewrite E; cbn [fst snd].
  - exact H.
  - exact (consistent_bind userId p s st be Hp Hs).
Qed.

Ltac after_fetch H :=
  match goal with
  | |- context [fetchUserData ?fl ?n ?u ?st ?be] =>
      let K := fresh "K" in
      assert (K : consistent st) by exact H;
      apply (fetchUserData_consistent fl n u st be) in K;
      destruct (fetchUserData fl n u st be) as [[? ?] ?];
      cbn [fst snd] in K
  end.

Lemma refreshUserData_consistent env st be :
  consistent st -> consistent (fst (refreshUserData env st be)).
Proof.
  intros H. unfold refreshUserData.
  destruct (session st) as [s|]; [|exact H].
  destruct (truthy _); [|exact H].
  after_fetch H. exact K.
Qed.

(** Every transition keeps the bound fields consistent. *)
Lemma step_consistent env op st be :
  consistent st -> consistent (snd (fst (step env op st be))).
Proof.
  intros H.
  destruct op as [restored|pushed|email password r sd|email password| |
                  |updates|newTenantId]; unfold step.
  - unfold start. destruct restored as [s|].
    + after_fetch H. exact K.
    + exact H.
  - unfold onAuthStateChange. destruct pushed as [s|].
    + after_fetch H. destruct (truthy _); exact K.
    + exact I.
  - unfold signUp.
    destruct (signUp_school env r sd be) as [[schoolId|] be1]; [|exact H].
    destruct (a_error (signUp_reply env)); [exact H|].
    destruct (a_user (signUp_reply env)) as [u|]; [|exact H].
    destruct (insertProfile _ _ _) as [profile be2].
    destruct (Backend.error profile); [exact H|].
    destruct (a_session (signUp_reply env)); [|exact H].
    after_fetch H. exact K.
  - unfold signIn.
    destruct (a_error (signIn_reply env)); [exact H|].
    destruct (a_session (signIn_reply env)); [|exact H].
    destruct (a_user (signIn_reply env)); [|exact H].
    after_fetch H.
    match goal with |- context [if ?b then _ else _] => destruct b end; exact K.
  - unfold signOut. destruct (f_signOut env); [exact H | exact I].
  - pose proof (refreshUserData_consistent env st be H) as K.
    destruct (refreshUserData env st be). exact K.
  - unfold updateProfile.
    destruct (user st) eqn:Eu; [|exact H].
    destruct (negb _); [exact H|].
    destruct (updateProfiles _ _ _ be) as [reply be1].
    destruct (Backend.error reply); [exact H|].
    pose proof (refreshUserData_consistent env st be1 H) as K.
    destruct (refreshUserData env st be1). exact K.
  - unfold switchTenant.
    destruct (session st) as [s|]; [|exact H].
    destruct (select_single (f_switchProfile env)
                (profile_in_tenant (User.id (Session.user s)) newTenantId)
                (profiles be)) as [[p|] [e|]]; try exact H.
    cbn [Backend.error data].
    destruct (updateUser _ _ _ _ be) as [reply be1].
    destruct (Backend.error reply); [exact H|].
    after_fetch H.
    match goal with |- context [if ?b then _ else _] => destruct b end; exact K.
Qed.

Lemma reachable_consistent st : reachable st -> consistent st.
Proof.
  induction 1 as [|env op st be _ IH].
  - exact I.
  - apply step_consistent. exact IH.
Qed.

(** C10.  In every state the provider can reach, the four bound fields
    stand or fall together.  Where a profile is bound, the bound role is
    that profile's role, the bound tenant is that profile's [tenant_id], a
    school is bound whose id is that [tenant_id] and whose subscription is
    active, and the profile is active.  Where no profile is bound, the
    school, the role and the tenant are unbound as well. *)
Theorem bound_fields_stand_together st :
  reachable st ->
  (forall p,
      user st = Some p ->
      role st = Some (Profile.role p)
      /\ tenantId st = Some (Profile.tenant_id p)
      /\ Profile.is_active p = true
      /\ exists s,
           school st = Some s
           /\ School.id s = Profile.tenant_id p
           /\ School.subscription_status s = active)
  /\ (user st = None -> cleared st).
Proof.
  intros R. apply reachable_consistent in R. unfold consistent in R.
  unfold cleared.
  destruct (user st) as [p|], (school st) as [s|], (role st) as [r|],
    (tenantId st) as [t|]; try contradiction.
  - destruct R as [Hr [Ht [Hid [Hst Hact]]]]. split.
    + intros p' E. injection E as <-. subst r t.
      repeat split; try assumption. exists s. repeat split; assumption.
    + discriminate.
  - split; [discriminate|]. intros _. repeat split.
Qed.

Lemma bound_fields_stand_together_witness :
  let st :=
    snd (fst (step BinderExamples.calm (SignIn "admin@x.edu" "Passw0rd!")
                initial BinderExamples.lincoln_backend)) in
  user st = Some (BinderExamples.ada true)
  /\ role st = Some admin
  /\ tenantId st = Some "t-1"
  /\ school st = Some BinderExamples.lincoln_school.
Proof.
  intros st.
  destruct (bound_fields_stand_together st
              (reachable_step BinderExamples.calm
                 (SignIn "admin@x.edu" "Passw0rd!") initial
                 BinderExamples.lincoln_backend reachable_initial))
    as [H _].
  destruct (H (BinderExamples.ada true) eq_refl) as [Hr [Ht [_ [s [Hs _]]]]].
  split; [reflexivity|]. split; [exact Hr|]. split; [exact Ht|].
  reflexivity.
Defined.


(** *** UpdateProfile *)

Lemma allowedUpdates_stripped u :
  ProfilePatch.id (allowedUpdates u) = None
  /\ ProfilePatch.tenant_id (allowedUpdates u) = None
  /\ ProfilePatch.created_at (allowedUpdates u) = None.
Proof. repeat split. Qed.

Lemma apply_allowed_protected u p :
  protected_columns (apply_patch (allowedUpdates u) p) = protected_columns p.
Proof. reflexivity. Qed.

Lemma map_if_protected (keep : Profile.t -> bool) (change : Profile.t -> Profile.t)
    (l : list Profile.t) :
  (forall p, protected_columns (change p) = protected_columns p) ->
  map protected_columns (map (fun p => if keep p then change p else p) l)
  = map protected_columns l.
Proof.
  intros H. rewrite map_map. apply map_ext. intros p.
  destruct (keep p); [apply H | reflexivity].
Qed.

Lemma updateProfiles_protected ft keep change be :
  (forall p, protected_columns (change p) = protected_columns p) ->
  map protected_columns (profiles (snd (updateProfiles ft keep change be)))
  = map protected_columns (profiles be).
Proof.
  intros H. unfold updateProfiles, write. destruct ft; [reflexivity|].
  cbn [snd with_profiles profiles]. apply map_if_protected. exact H.
Qed.

Lemma fetchUserData_protected fl now userId st be :
  map protected_columns (profiles (snd (fetchUserData fl now userId st be)))
  = map protected_columns (profiles be).
Proof.
  destruct (fetchUserData_cases fl now userId st be)
    as [E|[p [s [_ [_ [_ [_ E]]]]]]]; rewrite E; cbn [snd]; [reflexivity|].
  apply updateProfiles_protected. intros q. reflexivity.
Qed.

Lemma refreshUserData_protected env st be :
  map protected_columns (profiles (snd (refreshUserData env st be)))
  = map protected_columns (profiles be).
Proof.
  unfold refreshUserData.
  destruct (session st) as [s|]; [|reflexivity].
  destruct (truthy _); [|reflexivity].
  pose proof (fetchUserData_protected (f_fetch env) (now env)
                (User.id (Session.user s)) st be) as H.
  destruct (fetchUserData _ _ _ st be) as [[ok st'] be']. exact H.
Qed.

(** Whatever its input and whatever fails, [updateProfile] leaves the [id],
    the [tenant_id] and the [created_at] of every profile row as they
    were. *)
Lemma updateProfile_protected env updates st be :
  map protected_columns (profiles (snd (updateProfile env updates st be)))
  = map protected_columns (profiles be).
Proof.
  unfold updateProfile.
  destruct (user st) as [u|]; [|reflexivity].
  destruct (negb _); [reflexivity|].
  pose proof (updateProfiles_protected (f_updateProfile env)
                (profile_in_tenant (Profile.id u) (str (tenantId st)))
                (apply_patch (allowedUpdates updates)) be
                (apply_allowed_protected updates)) as H1.
  destruct (updateProfiles _ _ _ be) as [reply be1]. cbn [snd] in H1.
  destruct (Backend.error reply); [exact H1|].
  pose proof (refreshUserData_protected env st be1) as H2.
  destruct (refreshUserData env st be1) as [st' be']. cbn [snd] in *.
  rewrite H2. exact H1.
Qed.

Lemma filter_map_same {A : Type} (keep : A -> bool) (g : A -> A) (l : list A) :
  (forall a, keep (g a) = keep a) ->
  filter keep (map g l) = map g (filter keep l).
Proof.
  intros H. induction l as [|a l IH]; simpl; [reflexivity|].
  rewrite H. destruct (keep a); simpl; rewrite IH; reflexivity.
Qed.

Lemma filter_andb {A : Type} (f g : A -> bool) (l : list A) :
  filter (fun a => f a && g a) l = filter g (filter f l).
Proof.
  induction l as [|a l IH]; simpl; [reflexivity|].
  destruct (f a); simpl; [destruct (g a)|]; rewrite IH; reflexivity.
Qed.

(** The rows an update changes are the rows its filter keeps. *)
Lemma updateProfiles_scoped ft keep change be i p :
  nth_error (profiles be) i = Some p -> keep p = false ->
  nth_error (profiles (snd (updateProfiles ft keep change be))) i = Some p.
Proof.
  intros Hn Hk. unfold updateProfiles, write. destruct ft; [exact Hn|].
  cbn [snd with_profiles profiles]. rewrite nth_error_map, Hn. cbn.
  rewrite Hk. reflexivity.
Qed.


Lemma filter_map_same_in {A : Type} (keep : A -> bool) (g : A -> A)
    (l : list A) :
  (forall a, In a l -> keep (g a) = keep a) ->
  filter keep (map g l) = map g (filter keep l).
Proof.
  induction l as [|a l IH]; intros H; [reflexivity|].
  cbn [map filter]. rewrite (H a (or_introl eq_refl)).
  rewrite IH by (intros b Hb; apply H; right; exact Hb).
  destruct (keep a); reflexivity.
Qed.

(** The row that the filter of the write keeps is the bound row. *)
Lemma kept_row_is_the_bound_one (keep : Profile.t -> bool) rows p0 q :
  filter keep rows = [p0] -> In q rows -> keep q = true -> q = p0.
Proof.
  intros Hf Hin Hk.
  assert (H : In q (filter keep rows)) by (apply filter_In; split; assumption).
  rewrite Hf in H. destruct H as [H|[]]. symmetry. exact H.
Qed.

(** A patch that does not deactivate leaves the bound row active. *)
Lemma patched_row_stays_active updates p0 :
  active_profile_of (Profile.id p0) p0 = true ->
  deactivates updates = false ->
  active_profile_of (Profile.id p0) (apply_patch (allowedUpdates updates) p0)
  = true.
Proof.
  unfold active_profile_of, deactivates.
  cbn [apply_patch allowedUpdates Profile.id Profile.is_active
       ProfilePatch.id ProfilePatch.is_active or_else].
  intros Ha Hd. apply andb_true_iff in Ha as [Hid Hact].
  rewrite Hid. cbn [andb].
  destruct (ProfilePatch.is_active updates) as [[|]|]; try discriminate;
    [reflexivity|exact Hact].
Qed.

(** The row-by-row change of the write of [updateProfile]: the re-Bind
    finds the patched row, also when the identity has rows in other
    tenants. *)
Lemma rebind_finds_the_updated_row updates (p0 : Profile.t) rows :
  filter (active_profile_of (Profile.id p0)) rows = [p0] ->
  filter (profile_in_tenant (Profile.id p0) (Profile.tenant_id p0)) rows
  = [p0] ->
  deactivates updates = false ->
  filter (active_profile_of (Profile.id p0))
    (map (fun p => if profile_in_tenant (Profile.id p0) (Profile.tenant_id p0) p
                   then apply_patch (allowedUpdates updates) p else p) rows)
  = [apply_patch (allowedUpdates updates) p0].
Proof.
  intros Hact Hrow Hde.
  destruct (filter_singleton _ _ _ Hact) as [_ Ha0].
  destruct (filter_singleton _ _ _ Hrow) as [_ Ht0].
  rewrite filter_map_same_in.
  - rewrite Hact. cbn [map]. rewrite Ht0. reflexivity.
  - intros q Hin.
    destruct (profile_in_tenant (Profile.id p0) (Profile.tenant_id p0) q)
      eqn:Hq; [|reflexivity].
    rewrite (kept_row_is_the_bound_one _ rows p0 q Hrow Hin Hq).
    rewrite Ha0. apply patched_row_stays_active; assumption.
Qed.

(** Whatever the patch, an active row of the identity among the written
    rows is in the bound tenant. *)
Lemma active_row_is_in_the_bound_tenant updates (p0 : Profile.t) rows p' :
  filter (active_profile_of (Profile.id p0)) rows = [p0] ->
  filter (profile_in_tenant (Profile.id p0) (Profile.tenant_id p0)) rows
  = [p0] ->
  In p'
    (map (fun p => if profile_in_tenant (Profile.id p0) (Profile.tenant_id p0) p
                   then apply_patch (allowedUpdates updates) p else p) rows) ->
  active_profile_of (Profile.id p0) p' = true ->
  Profile.tenant_id p' = Profile.tenant_id p0.
Proof.
  intros Hact Hrow Hin Ha.
  apply in_map_iff in Hin as [q [Hq Hin]].
  destruct (profile_in_tenant (Profile.id p0) (Profile.tenant_id p0) q) eqn:Hk.
  - rewrite (kept_row_is_the_bound_one _ rows p0 q Hrow Hin Hk) in Hq.
    subst p'. reflexivity.
  - subst p'.
    rewrite (kept_row_is_the_bound_one _ rows p0 q Hact Hin Ha) in Hk.
    destruct (filter_singleton _ _ _ Hrow) as [_ Ht0]. congruence.
Qed.

(** In the Bound state, whatever the patch and whatever fails, a row that
    the filter [id = bound user id, tenant_id = bound tenant] does not keep
    is after the call where and what it was before. *)
Lemma updateProfile_scoped env updates st be p0 s0 i p :
  bound_in_step st be p0 s0 ->
  nth_error (profiles be) i = Some p ->
  profile_in_tenant (Profile.id p0) (Profile.tenant_id p0) p = false ->
  nth_error (profiles (snd (updateProfile env updates st be))) i = Some p.
Proof.
  intros [(s & u & Hs & Hu & Hsid & Huid) (Ht & Hti & Htt & Hact & Hrow & Hsch)]
    Hn Hk.
  unfold updateProfile. rewrite Hu, Ht, Htt, Huid. cbn [negb str].
  unfold updateProfiles at 1. unfold write.
  destruct (f_updateProfile env) as [msg|];
    cbn [Backend.error failed written snd]; [exact Hn|].
  unfold refreshUserData. rewrite Hs, Hsid, Hti.
  match goal with
  | |- context [fetchUserData ?fl ?n ?uid st ?b] =>
      destruct (fetchUserData_cases fl n uid st b)
        as [E|[p' [s' [Hp' [_ [_ [_ E]]]]]]]; rewrite E; cbn [snd]
  end.
  - cbn [profiles with_profiles]. rewrite nth_error_map, Hn. cbn.
    rewrite Hk. reflexivity.
  - cbn [profiles with_profiles] in Hp'.
    destruct (filter_singleton _ _ _ Hp') as [Hin' Ha'].
    rewrite (active_row_is_in_the_bound_tenant updates p0 (profiles be) p'
               Hact Hrow Hin' Ha').
    apply updateProfiles_scoped; [|exact Hk].
    cbn [profiles with_profiles]. rewrite nth_error_map, Hn. cbn.
    rewrite Hk. reflexivity.
Qed.

Lemma updateProfile_in_step env updates st be p0 s0 :
  bound_in_step st be p0 s0 ->
  f_updateProfile env = None ->
  f_profile (f_fetch env) = None ->
  f_school (f_fetch env) = None ->
  deactivates updates = false ->
  updateProfile env updates st be
  = (succeeded,
     bind (apply_patch (allowedUpdates updates) p0) s0 st,
     snd (updateProfiles (f_lastLogin (f_fetch env))
            (profile_in_tenant (Profile.id p0) (Profile.tenant_id p0))
            (set_last_login (now env))
            (snd (updateProfiles None
                    (profile_in_tenant (Profile.id p0) (Profile.tenant_id p0))
                    (apply_patch (allowedUpdates updates)) be)))).
Proof.
  intros [(s & u & Hs & Hu & Hsid & Huid) (Ht & Hti & Htt & Hact & Hrow & Hsch)]
    Hf1 Hf2 Hf3 Hde.
  unfold updateProfile. rewrite Hu, Ht, Htt, Hf1, Huid. cbn [negb str].
  destruct (updateProfiles None
              (profile_in_tenant (Profile.id p0) (Profile.tenant_id p0))
              (apply_patch (allowedUpdates updates)) be) as [reply be1] eqn:E1.
  unfold updateProfiles, write in E1. injection E1 as <- <-.
  cbn [Backend.error written snd].
  unfold refreshUserData. rewrite Hs, Hsid, Hti.
  unfold fetchUserData, select_single. rewrite Hf2, Hf3.
  cbn [with_profiles profiles schools].
  rewrite (rebind_finds_the_updated_row updates p0 (profiles be) Hact Hrow Hde).
  cbn [single ok Backend.error data].
  change (Profile.tenant_id (apply_patch (allowedUpdates updates) p0))
    with (Profile.tenant_id p0).
  rewrite Hsch. cbn [single ok Backend.error data].
  match goal with
  | |- context [updateProfiles ?ft ?k ?c ?b] =>
      destruct (updateProfiles ft k c b) as [reply2 be2]
  end.
  reflexivity.
Qed.

(** C6, corrected.  For every [updateProfile] call in the Bound state, in
    step with the backend, whatever the input holds and whatever fails:
    the [id], [tenant_id] and [created_at] of the input are stripped before
    the write, and those columns of every profile row are after the call
    what they were before it; and every row that the filter
    [id = bound user id, tenant_id = bound tenant] does not keep, a row of
    the same identity in another tenant among them, is where and what it
    was.  When the write and the two reads of the re-Bind go through and
    the input does not deactivate the profile, the call succeeds and the
    re-Bind that follows binds the state to the updated row, which carries
    every field of the input, its [first_name] among them, and the [id],
    [tenant_id] and [created_at] it had. *)
Theorem updateProfile_round_trip env updates st be p0 s0 :
  bound_in_step st be p0 s0 ->
  let out := updateProfile env updates st be in
  let row := apply_patch (allowedUpdates updates) p0 in
  (ProfilePatch.id (allowedUpdates updates) = None
   /\ ProfilePatch.tenant_id (allowedUpdates updates) = None
   /\ ProfilePatch.created_at (allowedUpdates updates) = None)
  /\ map protected_columns (profiles (snd out))
     = map protected_columns (profiles be)
  /\ (forall u t i p,
         user st = Some u -> tenantId st = Some t ->
         nth_error (profiles be) i = Some p ->
         profile_in_tenant (Profile.id u) t p = false ->
         nth_error (profiles (snd out)) i = Some p)
  /\ (f_updateProfile env = None ->
      f_profile (f_fetch env) = None ->
      f_school (f_fetch env) = None ->
      deactivates updates = false ->
      fst out = (succeeded, bind row s0 st)
      /\ user (snd (fst out)) = Some row
      /\ protected_columns row = protected_columns p0
      /\ (forall x,
             ProfilePatch.first_name updates = Some x ->
             Profile.first_name row = Some x)).
Proof.
  intros Hstep out row. subst out row.
  split; [apply allowedUpdates_stripped|].
  split; [apply updateProfile_protected|].
  split.
  - intros u t i p Hu Ht Hn Hk.
    pose proof Hstep as [(s & u' & _ & Hu' & _ & Huid) (Ht' & _)].
    rewrite Hu in Hu'. injection Hu' as <-.
    rewrite Ht in Ht'. injection Ht' as ->.
    rewrite Huid in Hk.
    apply (updateProfile_scoped env updates st be p0 s0 i p Hstep Hn Hk).
  - intros Hf1 Hf2 Hf3 Hde.
    rewrite (updateProfile_in_step env updates st be p0 s0 Hstep Hf1 Hf2 Hf3
               Hde).
    cbn [fst snd].
    split; [reflexivity|split; [reflexivity|split; [reflexivity|]]].
    intros x Hx. cbn [apply_patch allowedUpdates Profile.first_name
                      ProfilePatch.first_name].
    rewrite Hx. reflexivity.
Qed.

Lemma updateProfile_round_trip_witness :
  let out :=
    updateProfile BinderExamples.calm BinderExamples.rename_and_more
      BinderExamples.ada_bound BinderMoreExamples.two_tenant_backend in
  fst (fst out) = succeeded
  /\ user (snd (fst out))
     = Some (Profile.mk "u-1" "t-1" "admin@x.edu" admin (Some "X") None None
               None true None "2025-03-01T09:00:00.000Z" None)
  /\ map protected_columns (profiles (snd out))
     = [("u-1", "t-1", "2025-03-01T09:00:00.000Z");
        ("u-1", "t-2", "2025-03-01T09:00:00.000Z")]
  /\ nth_error (profiles (snd out)) 1
     = Some (BinderMoreExamples.ada_at_hilltop false).
Proof.
  destruct
    (updateProfile_round_trip BinderExamples.calm BinderExamples.rename_and_more
       BinderExamples.ada_bound BinderMoreExamples.two_tenant_backend
       (BinderExamples.ada true) BinderExamples.lincoln_school)
    as [_ [Hcols [Hscope Hbound]]].
  - split.
    + exists BinderExamples.ada_session, (BinderExamples.ada true).
      repeat split; reflexivity.
    + repeat split; reflexivity.
  - destruct (Hbound eq_refl eq_refl eq_refl eq_refl) as [Hout [Huser _]].
    split; [rewrite Hout; reflexivity|].
    split; [exact Huser|]. split; [exact Hcols|].
    exact (Hscope (BinderExamples.ada true) "t-1" 1
             (BinderMoreExamples.ada_at_hilltop false)
             eq_refl eq_refl eq_refl eq_refl).
Defined.

(** C6, as stated, fails.  Ada is bound to Lincoln, in step with the
    backend, and updates her profile with
    [{ first_name: "X", is_active: false }]: the write goes through and the
    call reports success, but the re-Bind that follows finds no active row,
    fails without a word, and the state keeps the row it had, whose first
    name is still Ada. *)
Lemma deactivating_update_is_not_reflected :
  let out :=
    updateProfile BinderExamples.calm
      (ProfilePatch.mk None None None None (Some "X") None None None
         (Some false) None None None)
      BinderExamples.ada_bound BinderExamples.lincoln_backend in
  bound_in_step BinderExamples.ada_bound BinderExamples.lincoln_backend
    (BinderExamples.ada true) BinderExamples.lincoln_school
  /\ fst (fst out) = succeeded
  /\ user (snd (fst out)) = Some (BinderExamples.ada true)
  /\ option_map Profile.first_name (user (snd (fst out))) = Some (Some "Ada")
  /\ map Profile.first_name (profiles (snd out)) = [Some "X"].
Proof.
  split.
  - split.
    + exists BinderExamples.ada_session, (BinderExamples.ada true).
      repeat split; reflexivity.
    + repeat split; reflexivity.
  - repeat split; reflexivity.
Qed.

(** Likewise when the first read of the re-Bind is refused: the name is
    written, the call reports success, and the state keeps the old name. *)
Lemma refused_rebind_is_not_reflected :
  let env :=
    mkEnv "2025-03-02T08:00:00.000Z" "t-2"
      (mkAuthResponse None None (Some "Signups not allowed"))
      (mkAuthResponse None None (Some "Invalid login credentials"))
      (mkFetchFaults (Some "read refused") None None)
      None None None None None None None None in
  let out :=
    updateProfile env BinderExamples.rename_and_more BinderExamples.ada_bound
      BinderExamples.lincoln_backend in
  fst (fst out) = succeeded
  /\ user (snd (fst out)) = Some (BinderExamples.ada true)
  /\ map Profile.first_name (profiles (snd out)) = [Some "X"].
Proof. repeat split; reflexivity. Qed.


(** *** The identities stay in lower case *)

Lemma fetchUserData_users fl now userId st be :
  users (snd (fetchUserData fl now userId st be)) = users be.
Proof.
  destruct (fetchUserData_cases fl now userId st be)
    as [E|[p [s [_ [_ [_ [_ E]]]]]]]; rewrite E; cbn [snd]; [reflexivity|].
  unfold updateProfiles, write. destruct (f_lastLogin fl); reflexivity.
Qed.

Ltac users_after_fetch :=
  match goal with
  | |- context [fetchUserData ?fl ?n ?u ?st ?be] =>
      let K := fresh "K" in
      pose proof (fetchUserData_users fl n u st be) as K;
      destruct (fetchUserData fl n u st be) as [[? ?] ?];
      cbn [snd] in K
  end.

Lemma refreshUserData_users env st be :
  users (snd (refreshUserData env st be)) = users be.
Proof.
  unfold refreshUserData.
  destruct (session st) as [s|]; [|reflexivity].
  destruct (truthy _); [|reflexivity].
  users_after_fetch. exact K.
Qed.

Lemma set_claims_email tenant r u :
  AuthUser.email (set_claims tenant r u) = AuthUser.email u.
Proof. reflexivity. Qed.

(** No transition of the binder stores an identity with capitals in its
    e-mail: [signUp] hands the provider the lower-cased e-mail, and
    [switchTenant] changes claims only. *)
Lemma step_keeps_emails_lower_cased env op st be :
  emails_lower_cased be = true ->
  emails_lower_cased (snd (step env op st be)) = true.
Proof.
  intros H.
  destruct op as [restored|pushed|email password r sd|email password| |
                  |updates|newTenantId]; unfold step.
  - unfold start. destruct restored as [s|]; [|exact H].
    users_after_fetch. unfold emails_lower_cased in *. cbn [snd].
    rewrite K. exact H.
  - unfold onAuthStateChange. destruct pushed as [s|]; [|exact H].
    users_after_fetch. unfold emails_lower_cased in *.
    destruct (truthy _); cbn [snd]; rewrite K; exact H.
  - unfold signUp.
    assert (Hs : users (snd (signUp_school env r sd be)) = users be).
    { unfold signUp_school. destruct sd as [d|]; [|reflexivity].
      destruct r; try reflexivity.
      destruct (SchoolPatch.name d); [|reflexivity].
      unfold insertSchool. destruct (f_insertSchool env); reflexivity. }
    destruct (signUp_school env r sd be) as [[schoolId|] be1]; cbn [snd] in *;
      [|unfold emails_lower_cased in *; rewrite Hs; exact H].
    destruct (a_error (signUp_reply env));
      [unfold emails_lower_cased in *; cbn [snd]; rewrite Hs; exact H|].
    destruct (a_user (signUp_reply env)) as [u|];
      [|unfold emails_lower_cased in *; cbn [snd]; rewrite Hs; exact H].
    assert (L : emails_lower_cased
                  (with_users
                     (users be1
                        ++ [AuthUser.mk (User.id u) (toLowerCase email) password
                              (Claims.mk (Some schoolId) (Some r) None None)
                              false]) be1) = true).
    { unfold emails_lower_cased in *. cbn [users with_users].
      rewrite forallb_app, Hs, H. cbn [forallb AuthUser.email andb].
      rewrite JSFacts.toLowerCase_idem, String.eqb_refl. reflexivity. }
    unfold insertProfile, write.
    destruct (f_insertProfile env); cbn [Backend.error failed written snd];
      [exact L|].
    assert (L2 : forall b, emails_lower_cased b = true ->
                 emails_lower_cased
                   (signUp_extension env r schoolId (User.id u) b) = true).
    { intros b Hb. unfold signUp_extension, insertTeacher, insertParent, write.
      destruct r; [destruct (f_insertTeacher env)
                  |destruct (f_insertParent env)|]; exact Hb. }
    destruct (a_session (signUp_reply env)).
    + users_after_fetch. cbn [snd]. unfold emails_lower_cased at 1.
      rewrite K. apply L2. exact L.
    + cbn [snd]. apply L2. exact L.
  - unfold signIn.
    destruct (a_error (signIn_reply env)); [exact H|].
    destruct (a_session (signIn_reply env)); [|exact H].
    destruct (a_user (signIn_reply env)); [|exact H].
    users_after_fetch. unfold emails_lower_cased in *.
    match goal with |- context [if ?b then _ else _] => destruct b end;
      cbn [snd]; rewrite K; exact H.
  - exact H.
  - pose proof (refreshUserData_users env st be) as K.
    destruct (refreshUserData env st be). unfold emails_lower_cased in *.
    cbn [snd] in *. rewrite K. exact H.
  - unfold updateProfile.
    destruct (user st); [|exact H].
    destruct (negb _); [exact H|].
    unfold updateProfiles, write.
    destruct (f_updateProfile env); cbn [Backend.error failed written snd];
      [exact H|].
    match goal with
    | |- context [refreshUserData env st ?b] =>
        pose proof (refreshUserData_users env st b) as K;
        destruct (refreshUserData env st b)
    end.
    unfold emails_lower_cased in *. cbn [snd] in *. rewrite K. exact H.
  - unfold switchTenant.
    destruct (session st) as [s|]; [|exact H].
    destruct (select_single (f_switchProfile env)
                (profile_in_tenant (User.id (Session.user s)) newTenantId)
                (profiles be)) as [[p|] [e|]]; try exact H.
    cbn [Backend.error data].
    assert (L : emails_lower_cased
                  (snd (updateUser (f_updateUser env) (User.id (Session.user s))
                          newTenantId (Profile.role p) be)) = true).
    { unfold updateUser, write. destruct (f_updateUser env); [exact H|].
      unfold emails_lower_cased in *. cbn [snd users with_users].
      rewrite forallb_forall in *. intros u Hu.
      apply in_map_iff in Hu as [u0 [<- Hu0]].
      destruct (AuthUser.id u0 =? _); [rewrite set_claims_email|];
        exact (H u0 Hu0). }
    destruct (updateUser _ _ _ _ be) as [reply be1]. cbn [snd] in L.
    destruct (Backend.error reply); [exact L|].
    users_after_fetch. unfold emails_lower_cased in *.
    match goal with |- context [if ?b then _ else _] => destruct b end;
      cbn [snd]; rewrite K; exact L.
Qed.

End BinderFacts.


(* ===================================================================== *)
(** ** The provisioner: the rest of the handler *)
(* ===================================================================== *)

Module ProvisionerMore.

Import JS Backend Provisioner Outcome.

(** *** The handler computes the closed form *)

Lemma serve_stops_early env f req w :
  reaches_saga f req (db w) = false ->
  db (snd (serve env f req w)) = db w
  /\ In (status (fst (serve env f req w))) [200; 400; 409; 500]
  /\ tells_success (fst (serve env f req w)) = false
  /\ exists n, trace (snd (serve env f req w))
               = trace w ++ firstn n (the_reads (body_of req)).
Proof.
  unfold reaches_saga, serve, body_of. destruct req as [m j]. cbn [method json].
  destruct (m =? "OPTIONS").
  { intros _. cbn. repeat split; [tauto|]. exists 0. symmetry. apply app_nil_r. }
  destruct j as [msg|r].
  { intros _. cbn. repeat split; [tauto|]. exists 0. symmetry. apply app_nil_r. }
  cbn [negb andb]. unfold precondition1, precondition2, precondition3.
  destruct (truthy (CreateTenantRequest.email r));
    [|intros _; cbn; repeat split; [tauto|]; exists 0; symmetry; apply app_nil_r].
  destruct (truthy (CreateTenantRequest.password r));
    [|intros _; cbn; repeat split; [tauto|]; exists 0; symmetry; apply app_nil_r].
  destruct (truthy (CreateTenantRequest.schoolName r));
    [|intros _; cbn; repeat split; [tauto|]; exists 0; symmetry; apply app_nil_r].
  cbn [negb orb andb].
  destruct (emailRegex_test _);
    [|intros _; cbn; repeat split; [tauto|]; exists 0; symmetry; apply app_nil_r].
  cbn [negb andb].
  destruct (8 <=? String.length (str (CreateTenantRequest.password r)))%nat eqn:E8.
  2:{ intros _. apply Nat.leb_gt in E8. apply Nat.ltb_lt in E8. rewrite E8.
      cbn. repeat split; [tauto|]. exists 0. symmetry. apply app_nil_r. }
  apply Nat.leb_le in E8. apply Nat.ltb_ge in E8. rewrite E8.
  cbn [andb]. unfold passes_uniqueness, email_registered, school_registered.
  destruct w as [be tr]. unfold run, listUsers, selectSchoolByName, select_single.
  cbn [db trace].
  destruct (f_listUsers f) as [e4|]; cbn [is_some orb negb data failed ok fst snd andb].
  - destruct (f_lookupSchool f) as [e5|]; cbn [is_some orb data failed]; [discriminate|].
    destruct (is_some _); [|discriminate]. intros _. cbn.
    repeat split; [tauto|]. exists 2. rewrite <- app_assoc. reflexivity.
  - destruct (existsb _ (first_page (users be))).
    + intros _. cbn. repeat split; [tauto|]. exists 1. reflexivity.
    + cbn [negb andb].
      destruct (f_lookupSchool f) as [e5|]; cbn [is_some orb data failed]; [discriminate|].
      destruct (is_some _); [|discriminate]. intros _. cbn.
      repeat split; [tauto|]. exists 2. rewrite <- app_assoc. reflexivity.
Qed.


Lemma request_reaches f m r be :
  reaches_saga f (mkRequest m (Parsed_ r)) be = true ->
  (m =? "OPTIONS") = false /\ precondition1 r = true /\ precondition2 r = true
  /\ precondition3 r = true /\ passes_uniqueness f r be = true.
Proof.
  unfold reaches_saga. cbn [method json]. intros H.
  apply andb_true_iff in H as [Hm H]. apply negb_true_iff in Hm.
  apply andb_true_iff in H as [H Hu]. apply andb_true_iff in H as [H H3].
  apply andb_true_iff in H as [H1 H2]. repeat split; assumption.
Qed.

(** A request that reaches the saga leaves the backend of the closed form,
    is answered with its status, and its calls are the two reads followed
    by calls that change the backend. *)
Lemma serve_saga env f m r w :
  reaches_saga f (mkRequest m (Parsed_ r)) (db w) = true ->
  db (snd (serve env f (mkRequest m (Parsed_ r)) w)) = saga_backend env f r (db w)
  /\ status (fst (serve env f (mkRequest m (Parsed_ r)) w)) = saga_status f
  /\ tells_success (fst (serve env f (mkRequest m (Parsed_ r)) w))
     = (3 <=? steps_done f)%nat
  /\ exists calls,
       trace (snd (serve env f (mkRequest m (Parsed_ r)) w))
       = trace w ++ the_reads r ++ calls.
Proof.
  intros H. apply request_reaches in H as [Hm [H1 [H2 [H3 Hu]]]].
  rewrite (ProvisionerFacts.serve_reaches_transaction env f m r w Hm H1 H2 H3 Hu).
  clear Hm H1 H2 H3 Hu.
  destruct w as [[sch usr prf trm tch par] tr].
  destruct f as [f4 f5 fs fu fp ft c2 c3u c3s cu cs].
  destruct env as [year tid uid now0].
  unfold saga_backend, saga_status, steps_done, school_delete_lands,
    user_delete_lands, the_reads.
  cbn [f_createUser f_insertSchool f_insertProfile f_insertTerm
       f_cleanup2_school f_cleanup3_school f_cleanup3_user f_catch_school
       f_catch_user new_school_id new_user_id].
  destruct fs as [es|].
  { cbn. repeat split. eexists. rewrite <- !app_assoc. reflexivity. }
  destruct fu as [eu|].
  { destruct c2, cs, tid as [|c tid];
      cbn -[filter String.eqb JS.trim JS.toLowerCase String.length app];
      rewrite ?ProvisionerFacts.filter_idem;
      (repeat split; eexists; rewrite <- !app_assoc; reflexivity). }
  destruct fp as [ep|].
  { destruct c3u, c3s, cu, cs, tid as [|c tid], uid as [|d uid];
      cbn -[filter String.eqb JS.trim JS.toLowerCase String.length app];
      rewrite ?ProvisionerFacts.filter_idem;
      (repeat split; eexists; rewrite <- !app_assoc; reflexivity). }
  destruct ft as [et|];
    cbn -[JS.trim JS.toLowerCase String.length app];
    (repeat split; eexists; rewrite <- !app_assoc; reflexivity).
Qed.


(** *** Preconditions 1, 2 and 5 *)

(** Lines 59-86.  A request that lacks its e-mail, its password or its
    school name, or whose e-mail has not the shape of an address, is
    answered with status 400 and the message of the first check it fails;
    nothing is asked of the backend. *)
Theorem invalid_request_is_rejected env f m r w :
  (m =? "OPTIONS") = false ->
  precondition1 r && precondition2 r = false ->
  serve env f (mkRequest m (Parsed_ r)) w
  = (respond 400
       (failure (if precondition1 r
                 then "Invalid email format"
                 else "Email, password, and school name are required")),
     w).
Proof.
  intros Hm H. unfold serve. cbn [method json]. rewrite Hm.
  unfold precondition1, precondition2 in *.
  destruct (truthy (CreateTenantRequest.email r)); [|reflexivity].
  destruct (truthy (CreateTenantRequest.password r)); [|reflexivity].
  destruct (truthy (CreateTenantRequest.schoolName r)); [|reflexivity].
  cbn [andb negb orb] in *. rewrite H. reflexivity.
Qed.

Lemma invalid_request_is_rejected_witness :
  serve Examples.env2025 Examples.no_faults
    (mkRequest "POST" (Parsed_ MoreExamples.no_password))
    (mkWorld Examples.one_identity [])
  = (respond 400 (failure "Email, password, and school name are required"),
     mkWorld Examples.one_identity []).
Proof.
  exact (invalid_request_is_rejected Examples.env2025 Examples.no_faults
           "POST" MoreExamples.no_password (mkWorld Examples.one_identity [])
           eq_refl eq_refl).
Defined.

Lemma lower_char_keeps_plain (c : ascii) :
  ((lower_char c =? "%")%char || (lower_char c =? "_")%char
   || (lower_char c =? "\")%char || (lower_char c =? "*")%char)
  = ((c =? "%")%char || (c =? "_")%char || (c =? "\")%char
     || (c =? "*")%char).
Proof. destruct c as [[] [] [] [] [] [] [] []]; reflexivity. Qed.

Lemma plain_toLowerCase (p : string) : plain (toLowerCase p) = plain p.
Proof.
  induction p as [|c p IH]; [reflexivity|].
  cbn [toLowerCase plain]. rewrite lower_char_keeps_plain, IH. reflexivity.
Qed.

(** The REST layer leaves a plain pattern as it is. *)
Lemma stars_plain (p : string) : plain p = true -> stars p = p.
Proof.
  induction p as [|c p IH]; [reflexivity|].
  cbn [plain stars]. intros Hp. apply andb_true_iff in Hp as [Hc Hp].
  apply negb_true_iff in Hc. apply orb_false_iff in Hc as [_ Hc].
  rewrite Hc, (IH Hp). reflexivity.
Qed.

(** A plain pattern matches the texts equal to it. *)
Lemma like_plain (p s : string) : plain p = true -> like p s = (p =? s).
Proof.
  revert s. induction p as [|c p IH]; intros s Hp.
  - destruct s; reflexivity.
  - cbn [plain] in Hp. apply andb_true_iff in Hp as [Hc Hp].
    apply negb_true_iff in Hc. apply orb_false_iff in Hc as [Hc _].
    apply orb_false_iff in Hc as [Hc Hc3].
    apply orb_false_iff in Hc as [Hc1 Hc2].
    cbn [like]. rewrite Hc1, Hc2, Hc3.
    destruct s as [|e s]; [reflexivity|].
    cbn [String.eqb]. rewrite (IH s Hp).
    destruct (c =? e)%char; reflexivity.
Qed.

Lemma ilike_plain (value pattern : string) :
  plain pattern = true ->
  ilike value pattern = (toLowerCase value =? toLowerCase pattern).
Proof.
  intros Hp. unfold ilike. rewrite (stars_plain pattern Hp).
  rewrite like_plain by (rewrite plain_toLowerCase; exact Hp).
  apply String.eqb_sym.
Qed.

Lemma matched_schools_plain r be :
  plain (trim (str (CreateTenantRequest.schoolName r))) = true ->
  matched_schools r be = namesakes r be.
Proof.
  intros Hp. unfold matched_schools, namesakes. apply filter_ext.
  intros s. apply ilike_plain. exact Hp.
Qed.

Lemma matched_school_is_a_conflict env f m r w s :
  (m =? "OPTIONS") = false ->
  precondition1 r = true -> precondition2 r = true -> precondition3 r = true ->
  is_some (f_listUsers f) || negb (email_registered r (db w)) = true ->
  f_lookupSchool f = None ->
  matched_schools r (db w) = [s] ->
  serve env f (mkRequest m (Parsed_ r)) w
  = (respond 409 (failure "A school with this name already exists"),
     mkWorld (db w) (trace w ++ the_reads r)).
Proof.
  intros Hm H1 H2 H3 He Hl Hs.
  unfold precondition1 in H1. unfold precondition2 in H2.
  unfold precondition3 in H3.
  apply andb_true_iff in H1 as [H1 H1c]. apply andb_true_iff in H1 as [H1a H1b].
  unfold serve. cbn [method json]. rewrite Hm, H1a, H1b, H1c, H2.
  cbn [negb orb].
  replace (String.length (str (CreateTenantRequest.password r)) <? 8)%nat
    with false
    by (symmetry; apply Nat.ltb_ge; apply Nat.leb_le; exact H3).
  destruct w as [be tr]. cbn [db trace] in *.
  unfold run, listUsers, selectSchoolByName, select_single, the_reads.
  cbn [db trace]. unfold matched_schools in Hs.
  unfold email_registered in He.
  destruct (f_listUsers f) as [e4|]; cbn [data failed ok fst snd db trace].
  - rewrite Hl, Hs. cbn [single ok data is_some].
    rewrite <- app_assoc. reflexivity.
  - cbn [is_some orb] in He. apply negb_true_iff in He. rewrite He.
    rewrite Hl, Hs. cbn [single ok data is_some].
    rewrite <- app_assoc. reflexivity.
Qed.

(** Lines 119-137.  A request that passes preconditions 1 to 4 and whose
    trimmed school name, taken as an [ILIKE] pattern, matches exactly one
    existing school, the lookup being answered, gets status 409 and the
    message that the school exists; the backend is unchanged and the two
    reads are the only calls.  For a name that holds no wildcard, no
    escape and no ["*"], which the REST layer reads as a wildcard, that is
    the case when exactly one school carries the name, case disregarded. *)
Theorem registered_school_is_a_conflict env f m r w s :
  (m =? "OPTIONS") = false ->
  precondition1 r = true -> precondition2 r = true -> precondition3 r = true ->
  is_some (f_listUsers f) || negb (email_registered r (db w)) = true ->
  f_lookupSchool f = None ->
  matched_schools r (db w) = [s]
  \/ (plain (trim (str (CreateTenantRequest.schoolName r))) = true
      /\ namesakes r (db w) = [s]) ->
  serve env f (mkRequest m (Parsed_ r)) w
  = (respond 409 (failure "A school with this name already exists"),
     mkWorld (db w) (trace w ++ the_reads r)).
Proof.
  intros Hm H1 H2 H3 He Hl [Hs|[Hp Hs]].
  - exact (matched_school_is_a_conflict env f m r w s Hm H1 H2 H3 He Hl Hs).
  - apply (matched_school_is_a_conflict env f m r w s); try assumption.
    rewrite (matched_schools_plain r (db w) Hp). exact Hs.
Qed.

Lemma registered_school_is_a_conflict_witness :
  serve Examples.env2025 Examples.no_faults
    (mkRequest "POST" (Parsed_ Examples.lincoln))
    (mkWorld MoreExamples.one_lincoln [])
  = (respond 409 (failure "A school with this name already exists"),
     mkWorld MoreExamples.one_lincoln [ListUsers; SelectSchool "Lincoln"]).
Proof.
  exact (registered_school_is_a_conflict Examples.env2025 Examples.no_faults
           "POST" Examples.lincoln (mkWorld MoreExamples.one_lincoln [])
           (MoreExamples.school_named "t-0" "LINCOLN")
           eq_refl eq_refl eq_refl eq_refl eq_refl eq_refl
           (or_intror (conj eq_refl eq_refl))).
Defined.


(** A ["*"] in the school name is a wildcard of the lookup: the name [A*B]
    matches the schools [A*B] and [AxB], so the lookup finds two rows and
    the check passes. *)
Example star_is_a_wildcard :
  map School.name
    (matched_schools MoreExamples.star_request MoreExamples.star_schools)
  = ["A*B"; "AxB"]
  /\ plain (trim (str (CreateTenantRequest.schoolName
                         MoreExamples.star_request))) = false
  /\ passes_uniqueness Examples.no_faults MoreExamples.star_request
       MoreExamples.star_schools = true.
Proof. repeat split. Qed.

Lemma several_matches_pass r be :
  2 <= List.length (matched_schools r be) -> school_registered r be = false.
Proof.
  unfold school_registered, matched_schools.
  destruct (filter _ (schools be)) as [|a [|b l]]; simpl; intros H;
    [lia | lia | reflexivity].
Qed.

(** Lines 120-126.  The lookup of the school name asks for a single row:
    when two or more existing schools match the name, it is answered with
    an error, which the handler takes for "no such school".  The request
    goes on, and with no step failing it is answered 201 and one more
    school of that name is stored. *)
Theorem several_namesakes_defeat_the_lookup env f m r w :
  (m =? "OPTIONS") = false ->
  precondition1 r = true -> precondition2 r = true -> precondition3 r = true ->
  is_some (f_listUsers f) || negb (email_registered r (db w)) = true ->
  2 <= List.length (matched_schools r (db w)) ->
  steps_done f = 4 ->
  let out := serve env f (mkRequest m (Parsed_ r)) w in
  status (fst out) = 201
  /\ schools (db (snd out)) = schools (db w) ++ [schoolRow env r]
  /\ db (snd out) = after_steps env r 4 (db w).
Proof.
  intros Hm H1 H2 H3 He Hs H4 out. subst out.
  assert (R : reaches_saga f (mkRequest m (Parsed_ r)) (db w) = true).
  { unfold reaches_saga, passes_uniqueness. cbn [method json].
    rewrite Hm, H1, H2, H3, He, (several_matches_pass r (db w) Hs).
    cbn. apply orb_true_r. }
  destruct (serve_saga env f m r w R) as [Hdb [Hst _]].
  rewrite Hdb, Hst. unfold saga_backend, saga_status. rewrite H4.
  repeat split.
Qed.

Lemma several_namesakes_defeat_the_lookup_witness :
  let out :=
    serve Examples.env2025 Examples.no_faults
      (mkRequest "POST" (Parsed_ Examples.lincoln))
      (mkWorld MoreExamples.two_lincolns []) in
  status (fst out) = 201
  /\ map School.name (schools (db (snd out))) = ["LINCOLN"; "lincoln"; "Lincoln"].
Proof.
  destruct (several_namesakes_defeat_the_lookup Examples.env2025
              Examples.no_faults "POST" Examples.lincoln
              (mkWorld MoreExamples.two_lincolns [])
              eq_refl eq_refl eq_refl eq_refl eq_refl
              (le_n 2) eq_refl) as [Hst [Hsch _]].
  split; [exact Hst|]. rewrite Hsch. reflexivity.
Defined.

(** *** The saga *)

(** Lines 145-163 and 245-266.  When the database refuses the school row of
    step 1, the request is answered with status 500 and "Failed to create
    school"; the backend is what it was, and no delete is issued: the catch
    block holds no id yet. *)
Theorem refused_school_leaves_nothing env f m r w :
  (m =? "OPTIONS") = false ->
  precondition1 r = true -> precondition2 r = true -> precondition3 r = true ->
  passes_uniqueness f r (db w) = true ->
  is_some (f_insertSchool f) = true ->
  serve env f (mkRequest m (Parsed_ r)) w
  = (respond 500 (failure "Failed to create school"),
     mkWorld (db w)
       (trace w ++ the_reads r ++ [InsertSchool (new_school_id env)])).
Proof.
  intros Hm H1 H2 H3 Hu Hs.
  rewrite (ProvisionerFacts.serve_reaches_transaction env f m r w Hm H1 H2 H3 Hu).
  destruct w as [be tr]. unfold transaction, run, insertSchool, cleanup, the_reads.
  destruct (f_insertSchool f); [|discriminate].
  cbn. rewrite <- !app_assoc. reflexivity.
Qed.

Lemma refused_school_leaves_nothing_witness :
  serve Examples.env2025 MoreExamples.school_refused
    (mkRequest "POST" (Parsed_ Examples.lincoln))
    (mkWorld Examples.empty_backend [])
  = (respond 500 (failure "Failed to create school"),
     mkWorld Examples.empty_backend
       [ListUsers; SelectSchool "Lincoln"; InsertSchool "t-1"]).
Proof.
  exact (refused_school_leaves_nothing Examples.env2025
           MoreExamples.school_refused "POST" Examples.lincoln
           (mkWorld Examples.empty_backend [])
           eq_refl eq_refl eq_refl eq_refl eq_refl eq_refl).
Defined.

(** Lines 143-243.  When the request passes the preconditions and none of
    the four steps fails, it is answered 201 with the ids of the new tenant
    and of its administrator; the backend holds, after the rows it had, one
    school (active, with the limits 500 and 50), one identity whose claims
    name the school and the role admin, one active admin profile of that
    identity in that school, and the term of the current year; the calls
    are the two reads and the four steps. *)
Theorem provisioning_succeeds env f m r w :
  (m =? "OPTIONS") = false ->
  precondition1 r = true -> precondition2 r = true -> precondition3 r = true ->
  passes_uniqueness f r (db w) = true ->
  steps_done f = 4 ->
  serve env f (mkRequest m (Parsed_ r)) w
  = (respond 201
       (mkBody true (Some (new_school_id env)) (Some (new_user_id env)) None),
     mkWorld (after_steps env r 4 (db w))
       (trace w ++ the_reads r
          ++ [InsertSchool (new_school_id env); CreateUser (new_user_id env);
              InsertProfile (new_user_id env); InsertTerm (new_school_id env)]))
  /\ School.subscription_status (schoolRow env r) = active
  /\ School.max_students (schoolRow env r) = Some 500%N
  /\ School.max_teachers (schoolRow env r) = Some 50%N
  /\ AuthUser.user_metadata (adminUser env r (new_school_id env))
     = Claims.mk (Some (new_school_id env)) (Some admin)
         (option_map trim (CreateTenantRequest.adminFirstName r))
         (option_map trim (CreateTenantRequest.adminLastName r))
  /\ Profile.role (adminProfile env r (new_school_id env) (new_user_id env))
     = admin
  /\ Profile.is_active (adminProfile env r (new_school_id env) (new_user_id env))
     = true
  /\ AcademicTerm.name (defaultTerm env (new_school_id env))
     = ("Fall " ++ show (currentYear env))%string
  /\ AcademicTerm.start_date (defaultTerm env (new_school_id env))
     = (show (currentYear env) ++ "-09-01")%string
  /\ AcademicTerm.end_date (defaultTerm env (new_school_id env))
     = (show (currentYear env + 1) ++ "-06-30")%string.
Proof.
  intros Hm H1 H2 H3 Hu H4. split; [|repeat split].
  rewrite (ProvisionerFacts.serve_reaches_transaction env f m r w Hm H1 H2 H3 Hu).
  destruct w as [[sch usr prf trm tch par] tr].
  destruct f as [f4 f5 fs fu fp ft c2 c3u c3s cu cs].
  unfold steps_done in H4. cbn in H4.
  destruct fs; [discriminate|]. destruct fu; [discriminate|].
  destruct fp; [discriminate|]. destruct ft; [discriminate|].
  unfold the_reads.
  cbn -[JS.trim JS.toLowerCase String.length app].
  rewrite <- !app_assoc. reflexivity.
Qed.

Lemma provisioning_succeeds_witness :
  serve Examples.env2025 Examples.no_faults
    (mkRequest "POST" (Parsed_ Examples.lincoln))
    (mkWorld Examples.empty_backend [])
  = (respond 201 (mkBody true (Some "t-1") (Some "u-1") None),
     mkWorld
       (Backend.mk
          [schoolRow Examples.env2025 Examples.lincoln]
          [adminUser Examples.env2025 Examples.lincoln "t-1"]
          [adminProfile Examples.env2025 Examples.lincoln "t-1" "u-1"]
          [AcademicTerm.mk "t-1" "Fall 2025" "2025-09-01" "2026-06-30" true
             "2025-2026"]
          [] [])
       [ListUsers; SelectSchool "Lincoln"; InsertSchool "t-1"; CreateUser "u-1";
        InsertProfile "u-1"; InsertTerm "t-1"]).
Proof.
  exact (proj1 (provisioning_succeeds Examples.env2025 Examples.no_faults
                  "POST" Examples.lincoln (mkWorld Examples.empty_backend [])
                  eq_refl eq_refl eq_refl eq_refl eq_refl eq_refl)).
Defined.


(** *** What every answer tells *)

(** Lines 37-282.  Whatever the request, the backend and the faults: the
    status is 200, 201, 400, 409 or 500; the body tells a success exactly
    when the status is 201; the status is 201 exactly when the request got
    past the preconditions and steps 1 to 3 went through, and then the
    backend holds the rows of these steps (and the term, when step 4 went
    through); and an answer other than 201 and 500 leaves the backend as it
    was, after no other call than the reads of the uniqueness checks. *)
Theorem serve_answers env f req w :
  let out := serve env f req w in
  In (status (fst out)) [200; 201; 400; 409; 500]
  /\ tells_success (fst out) = (status (fst out) =? 201)%nat
  /\ (status (fst out) = 201 <->
      reaches_saga f req (db w) = true /\ 3 <= steps_done f)
  /\ (status (fst out) = 201 ->
      db (snd out) = after_steps env (body_of req) (steps_done f) (db w))
  /\ (status (fst out) <> 201 -> status (fst out) <> 500 ->
      db (snd out) = db w
      /\ exists n, trace (snd out) = trace w ++ firstn n (the_reads (body_of req))).
Proof.
  intros out. subst out.
  destruct (reaches_saga f req (db w)) eqn:R.
  - destruct req as [m [msg|r]];
      [unfold reaches_saga in R; cbn in R;
       rewrite andb_false_r in R; discriminate|].
    destruct (serve_saga env f m r w R) as [Hdb [Hst [Hok _]]].
    rewrite Hdb, Hst, Hok. unfold saga_status, saga_backend, body_of.
    cbn [json].
    destruct (Nat.leb_spec 3 (steps_done f)) as [L|L].
    + repeat split; try tauto; try congruence.
      * cbn. tauto.
      * intros _. destruct (steps_done f) as [|[|[|n]]]; try lia. reflexivity.
    + repeat split; try tauto; try congruence; try discriminate.
      * cbn. tauto.
      * intros [_ L']. lia.
  - destruct (serve_stops_early env f req w R) as [Hdb [Hst [Hok Htr]]].
    rewrite Hok.
    assert (N : status (fst (serve env f req w)) <> 201).
    { intros E. rewrite E in Hst. cbn in Hst.
      repeat (destruct Hst as [Hst|Hst]; [discriminate|]). exact Hst. }
    split; [|split; [|split; [|split]]].
    + cbn in Hst. cbn. tauto.
    + symmetry. apply Nat.eqb_neq. exact N.
    + split; [intros E; contradiction|intros [E _]; discriminate].
    + intros E. contradiction.
    + intros _ _. split; [exact Hdb|exact Htr].
Qed.

(** *** What the handler never removes *)

Lemma kept_by_delete {A : Type} (key : A -> string) (id : string) (a : A)
    (l : list A) :
  In a l -> key a <> id -> In a (filter (fun x => negb (key x =? id)) l).
Proof.
  intros Hin Hne. apply filter_In. split; [exact Hin|].
  apply negb_true_iff. apply String.eqb_neq. exact Hne.
Qed.

Lemma undone_keeps env s u be :
  (forall x, In x (schools be) -> School.id x <> new_school_id env ->
             In x (schools (undone env s u be)))
  /\ (forall x, In x (users be) -> AuthUser.id x <> new_user_id env ->
                In x (users (undone env s u be)))
  /\ profiles (undone env s u be) = profiles be
  /\ academic_terms (undone env s u be) = academic_terms be
  /\ teachers (undone env s u be) = teachers be
  /\ parents (undone env s u be) = parents be.
Proof.
  unfold undone. destruct s, u; cbn; repeat split; intros x Hin Hne;
    try assumption; apply kept_by_delete; assumption.
Qed.

(** Lines 143-266.  Whatever happens, the handler removes no school and no
    identity other than those carrying the ids generated for this very
    request; the profiles and the terms only grow; the teachers and the
    parents are not touched. *)
Theorem serve_spares_the_other_tenants env f req w :
  let out := serve env f req w in
  (forall s, In s (schools (db w)) -> School.id s <> new_school_id env ->
             In s (schools (db (snd out))))
  /\ (forall u, In u (users (db w)) -> AuthUser.id u <> new_user_id env ->
                In u (users (db (snd out))))
  /\ grew (profiles (db w)) (profiles (db (snd out)))
  /\ grew (academic_terms (db w)) (academic_terms (db (snd out)))
  /\ teachers (db (snd out)) = teachers (db w)
  /\ parents (db (snd out)) = parents (db w).
Proof.
  intros out. subst out.
  destruct (reaches_saga f req (db w)) eqn:R.
  - destruct req as [m [msg|r]];
      [unfold reaches_saga in R; cbn in R;
       rewrite andb_false_r in R; discriminate|].
    destruct (serve_saga env f m r w R) as [Hdb _]. rewrite Hdb.
    unfold saga_backend.
    destruct (steps_done f) as [|[|[|[|n]]]].
    + repeat split; try tauto; exists []; symmetry; apply app_nil_r.
    + destruct (undone_keeps env (school_delete_lands env f) false
                  (after_steps env r 1 (db w))) as [Ks [Ku [Kp [Kt [Kte Kpa]]]]].
      rewrite Kp, Kt, Kte, Kpa. repeat split.
      * intros s Hin Hne. apply Ks; [|exact Hne]. cbn. apply in_or_app. tauto.
      * intros u Hin Hne. apply Ku; [|exact Hne]. exact Hin.
      * exists []. symmetry. apply app_nil_r.
      * exists []. symmetry. apply app_nil_r.
    + destruct (undone_keeps env (school_delete_lands env f)
                  (user_delete_lands env f)
                  (after_steps env r 2 (db w))) as [Ks [Ku [Kp [Kt [Kte Kpa]]]]].
      rewrite Kp, Kt, Kte, Kpa. repeat split.
      * intros s Hin Hne. apply Ks; [|exact Hne]. cbn. apply in_or_app. tauto.
      * intros u Hin Hne. apply Ku; [|exact Hne]. cbn. apply in_or_app. tauto.
      * exists []. symmetry. apply app_nil_r.
      * exists []. symmetry. apply app_nil_r.
    + cbn. repeat split.
      * intros s Hin _. apply in_or_app. tauto.
      * intros u Hin _. apply in_or_app. tauto.
      * eexists. reflexivity.
      * exists []. symmetry. apply app_nil_r.
    + cbn. repeat split.
      * intros s Hin _. apply in_or_app. tauto.
      * intros u Hin _. apply in_or_app. tauto.
      * eexists. reflexivity.
      * eexists. reflexivity.
  - destruct (serve_stops_early env f req w R) as [Hdb _]. rewrite Hdb.
    repeat split; try tauto; exists []; symmetry; apply app_nil_r.
Qed.

(** *** Provisioning twice *)

(** The identity created last is on the page that the listing answers
    with. *)
Lemma newest_is_listed (identities : list AuthUser.t) (u : AuthUser.t) :
  In u (first_page (identities ++ [u])).
Proof.
  unfold first_page. rewrite rev_app_distr. left. reflexivity.
Qed.

(** Lines 102-117 after lines 167-178.  When a request was answered 201,
    the same request sent again, the listing of the identities being
    answered, gets status 409 for its e-mail and leaves the backend as the
    first one left it: the identity that step 2 created carries the
    lower-cased e-mail that line 104 looks for. *)
Theorem provisioning_twice_conflicts env f m r w env' f' :
  status (fst (serve env f (mkRequest m (Parsed_ r)) w)) = 201 ->
  f_listUsers f' = None ->
  let after := snd (serve env f (mkRequest m (Parsed_ r)) w) in
  serve env' f' (mkRequest m (Parsed_ r)) after
  = (respond 409 (failure "Email address is already registered"),
     mkWorld (db after) (trace after ++ [ListUsers])).
Proof.
  intros H201 Hl after. subst after.
  destruct (reaches_saga f (mkRequest m (Parsed_ r)) (db w)) eqn:R.
  2:{ destruct (serve_stops_early env f _ w R) as [_ [Hst _]].
      rewrite H201 in Hst. cbn in Hst.
      repeat (destruct Hst as [Hst|Hst]; [discriminate|]). contradiction. }
  destruct (serve_saga env f m r w R) as [Hdb [Hst _]].
  rewrite H201 in Hst. unfold saga_status in Hst.
  destruct (Nat.leb_spec 3 (steps_done f)) as [L3|L3]; [|discriminate].
  apply request_reaches in R as [Hm [H1 [H2 [H3 _]]]].
  unfold saga_backend in Hdb.
  apply ProvisionerFacts.listed_email_is_a_conflict; try assumption.
  rewrite Hdb. unfold email_registered.
  apply existsb_exists. exists (adminUser env r (new_school_id env)). split.
  - destruct (steps_done f) as [|[|[|[|n]]]]; try lia;
      cbn [after_steps users with_users with_profiles with_schools
           with_academic_terms]; apply newest_is_listed.
  - apply String.eqb_refl.
Qed.

Lemma provisioning_twice_conflicts_witness :
  let first :=
    serve Examples.env2025 Examples.no_faults
      (mkRequest "POST" (Parsed_ Examples.lincoln))
      (mkWorld Examples.empty_backend []) in
  let second :=
    serve Examples.env2025 Examples.no_faults
      (mkRequest "POST" (Parsed_ Examples.lincoln)) (snd first) in
  status (fst first) = 201
  /\ status (fst second) = 409
  /\ db (snd second) = db (snd first).
Proof.
  intros first second. subst first second.
  rewrite (provisioning_twice_conflicts Examples.env2025 Examples.no_faults
             "POST" Examples.lincoln (mkWorld Examples.empty_backend [])
             Examples.env2025 Examples.no_faults eq_refl eq_refl).
  repeat split.
Defined.

End ProvisionerMore.


(* ===================================================================== *)
(** ** The binder, operation by operation *)
(* ===================================================================== *)

Module BinderMore.

Import JS Backend Binder BinderOutcome.

(** *** Bind *)

(** Lines 193-253.  Bind reports success exactly when its two reads go
    through and find one active profile row of the identity and one active
    school of that row's tenant; it then leaves the state bound to these
    two; otherwise it leaves the state (the loading flag apart) and the
    backend as they were. *)
Theorem bind_succeeds_exactly fl now userId st be :
  let out := fetchUserData fl now userId st be in
  (fst (fst out) = true <->
   f_profile fl = None /\ f_school fl = None
   /\ exists p s,
        filter (active_profile_of userId) (profiles be) = [p]
        /\ filter (active_school (Profile.tenant_id p)) (schools be) = [s])
  /\ (forall p s,
        fst (fst out) = true ->
        filter (active_profile_of userId) (profiles be) = [p] ->
        filter (active_school (Profile.tenant_id p)) (schools be) = [s] ->
        snd (fst out) = bind p s st)
  /\ (fst (fst out) = false -> out = (false, setIsLoading false st, be)).
Proof.
  intros out. subst out.
  destruct (BinderFacts.fetchUserData_cases fl now userId st be)
    as [E|[p [s [Hp [Hs [Fp [Fs E]]]]]]]; rewrite E; cbn [fst snd].
  - split; [|split].
    + split; [discriminate|]. intros [Fp [Fs [p [s [Hp Hs]]]]].
      unfold fetchUserData in E. unfold select_single in E.
      rewrite Fp, Hp in E. cbn in E. rewrite Fs, Hs in E. cbn in E.
      destruct (updateProfiles _ _ _ be) in E. discriminate.
    + discriminate.
    + reflexivity.
  - split; [|split].
    + split; [|reflexivity]. intros _. split; [exact Fp|]. split; [exact Fs|].
      exists p, s. split; assumption.
    + intros p' s' _ Hp' Hs'. rewrite Hp in Hp'. injection Hp' as <-.
      rewrite Hs in Hs'. injection Hs' as <-. reflexivity.
    + discriminate.
Qed.

Lemma stamped_map userId tenant now (l : list Profile.t) :
  Forall2 (stamped userId now) l
    (map (fun p => if profile_in_tenant userId tenant p
                   then set_last_login now p else p) l).
Proof.
  induction l as [|p l IH]; cbn [map]; constructor; [|exact IH].
  unfold stamped, profile_in_tenant.
  destruct (Profile.id p =? userId) eqn:E; cbn [andb]; [|left; reflexivity].
  destruct (Profile.tenant_id p =? tenant); [|left; reflexivity].
  right. split; [apply String.eqb_eq; exact E|reflexivity].
Qed.

Lemma stamped_refl userId now (l : list Profile.t) :
  Forall2 (stamped userId now) l l.
Proof. induction l; constructor; [left; reflexivity|assumption]. Qed.

(** What Bind leaves of the state and of the backend. *)
Lemma fetchUserData_frame fl now userId st be :
  let out := fetchUserData fl now userId st be in
  initialized (snd (fst out)) = initialized st
  /\ session (snd (fst out)) = session st
  /\ isLoading (snd (fst out)) = false
  /\ (fst (fst out) = false -> bound_fields (snd (fst out)) = bound_fields st)
  /\ other_tables (snd out) = other_tables be
  /\ Forall2 (stamped userId now) (profiles be) (profiles (snd out)).
Proof.
  intros out. subst out.
  destruct (BinderFacts.fetchUserData_cases fl now userId st be)
    as [E|[p [s [Hp [Hs [Fp [Fs E]]]]]]]; rewrite E; cbn [fst snd].
  - repeat split. apply stamped_refl.
  - unfold updateProfiles, write. destruct (f_lastLogin fl); cbn [snd].
    + repeat split; [discriminate|apply stamped_refl].
    + repeat split; [discriminate|]. cbn [profiles with_profiles].
      apply stamped_map.
Qed.

(** Lines 238-245.  The one write of Bind changes nothing but [last_login],
    and only in rows of the identity: the other tables are as they were,
    and every profile row is as it was or, for a row of the identity, as it
    was with [last_login] set to the time of the Bind. *)
Theorem bind_writes_only_last_login fl now userId st be :
  other_tables (snd (fetchUserData fl now userId st be)) = other_tables be
  /\ Forall2 (stamped userId now) (profiles be)
       (profiles (snd (fetchUserData fl now userId st be))).
Proof.
  destruct (fetchUserData_frame fl now userId st be) as [_ [_ [_ [_ [H1 H2]]]]].
  split; assumption.
Qed.


Ltac framed_fetch :=
  match goal with
  | |- context [fetchUserData ?fl ?n ?u ?st ?be] =>
      let K := fresh "K" in
      pose proof (fetchUserData_frame fl n u st be) as K;
      cbv zeta in K;
      destruct (fetchUserData fl n u st be) as [[? ?] ?];
      cbn [fst snd] in K;
      destruct K as [Ki [Ks [Kl [Kb [Ko Kp]]]]]
  end.

(** *** Failed operations *)

(** Lines 261-518.  An operation whose promise resolves to a failure leaves
    the four bound fields and the [initialized] flag as they were: a failed
    sign-up, sign-in, profile update or tenant switch never unbinds and
    never rebinds. *)
Theorem failed_operation_keeps_the_binding env op st be r st' be' :
  step env op st be = (Some r, st', be') ->
  success r = false ->
  bound_fields st' = bound_fields st /\ initialized st' = initialized st.
Proof.
  destruct op as [restored|pushed|email password ro sd|email password| |
                  |updates|newTenantId]; unfold step.
  - destruct (start env restored st be). discriminate.
  - destruct (onAuthStateChange env pushed st be) as [[? ?] ?]. discriminate.
  - unfold signUp.
    destruct (signUp_school env ro sd be) as [[schoolId|] be1];
      [|intros E _; injection E as <- <- <-; split; reflexivity].
    destruct (a_error (signUp_reply env));
      [intros E _; injection E as <- <- <-; split; reflexivity|].
    destruct (a_user (signUp_reply env)) as [u|];
      [|intros E _; injection E as <- <- <-; split; reflexivity].
    destruct (insertProfile _ _ _) as [profile be2].
    destruct (Backend.error profile);
      [intros E _; injection E as <- <- <-; split; reflexivity|].
    destruct (a_session (signUp_reply env));
      [framed_fetch|]; intros E F; injection E as <- <- <-; discriminate.
  - unfold signIn.
    destruct (a_error (signIn_reply env));
      [intros E _; injection E as <- <- <-; split; reflexivity|].
    destruct (a_session (signIn_reply env));
      [|intros E _; injection E as <- <- <-; split; reflexivity].
    destruct (a_user (signIn_reply env));
      [|intros E _; injection E as <- <- <-; split; reflexivity].
    framed_fetch. destruct b; intros E F; injection E as <- <- <-;
      [discriminate|].
    split; [exact (Kb eq_refl)|exact Ki].
  - discriminate.
  - destruct (refreshUserData env st be). discriminate.
  - unfold updateProfile.
    destruct (user st);
      [|intros E _; injection E as <- <- <-; split; reflexivity].
    destruct (negb _);
      [intros E _; injection E as <- <- <-; split; reflexivity|].
    destruct (updateProfiles _ _ _ be) as [reply be1].
    destruct (Backend.error reply);
      [intros E _; injection E as <- <- <-; split; reflexivity|].
    destruct (refreshUserData env st be1).
    intros E F; injection E as <- <- <-; discriminate.
  - unfold switchTenant.
    destruct (session st) as [s|];
      [|intros E _; injection E as <- <- <-; split; reflexivity].
    destruct (select_single (f_switchProfile env)
                (profile_in_tenant (User.id (Session.user s)) newTenantId)
                (profiles be)) as [[p|] [e|]];
      try (intros E _; injection E as <- <- <-; split; reflexivity).
    cbn [Backend.error data].
    destruct (updateUser _ _ _ _ be) as [reply be1].
    destruct (Backend.error reply);
      [intros E _; injection E as <- <- <-; split; reflexivity|].
    framed_fetch. destruct b; intros E F; injection E as <- <- <-;
      [discriminate|].
    split; [exact (Kb eq_refl)|exact Ki].
Qed.

Lemma failed_operation_keeps_the_binding_witness :
  bound_fields
    (snd (fst (step BinderExamples.calm (SwitchTenant "t-2")
                 BinderExamples.ada_bound BinderExamples.lincoln_backend)))
  = (Some (BinderExamples.ada true), Some BinderExamples.lincoln_school,
     Some admin, Some "t-1").
Proof.
  exact (proj1 (failed_operation_keeps_the_binding BinderExamples.calm
                  (SwitchTenant "t-2") BinderExamples.ada_bound
                  BinderExamples.lincoln_backend _ _ _ eq_refl eq_refl)).
Defined.

(** Lines 255-259, 446-450 and 476-480.  Without a session and without a
    bound user, a refresh, a profile update and a tenant switch do nothing:
    the two that resolve to a result answer "No authenticated user", and
    neither the state nor the backend changes. *)
Theorem unauthenticated_operations_do_nothing env updates newTenantId st be :
  unauthenticated st ->
  refreshUserData env st be = (st, be)
  /\ updateProfile env updates st be
     = (failed_with "No authenticated user", st, be)
  /\ switchTenant env newTenantId st be
     = (failed_with "No authenticated user", st, be).
Proof.
  intros [Hs [Hu _]]. unfold refreshUserData, updateProfile, switchTenant.
  rewrite Hs, Hu. repeat split.
Qed.

Lemma unauthenticated_operations_do_nothing_witness :
  switchTenant BinderExamples.calm "t-1" BinderExamples.signed_out
    BinderExamples.lincoln_backend
  = (failed_with "No authenticated user", BinderExamples.signed_out,
     BinderExamples.lincoln_backend).
Proof.
  exact (proj2 (proj2 (unauthenticated_operations_do_nothing
                         BinderExamples.calm BinderExamples.rename_and_more
                         "t-1" BinderExamples.signed_out
                         BinderExamples.lincoln_backend
                         (conj eq_refl
                            (conj eq_refl
                               (conj eq_refl (conj eq_refl eq_refl))))))).
Defined.

(** *** Sign-in *)

(** Lines 388-422.  A sign-in that resolves to a success leaves the session
    the provider answered with, and the state bound to a profile row of the
    backend that belongs to the identity the provider answered with and is
    active, and to the school of that row's tenant, with an active
    subscription; the loading flag is off. *)
Theorem successful_signIn_binds_own_row env email password st be :
  success (fst (fst (signIn env email password st be))) = true ->
  exists u s p sc,
    signIn_reply env = mkAuthResponse (Some u) (Some s) None
    /\ snd (fst (signIn env email password st be))
       = bind p sc (setSession (Some s) st)
    /\ In p (profiles be) /\ Profile.id p = User.id u
    /\ Profile.is_active p = true
    /\ In sc (schools be) /\ School.id sc = Profile.tenant_id p
    /\ School.subscription_status sc = active.
Proof.
  unfold signIn. destruct (signIn_reply env) as [ou os oe].
  cbn [a_error a_session a_user].
  destruct oe; [discriminate|].
  destruct os as [s|]; [|discriminate].
  destruct ou as [u|]; [|discriminate].
  destruct (BinderFacts.fetchUserData_cases (f_fetch env) (now env)
              (User.id u) (setIsLoading true (setSession (Some s) st)) be)
    as [E|[p [sc [Hp [Hs [_ [_ E]]]]]]].
  - unfold setSession, setIsLoading in *. cbn in *.
    rewrite E. discriminate.
  - unfold setSession, setIsLoading in *. cbn in *. rewrite E. intros _.
    exists u, s, p, sc.
    apply BinderFacts.filter_singleton in Hp as [Hp1 Hp2].
    apply BinderFacts.filter_singleton in Hs as [Hs1 Hs2].
    unfold active_profile_of in Hp2. apply andb_true_iff in Hp2 as [Hid Hact].
    unfold active_school in Hs2. apply andb_true_iff in Hs2 as [Hsid Hsub].
    repeat split; try assumption.
    + apply String.eqb_eq. exact Hid.
    + destruct (Profile.is_active p); [reflexivity|discriminate].
    + apply String.eqb_eq. exact Hsid.
    + apply BinderFacts.SubscriptionStatus_eqb_eq. exact Hsub.
Qed.

Lemma successful_signIn_binds_own_row_witness :
  exists u s p sc,
    signIn_reply BinderExamples.calm = mkAuthResponse (Some u) (Some s) None
    /\ snd (fst (signIn BinderExamples.calm "admin@x.edu" "Passw0rd!"
                   BinderExamples.signed_out BinderExamples.lincoln_backend))
       = bind p sc (setSession (Some s) BinderExamples.signed_out)
    /\ In p (profiles BinderExamples.lincoln_backend)
    /\ Profile.id p = User.id u
    /\ Profile.is_active p = true
    /\ In sc (schools BinderExamples.lincoln_backend)
    /\ School.id sc = Profile.tenant_id p
    /\ School.subscription_status sc = active.
Proof.
  exact (successful_signIn_binds_own_row BinderExamples.calm "admin@x.edu"
           "Passw0rd!" BinderExamples.signed_out
           BinderExamples.lincoln_backend eq_refl).
Defined.


(** *** Tenant switch *)

(** Bind reads the profiles and the schools only. *)
Lemma fetchUserData_reads fl now userId st be be' :
  profiles be' = profiles be -> schools be' = schools be ->
  fst (fetchUserData fl now userId st be')
  = fst (fetchUserData fl now userId st be).
Proof.
  intros Hp Hs. unfold fetchUserData. rewrite Hp, Hs.
  destruct (select_single (f_profile fl) (active_profile_of userId)
              (profiles be)) as [[p|] [e|]]; try reflexivity.
  cbn [Backend.error data].
  destruct (select_single (f_school fl) (active_school (Profile.tenant_id p))
              (schools be)) as [[sc|] [e|]]; try reflexivity.
  cbn [Backend.error data].
  destruct (updateProfiles _ _ _ be'), (updateProfiles _ _ _ be). reflexivity.
Qed.

Lemma fetchUserData_profiles fl now userId st be be' :
  profiles be' = profiles be -> schools be' = schools be ->
  profiles (snd (fetchUserData fl now userId st be'))
  = profiles (snd (fetchUserData fl now userId st be)).
Proof.
  intros Hp Hs. unfold fetchUserData. rewrite Hp, Hs.
  destruct (select_single (f_profile fl) (active_profile_of userId)
              (profiles be)) as [[p|] [e|]]; try exact Hp.
  cbn [Backend.error data].
  destruct (select_single (f_school fl) (active_school (Profile.tenant_id p))
              (schools be)) as [[sc|] [e|]]; try exact Hp.
  cbn [Backend.error data]. unfold updateProfiles, write.
  destruct (f_lastLogin fl); cbn [snd]; [exact Hp|].
  cbn [profiles with_profiles]. rewrite Hp. reflexivity.
Qed.

Lemma has_valid_binding_reads userId be be' :
  profiles be' = profiles be -> schools be' = schools be ->
  has_valid_binding userId be' = has_valid_binding userId be.
Proof. intros Hp Hs. unfold has_valid_binding. rewrite Hp, Hs. reflexivity. Qed.

(** Lines 482-511.  The switch rewrites the claims before it binds, and does
    not write them back: once the access check and the update of the
    identity went through, the identity carries the new tenant and the role
    of the profile row found there, whatever the Bind that follows reports;
    and when the identity has no valid binding, the switch fails with
    "Failed to load tenant data", the bound fields are those of before, and
    the claims stay rewritten. *)
Theorem switch_rewrites_the_claims_first env newTenantId st be s p :
  session st = Some s ->
  f_switchProfile env = None ->
  filter (profile_in_tenant (User.id (Session.user s)) newTenantId)
    (profiles be) = [p] ->
  f_updateUser env = None ->
  let out := switchTenant env newTenantId st be in
  let rewritten :=
    map (fun u => if AuthUser.id u =? User.id (Session.user s)
                  then set_claims newTenantId (Profile.role p) u else u)
      (users be) in
  users (snd out) = rewritten
  /\ (has_valid_binding (User.id (Session.user s)) be = false ->
      out = (failed_with "Failed to load tenant data", setIsLoading false st,
             with_users rewritten be)).
Proof.
  intros Hs Hf Hp Hu out rewritten. subst out rewritten.
  unfold switchTenant. rewrite Hs. unfold select_single. rewrite Hf, Hp.
  cbn [single Backend.error data ok]. unfold updateUser, write. rewrite Hu.
  cbn [Backend.error written].
  split.
  - pose proof (BinderFacts.fetchUserData_users (f_fetch env) (now env)
                  (User.id (Session.user s)) st
                  (with_users
                     (map (fun u => if AuthUser.id u =? User.id (Session.user s)
                                    then set_claims newTenantId (Profile.role p) u
                                    else u) (users be)) be)) as K.
    destruct (fetchUserData _ _ _ st _) as [[ok st1] be1]. cbn [snd] in K.
    destruct ok; cbn [snd]; exact K.
  - intros Hv.
    rewrite BinderFacts.fetchUserData_without_binding; [reflexivity|].
    rewrite <- Hv. apply has_valid_binding_reads; reflexivity.
Qed.

Lemma switch_rewrites_the_claims_first_witness :
  let out :=
    switchTenant BinderExamples.calm "t-1" BinderExamples.ada_bound
      BinderExamples.deactivated_backend in
  fst (fst out) = failed_with "Failed to load tenant data"
  /\ claims_of (snd out)
     = [("u-1", Claims.mk (Some "t-1") (Some admin) None None)].
Proof.
  destruct (switch_rewrites_the_claims_first BinderExamples.calm "t-1"
              BinderExamples.ada_bound BinderExamples.deactivated_backend
              BinderExamples.ada_session (BinderExamples.ada false)
              eq_refl eq_refl eq_refl eq_refl) as [_ H].
  cbv zeta in H. rewrite (H eq_refl). split; reflexivity.
Defined.

(** Lines 482-513.  The access check looks for a row of the new tenant, the
    Bind that follows for the active row of the identity: a switch that
    resolves to a success leaves the state bound to the one active profile
    row of the identity, and the bound tenant is the requested one exactly
    when the identity's row in the requested tenant is active. *)
Theorem successful_switch_binds_the_active_row env newTenantId st be :
  success (fst (fst (switchTenant env newTenantId st be))) = true ->
  exists s p sc,
    session st = Some s
    /\ filter (active_profile_of (User.id (Session.user s))) (profiles be) = [p]
    /\ snd (fst (switchTenant env newTenantId st be)) = bind p sc st
    /\ (Profile.tenant_id p = newTenantId <->
        exists q, In q (profiles be)
                  /\ profile_in_tenant (User.id (Session.user s)) newTenantId q
                     = true
                  /\ Profile.is_active q = true).
Proof.
  unfold switchTenant. destruct (session st) as [s|]; [|discriminate].
  destruct (select_single (f_switchProfile env)
              (profile_in_tenant (User.id (Session.user s)) newTenantId)
              (profiles be)) as [[q|] [e|]]; try discriminate.
  cbn [Backend.error data].
  unfold updateUser, write. destruct (f_updateUser env); [discriminate|].
  cbn [Backend.error written].
  match goal with
  | |- context [fetchUserData ?fl ?n ?u ?st0 ?b] =>
      destruct (BinderFacts.fetchUserData_cases fl n u st0 b)
        as [E|[p [sc [Hp [Hs [_ [_ E]]]]]]]; rewrite E
  end; [discriminate|].
  cbn [fst snd profiles schools with_users] in *. intros _.
  exists s, p, sc. split; [reflexivity|]. split; [exact Hp|].
  split; [reflexivity|].
  pose proof (BinderFacts.filter_singleton _ _ _ Hp) as [Hin Hact].
  unfold active_profile_of in Hact. apply andb_true_iff in Hact as [Hid Ha].
  split.
  - intros <-. exists p. split; [exact Hin|]. split.
    + unfold profile_in_tenant. rewrite Hid, String.eqb_refl. reflexivity.
    + destruct (Profile.is_active p); [reflexivity|discriminate].
  - intros [r [Hr [Hk Hra]]]. unfold profile_in_tenant in Hk.
    apply andb_true_iff in Hk as [Hrid Hrt].
    assert (Hf : In r (filter (active_profile_of (User.id (Session.user s)))
                         (profiles be))).
    { apply filter_In. split; [exact Hr|]. unfold active_profile_of.
      rewrite Hrid, Hra. reflexivity. }
    rewrite Hp in Hf. destruct Hf as [<-|[]].
    apply String.eqb_eq. exact Hrt.
Qed.

Lemma successful_switch_binds_the_active_row_witness :
  let out :=
    switchTenant BinderExamples.calm "t-2" BinderExamples.ada_bound
      BinderMoreExamples.two_tenant_backend in
  fst (fst out) = succeeded
  /\ exists s p sc,
       session BinderExamples.ada_bound = Some s
       /\ filter (active_profile_of (User.id (Session.user s)))
            (profiles BinderMoreExamples.two_tenant_backend) = [p]
       /\ snd (fst out) = bind p sc BinderExamples.ada_bound
       /\ (Profile.tenant_id p = "t-2" <->
           exists q, In q (profiles BinderMoreExamples.two_tenant_backend)
                     /\ profile_in_tenant (User.id (Session.user s)) "t-2" q
                        = true
                     /\ Profile.is_active q = true).
Proof.
  split; [reflexivity|].
  exact (successful_switch_binds_the_active_row BinderExamples.calm "t-2"
           BinderExamples.ada_bound BinderMoreExamples.two_tenant_backend
           eq_refl).
Defined.

(** The switch of the witness above, spelled out, in a backend that holds
    two rows for one identity, as the access check of line 483 presupposes:
    Ada asks for Hilltop, where her row is deactivated; the switch resolves
    to a success, her claims name Hilltop, and the state stays bound to
    Lincoln. *)
Example switch_to_a_deactivated_row :
  let out :=
    switchTenant BinderExamples.calm "t-2" BinderExamples.ada_bound
      BinderMoreExamples.two_tenant_backend in
  fst (fst out) = succeeded
  /\ tenantId (snd (fst out)) = Some "t-1"
  /\ claims_of (snd out)
     = [("u-1", Claims.mk (Some "t-2") (Some teacher) None None)].
Proof. repeat split. Qed.


(** *** Sign-up *)

Lemma signUp_school_default env ro sd be :
  ro <> admin \/ sd = None ->
  signUp_school env ro sd be = (Some default_school_id, be).
Proof.
  unfold signUp_school. intros [H| ->]; [|reflexivity].
  destruct sd; [|reflexivity]. destruct ro; try reflexivity. contradiction.
Qed.

Lemma signUp_school_frame env ro sd be :
  Outcome.grew (schools be) (schools (snd (signUp_school env ro sd be)))
  /\ users (snd (signUp_school env ro sd be)) = users be
  /\ profiles (snd (signUp_school env ro sd be)) = profiles be
  /\ academic_terms (snd (signUp_school env ro sd be)) = academic_terms be
  /\ teachers (snd (signUp_school env ro sd be)) = teachers be
  /\ parents (snd (signUp_school env ro sd be)) = parents be.
Proof.
  unfold signUp_school, Outcome.grew.
  destruct sd as [d|]; [|repeat split; exists []; symmetry; apply app_nil_r].
  destruct ro; try (repeat split; exists []; symmetry; apply app_nil_r).
  destruct (SchoolPatch.name d);
    [|repeat split; exists []; symmetry; apply app_nil_r].
  unfold insertSchool. destruct (f_insertSchool env); cbn.
  - repeat split; exists []; symmetry; apply app_nil_r.
  - repeat split. eexists. reflexivity.
Qed.

Lemma signUp_extension_frame env ro schoolId userId be :
  schools (signUp_extension env ro schoolId userId be) = schools be
  /\ users (signUp_extension env ro schoolId userId be) = users be
  /\ profiles (signUp_extension env ro schoolId userId be) = profiles be
  /\ academic_terms (signUp_extension env ro schoolId userId be)
     = academic_terms be.
Proof.
  unfold signUp_extension, insertTeacher, insertParent, write.
  destruct ro; [destruct (f_insertTeacher env)|destruct (f_insertParent env)|];
    repeat split.
Qed.

(** Lines 261-386.  A sign-up resolves to a success exactly when the tenant
    was settled, the provider answered with a user and no error, and the
    insert of the profile went through; it then resolves to the id of that
    user.  Neither the role-specific insert nor the Bind that follows has a
    say. *)
Theorem signUp_succeeds_exactly env email password ro sd st be :
  let out := signUp env email password ro sd st be in
  (success (fst (fst out)) = true <->
   exists schoolId u,
     fst (signUp_school env ro sd be) = Some schoolId
     /\ a_error (signUp_reply env) = None
     /\ a_user (signUp_reply env) = Some u
     /\ f_insertProfile env = None)
  /\ (forall u,
        success (fst (fst out)) = true ->
        a_user (signUp_reply env) = Some u ->
        fst (fst out) = mkResult true None (Some (User.id u)))
  /\ isLoading (snd (fst out)) = false.
Proof.
  intros out. subst out. unfold signUp.
  destruct (signUp_school env ro sd be) as [[schoolId|] be1]; cbn [fst].
  2:{ split; [|split]; [split|discriminate|reflexivity];
        [discriminate|intros [x [u [H _]]]; discriminate]. }
  destruct (a_error (signUp_reply env)) as [msg|].
  { split; [|split]; [split|discriminate|reflexivity];
      [discriminate|intros [x [u [_ [H _]]]]; discriminate]. }
  destruct (a_user (signUp_reply env)) as [u|].
  2:{ split; [|split]; [split|discriminate|reflexivity];
        [discriminate|intros [x [u [_ [_ [H _]]]]]; discriminate]. }
  unfold insertProfile, write.
  destruct (f_insertProfile env) as [msg|]; cbn [Backend.error failed written].
  { split; [|split]; [split|discriminate|reflexivity];
      [discriminate|intros [x [v [_ [_ [_ H]]]]]; discriminate]. }
  destruct (a_session (signUp_reply env)); [framed_fetch|]; cbn [fst snd].
  - split; [|split]; [split| |reflexivity].
    + intros _. exists schoolId, u. repeat split.
    + reflexivity.
    + intros v _ E. injection E as <-. reflexivity.
  - split; [|split]; [split| |reflexivity].
    + intros _. exists schoolId, u. repeat split.
    + reflexivity.
    + intros v _ E. injection E as <-. reflexivity.
Qed.


(** Lines 273-332.  A sign-up that is not that of an admin with school
    data (a teacher, a parent, or an admin without school data) creates no
    school and joins the fixed school of line 298: when the provider answers
    with a user and the insert of the profile goes through, the identity is
    recorded with that tenant in its claims and the profile row carries that
    tenant, the lower-cased e-mail and the role asked for. *)
Theorem signUp_without_school_joins_the_default_one
    env email password ro sd st be u os :
  ro <> admin \/ sd = None ->
  signUp_reply env = mkAuthResponse (Some u) os None ->
  f_insertProfile env = None ->
  let out := signUp env email password ro sd st be in
  fst (fst out) = mkResult true None (Some (User.id u))
  /\ schools (snd out) = schools be
  /\ users (snd out)
     = users be
       ++ [AuthUser.mk (User.id u) (toLowerCase email) password
             (Claims.mk (Some default_school_id) (Some ro) None None) false]
  /\ Forall2 (stamped (User.id u) (now env))
       (profiles be
        ++ [Profile.mk (User.id u) default_school_id (toLowerCase email) ro
              None None None None true None (now env) None])
       (profiles (snd out)).
Proof.
  intros Hd Hr Hf out. subst out. unfold signUp.
  rewrite (signUp_school_default env ro sd be Hd), Hr.
  cbn [a_error a_user a_session]. unfold insertProfile, write. rewrite Hf.
  cbn [Backend.error written].
  match goal with
  | |- context [signUp_extension env ro ?sid ?uid ?b] =>
      pose proof (signUp_extension_frame env ro sid uid b) as [Xs [Xu [Xp _]]];
      destruct (signUp_extension env ro sid uid b) as [s1 u1 p1 t1 te1 pa1]
  end.
  cbn [schools users profiles with_profiles with_users] in Xs, Xu, Xp.
  subst s1 u1 p1.
  destruct os as [s|].
  - framed_fetch. cbn [fst snd]. unfold other_tables in Ko.
    cbn [schools users academic_terms teachers parents] in Ko.
    injection Ko as -> -> _ _ _. cbn [profiles] in Kp.
    repeat split. exact Kp.
  - cbn [fst snd schools users profiles]. repeat split. apply stamped_refl.
Qed.

Lemma signUp_without_school_joins_the_default_one_witness :
  let out :=
    signUp BinderMoreExamples.signup_accepted "Grace@x.edu" "Passw0rd!" teacher
      (Some BinderMoreExamples.hilltop_data) BinderExamples.signed_out
      BinderExamples.lincoln_backend in
  schools (snd out) = [BinderExamples.lincoln_school]
  /\ map Profile.tenant_id (profiles (snd out)) = ["t-1"; default_school_id]
  /\ teachers (snd out) = [Teacher.mk default_school_id "u-2"].
Proof.
  destruct (signUp_without_school_joins_the_default_one
              BinderMoreExamples.signup_accepted "Grace@x.edu" "Passw0rd!"
              teacher (Some BinderMoreExamples.hilltop_data)
              BinderExamples.signed_out BinderExamples.lincoln_backend
              BinderMoreExamples.grace None
              (or_introl (fun E : teacher = admin =>
                            eq_ind teacher
                              (fun r => match r with teacher => True
                                                | _ => False end)
                              I admin E))
              eq_refl eq_refl) as [_ [H _]].
  split; [exact H|]. split; reflexivity.
Defined.

(** Lines 273-337.  The sign-up of an admin undoes nothing: once its school
    was inserted, a refusal of the provider or of the insert of the profile
    makes the sign-up fail and leaves the school in the backend, with no
    profile for it; after a refused profile insert the identity stays as
    well, its claims naming the school. *)
Theorem refused_signUp_leaves_the_school env email password d name st be :
  SchoolPatch.name d = Some name ->
  f_insertSchool env = None ->
  success (fst (fst (signUp env email password admin (Some d) st be))) = false ->
  let out := signUp env email password admin (Some d) st be in
  schools (snd out) = schools be ++ [newSchool env d name]
  /\ profiles (snd out) = profiles be
  /\ (forall u,
        a_error (signUp_reply env) = None ->
        a_user (signUp_reply env) = Some u ->
        users (snd out)
        = users be
          ++ [AuthUser.mk (User.id u) (toLowerCase email) password
                (Claims.mk (Some (new_school_id env)) (Some admin) None None)
                false]).
Proof.
  intros Hn Hf. unfold signUp, signUp_school. rewrite Hn.
  unfold insertSchool. rewrite Hf. cbn [Backend.error data ok].
  destruct (a_error (signUp_reply env)) as [msg|];
    [intros _; repeat split; discriminate|].
  destruct (a_user (signUp_reply env)) as [u|];
    [|intros _; repeat split; discriminate].
  unfold insertProfile, write.
  destruct (f_insertProfile env) as [msg|]; cbn [Backend.error failed written].
  - intros _. repeat split. intros v _ E. injection E as <-. reflexivity.
  - cbn [signUp_extension].
    destruct (a_session (signUp_reply env)); [framed_fetch|]; discriminate.
Qed.

Lemma refused_signUp_leaves_the_school_witness :
  let out :=
    signUp BinderExamples.calm "head@hilltop.edu" "Passw0rd!" admin
      (Some BinderMoreExamples.hilltop_data) BinderExamples.signed_out
      BinderExamples.lincoln_backend in
  fst (fst out) = failed_with "Signups not allowed"
  /\ map School.name (schools (snd out)) = ["Lincoln"; "Hilltop"]
  /\ profiles (snd out) = profiles BinderExamples.lincoln_backend.
Proof.
  destruct (refused_signUp_leaves_the_school BinderExamples.calm
              "head@hilltop.edu" "Passw0rd!" BinderMoreExamples.hilltop_data
              "Hilltop" BinderExamples.signed_out
              BinderExamples.lincoln_backend eq_refl eq_refl eq_refl)
    as [Hs [Hp _]].
  split; [reflexivity|]. split; [|exact Hp].
  cbv zeta in Hs. rewrite Hs. reflexivity.
Defined.

(** Lines 339-371.  The role-specific insert is not looked at: whether the
    insert of the teacher or parent record is refused or goes through, the
    sign-up resolves to the same result and leaves the same state, and the
    schools, identities, profiles and terms of the backend are the same. *)
Theorem refused_extension_is_tolerated env ft fp email password ro sd st be :
  let out := signUp env email password ro sd st be in
  let out' :=
    signUp (with_extension_faults ft fp env) email password ro sd st be in
  fst out' = fst out
  /\ schools (snd out') = schools (snd out)
  /\ users (snd out') = users (snd out)
  /\ profiles (snd out') = profiles (snd out)
  /\ academic_terms (snd out') = academic_terms (snd out).
Proof.
  intros out out'. subst out out'. unfold signUp.
  replace (signUp_school (with_extension_faults ft fp env) ro sd be)
    with (signUp_school env ro sd be) by reflexivity.
  destruct (signUp_school env ro sd be) as [[schoolId|] be1];
    [|repeat split].
  cbn [signUp_reply with_extension_faults f_insertProfile now f_fetch].
  destruct (a_error (signUp_reply env)); [repeat split|].
  destruct (a_user (signUp_reply env)) as [u|]; [|repeat split].
  destruct (insertProfile (f_insertProfile env) _ _) as [profile be2].
  destruct (Backend.error profile); [repeat split|].
  pose proof (signUp_extension_frame env ro schoolId (User.id u) be2)
    as [Xs [Xu [Xp Xt]]].
  pose proof (signUp_extension_frame (with_extension_faults ft fp env) ro
                schoolId (User.id u) be2) as [Ys [Yu [Yp Yt]]].
  destruct (signUp_extension env ro schoolId (User.id u) be2) as
    [s1 u1 p1 t1 te1 pa1].
  destruct (signUp_extension (with_extension_faults ft fp env) ro schoolId
              (User.id u) be2) as [s2 u2 p2 t2 te2 pa2].
  cbn [schools users profiles academic_terms] in *. subst.
  destruct (a_session (signUp_reply env)) as [s|]; [|repeat split].
  match goal with
  | |- context [fetchUserData ?fl ?n ?uid ?st0 (Backend.mk ?a ?b ?c ?d te2 pa2)] =>
      pose proof (fetchUserData_reads fl n uid st0
                    (Backend.mk a b c d te1 pa1) (Backend.mk a b c d te2 pa2)
                    eq_refl eq_refl) as R;
      pose proof (fetchUserData_profiles fl n uid st0
                    (Backend.mk a b c d te1 pa1) (Backend.mk a b c d te2 pa2)
                    eq_refl eq_refl) as P;
      pose proof (fetchUserData_frame fl n uid st0 (Backend.mk a b c d te2 pa2))
        as [_ [_ [_ [_ [F2 _]]]]];
      pose proof (fetchUserData_frame fl n uid st0 (Backend.mk a b c d te1 pa1))
        as [_ [_ [_ [_ [F1 _]]]]];
      destruct (fetchUserData fl n uid st0 (Backend.mk a b c d te2 pa2))
        as [[ok2 st2] b2];
      destruct (fetchUserData fl n uid st0 (Backend.mk a b c d te1 pa1))
        as [[ok1 st1] b1]
  end.
  cbn [fst snd] in *. injection R as -> ->.
  unfold other_tables in F1, F2.
  cbn [schools users academic_terms teachers parents] in F1, F2.
  injection F1 as -> -> -> _ _. injection F2 as -> -> -> _ _.
  repeat split. exact P.
Qed.


(** *** The handler of the provider's events *)

(** What Bind reports, binds and writes does not depend on the session of
    the state it starts from. *)
Lemma fetchUserData_session fl now userId s st be :
  fst (fst (fetchUserData fl now userId (setSession s st) be))
  = fst (fst (fetchUserData fl now userId st be))
  /\ bound_fields (snd (fst (fetchUserData fl now userId (setSession s st) be)))
     = bound_fields (snd (fst (fetchUserData fl now userId st be)))
  /\ snd (fetchUserData fl now userId (setSession s st) be)
     = snd (fetchUserData fl now userId st be).
Proof.
  unfold fetchUserData.
  destruct (select_single (f_profile fl) (active_profile_of userId)
              (profiles be)) as [[p|] [e|]];
    cbn [Backend.error data]; try (split; [|split]; reflexivity).
  destruct (select_single (f_school fl) (active_school (Profile.tenant_id p))
              (schools be)) as [[sc|] [e|]];
    cbn [Backend.error data]; try (split; [|split]; reflexivity).
  destruct (updateProfiles _ _ _ be). split; [|split]; reflexivity.
Qed.

(** Lines 534-555.  The claims of the pushed token are only tested for the
    presence of a tenant: two pushed sessions of one identity that differ in
    their claims leave the same bound fields and the same backend, the
    bound tenant being read from the profile row, not from the token; and
    the handler asks the provider to sign out exactly when the token names
    a tenant and the Bind fails. *)
Theorem pushed_claims_do_not_bind env uid c c' st be :
  let out := onAuthStateChange env (Some (session_of uid c)) st be in
  let out' := onAuthStateChange env (Some (session_of uid c')) st be in
  bound_fields (snd (fst out')) = bound_fields (snd (fst out))
  /\ snd out' = snd out
  /\ (fst (fst out) = true <->
      truthy (Claims.tenant_id c) = true
      /\ fst (fst (fetchUserData (f_fetch env) (now env) uid st be)) = false).
Proof.
  intros out out'. subst out out'. unfold onAuthStateChange, session_of.
  cbn [Session.user User.id User.user_metadata].
  pose proof (fetchUserData_session (f_fetch env) (now env) uid
                (Some (Session.mk (User.mk uid c))) st be) as [R1 [B1 W1]].
  pose proof (fetchUserData_session (f_fetch env) (now env) uid
                (Some (Session.mk (User.mk uid c'))) st be) as [R2 [B2 W2]].
  destruct (fetchUserData (f_fetch env) (now env) uid
              (setSession (Some (Session.mk (User.mk uid c))) st) be)
    as [[ok1 st1] be1].
  destruct (fetchUserData (f_fetch env) (now env) uid
              (setSession (Some (Session.mk (User.mk uid c'))) st) be)
    as [[ok2 st2] be2].
  destruct (fetchUserData (f_fetch env) (now env) uid st be) as [[ok st0] be0].
  cbn [fst snd] in *. subst.
  destruct (truthy (Claims.tenant_id c)), (truthy (Claims.tenant_id c'));
    cbn [fst snd]; (split; [congruence|]); (split; [reflexivity|]);
    destruct ok; cbn; split; try tauto; try discriminate;
    intros [? ?]; discriminate.
Qed.

(** *** The flags *)

Ltac settle_flags :=
  cbn [fst snd settles_loading setIsLoading setInitialized setSession setUser
       setSchool setRole setTenantId initialized isLoading Backend.error
       data] in *;
  split;
    [ first [ discriminate | intros _; first [ reflexivity | assumption ] ]
    | split;
        [ first [ intros _; reflexivity | congruence | tauto ]
        | first [ discriminate | intros; reflexivity ] ] ].

(** Lines 194-253, 267-386, 392-422 and 520-565.  After the restore of a
    session, a pushed event, a sign-up or a sign-in the loading flag is
    off, whatever happened; no operation resets the [initialized] flag, and
    the restore sets it. *)
Theorem operations_settle_the_flags env op st be :
  let st' := snd (fst (step env op st be)) in
  (settles_loading op = true -> isLoading st' = false)
  /\ (initialized st = true -> initialized st' = true)
  /\ (forall restored, op = Start restored -> initialized st' = true).
Proof.
  intros st'. subst st'.
  destruct op as [restored|pushed|email password ro sd|email password| |
                  |updates|newTenantId]; unfold step.
  - unfold start. destruct restored as [s|]; [framed_fetch|]; settle_flags.
  - unfold onAuthStateChange. destruct pushed as [s|]; [|settle_flags].
    framed_fetch. destruct (truthy _); settle_flags.
  - unfold signUp.
    destruct (signUp_school env ro sd be) as [[schoolId|] be1];
      [|settle_flags].
    destruct (a_error (signUp_reply env)); [settle_flags|].
    destruct (a_user (signUp_reply env)) as [u|]; [|settle_flags].
    destruct (insertProfile _ _ _) as [profile be2].
    destruct (Backend.error profile); [settle_flags|].
    destruct (a_session (signUp_reply env)); [framed_fetch|]; settle_flags.
  - unfold signIn.
    destruct (a_error (signIn_reply env)); [settle_flags|].
    destruct (a_session (signIn_reply env)); [|settle_flags].
    destruct (a_user (signIn_reply env)); [|settle_flags].
    framed_fetch. destruct b; settle_flags.
  - unfold signOut. destruct (f_signOut env); settle_flags.
  - unfold refreshUserData. destruct (session st) as [s|]; [|settle_flags].
    destruct (truthy _); [|settle_flags].
    framed_fetch. settle_flags.
  - unfold updateProfile.
    destruct (user st); [|settle_flags].
    destruct (negb _); [settle_flags|].
    destruct (updateProfiles _ _ _ be) as [reply be1].
    destruct (Backend.error reply); [settle_flags|].
    unfold refreshUserData. destruct (session st) as [s|]; [|settle_flags].
    destruct (truthy _); [|settle_flags].
    framed_fetch. settle_flags.
  - unfold switchTenant.
    destruct (session st) as [s|]; [|settle_flags].
    destruct (select_single (f_switchProfile env)
                (profile_in_tenant (User.id (Session.user s)) newTenantId)
                (profiles be)) as [[p|] [e|]]; try settle_flags.
    cbn [Backend.error data].
    destruct (updateUser _ _ _ _ be) as [reply be1].
    destruct (Backend.error reply); [settle_flags|].
    framed_fetch. destruct b; settle_flags.
Qed.


(** *** What the binder never removes *)

Lemma grew_refl {A : Type} (l : list A) : Outcome.grew l l.
Proof. exists []. symmetry. apply app_nil_r. Qed.

Lemma grew_trans {A : Type} (l1 l2 l3 : list A) :
  Outcome.grew l1 l2 -> Outcome.grew l2 l3 -> Outcome.grew l1 l3.
Proof.
  intros [a ->] [b ->]. exists (a ++ b). symmetry. apply app_assoc.
Qed.

Lemma grew_same {A : Type} (l1 l2 : list A) : l2 = l1 -> Outcome.grew l1 l2.
Proof. intros ->. apply grew_refl. Qed.

Lemma extends_refl be : extends be be.
Proof. repeat split; apply grew_refl. Qed.

Lemma extends_trans be1 be2 be3 :
  extends be1 be2 -> extends be2 be3 -> extends be1 be3.
Proof.
  intros [A1 [A2 [A3 [A4 [A5 A6]]]]] [B1 [B2 [B3 [B4 [B5 B6]]]]].
  repeat split; try (eapply grew_trans; eassumption). congruence.
Qed.

Lemma fetchUserData_extends fl now userId st be :
  extends be (snd (fetchUserData fl now userId st be)).
Proof.
  pose proof (fetchUserData_frame fl now userId st be) as [_ [_ [_ [_ [Ko _]]]]].
  pose proof (BinderFacts.fetchUserData_protected fl now userId st be) as Kp.
  destruct (fetchUserData fl now userId st be) as [[ok st1] be1].
  cbn [fst snd] in *. unfold other_tables in Ko.
  injection Ko as Hs Hu Ht Hte Hpa.
  repeat split; try (apply grew_same; congruence). exact Ht.
Qed.

Lemma refreshUserData_extends env st be :
  extends be (snd (refreshUserData env st be)).
Proof.
  unfold refreshUserData.
  destruct (session st) as [s|]; [|apply extends_refl].
  destruct (truthy _); [|apply extends_refl].
  pose proof (fetchUserData_extends (f_fetch env) (now env)
                (User.id (Session.user s)) st be) as H.
  destruct (fetchUserData _ _ _ st be) as [[ok st'] be']. exact H.
Qed.

Lemma updateProfiles_extends ft keep change be :
  (forall p, protected_columns (change p) = protected_columns p) ->
  extends be (snd (updateProfiles ft keep change be)).
Proof.
  intros H.
  pose proof (BinderFacts.updateProfiles_protected ft keep change be H) as K.
  unfold updateProfiles, write in *. destruct ft; cbn [snd] in *;
    [apply extends_refl|].
  repeat split; try apply grew_refl. apply grew_same. exact K.
Qed.

Lemma credentials_set_claims id tenant ro (l : list AuthUser.t) :
  map credentials
    (map (fun u => if AuthUser.id u =? id then set_claims tenant ro u else u) l)
  = map credentials l.
Proof.
  induction l as [|u l IH]; [reflexivity|]. cbn [map]. rewrite IH.
  destruct (AuthUser.id u =? id); reflexivity.
Qed.

Lemma updateUser_extends ft id tenant ro be :
  extends be (snd (updateUser ft id tenant ro be)).
Proof.
  unfold updateUser, write. destruct ft; cbn [snd]; [apply extends_refl|].
  repeat split; try apply grew_refl. apply grew_same.
  cbn [users with_users]. apply credentials_set_claims.
Qed.

Lemma signUp_school_extends env ro sd be :
  extends be (snd (signUp_school env ro sd be)).
Proof.
  destruct (signUp_school_frame env ro sd be) as [Hs [Hu [Hp [Ht [Hte Hpa]]]]].
  repeat split; try (apply grew_same; congruence); assumption.
Qed.

Lemma signUp_extension_extends env ro schoolId userId be :
  extends be (signUp_extension env ro schoolId userId be).
Proof.
  unfold signUp_extension, insertTeacher, insertParent, write.
  destruct ro; [destruct (f_insertTeacher env)|destruct (f_insertParent env)|];
    cbn [snd]; try apply extends_refl;
    repeat split; try apply grew_refl; eexists; reflexivity.
Qed.

Lemma new_identity_extends u be :
  extends be (with_users (users be ++ [u]) be).
Proof.
  repeat split; try apply grew_refl. cbn [users with_users].
  rewrite map_app. eexists. reflexivity.
Qed.

Lemma insertProfile_extends ft row be :
  extends be (snd (insertProfile ft row be)).
Proof.
  unfold insertProfile, write. destruct ft; cbn [snd]; [apply extends_refl|].
  repeat split; try apply grew_refl. cbn [profiles with_profiles].
  rewrite map_app. eexists. reflexivity.
Qed.

(** Lines 193-568.  No operation of the provider removes anything: after
    any operation, whatever failed, every table starts with the rows it
    held; no school changed; no identity changed its id, e-mail or
    password; no profile changed its [id], [tenant_id] or [created_at]; and
    the terms are the same. *)
Theorem step_never_deletes env op st be :
  extends be (snd (step env op st be)).
Proof.
  destruct op as [restored|pushed|email password ro sd|email password| |
                  |updates|newTenantId]; unfold step.
  - unfold start. destruct restored as [s|]; [|apply extends_refl].
    match goal with
    | |- context [fetchUserData ?fl ?n ?u ?st0 ?b] =>
        pose proof (fetchUserData_extends fl n u st0 b) as K;
        destruct (fetchUserData fl n u st0 b) as [[? ?] ?]
    end. exact K.
  - unfold onAuthStateChange. destruct pushed as [s|]; [|apply extends_refl].
    match goal with
    | |- context [fetchUserData ?fl ?n ?u ?st0 ?b] =>
        pose proof (fetchUserData_extends fl n u st0 b) as K;
        destruct (fetchUserData fl n u st0 b) as [[? ?] ?]
    end. destruct (truthy _); exact K.
  - unfold signUp.
    pose proof (signUp_school_extends env ro sd be) as K1.
    destruct (signUp_school env ro sd be) as [[schoolId|] be1]; cbn [snd] in K1;
      [|exact K1].
    destruct (a_error (signUp_reply env)); [exact K1|].
    destruct (a_user (signUp_reply env)) as [u|]; [|exact K1].
    match goal with
    | |- context [insertProfile ?ft ?row (with_users (users be1 ++ [?i]) be1)] =>
        pose proof (new_identity_extends i be1) as K2;
        pose proof (insertProfile_extends ft row
                      (with_users (users be1 ++ [i]) be1)) as K3;
        destruct (insertProfile ft row (with_users (users be1 ++ [i]) be1))
          as [profile be2]
    end.
    cbn [snd] in K3.
    assert (K : extends be be2)
      by (eapply extends_trans; [exact K1|];
          eapply extends_trans; [exact K2|exact K3]).
    destruct (Backend.error profile); [exact K|].
    pose proof (signUp_extension_extends env ro schoolId (User.id u) be2) as K4.
    destruct (a_session (signUp_reply env)).
    + match goal with
      | |- context [fetchUserData ?fl ?n ?v ?st0 ?b] =>
          pose proof (fetchUserData_extends fl n v st0 b) as K5;
          destruct (fetchUserData fl n v st0 b) as [[? ?] ?]
      end.
      cbn [snd] in *.
      eapply extends_trans; [exact K|].
      eapply extends_trans; [exact K4|exact K5].
    + cbn [snd]. eapply extends_trans; [exact K|exact K4].
  - unfold signIn.
    destruct (a_error (signIn_reply env)); [apply extends_refl|].
    destruct (a_session (signIn_reply env)); [|apply extends_refl].
    destruct (a_user (signIn_reply env)); [|apply extends_refl].
    match goal with
    | |- context [fetchUserData ?fl ?n ?u ?st0 ?b] =>
        pose proof (fetchUserData_extends fl n u st0 b) as K;
        destruct (fetchUserData fl n u st0 b) as [[ok ?] ?]
    end. destruct ok; exact K.
  - apply extends_refl.
  - pose proof (refreshUserData_extends env st be) as K.
    destruct (refreshUserData env st be). exact K.
  - unfold updateProfile.
    destruct (user st) as [u|]; [|apply extends_refl].
    destruct (negb _); [apply extends_refl|].
    match goal with
    | |- context [updateProfiles ?ft ?keep ?change be] =>
        pose proof (updateProfiles_extends ft keep change be
                      (BinderFacts.apply_allowed_protected updates)) as K1;
        destruct (updateProfiles ft keep change be) as [reply be1]
    end.
    cbn [snd] in K1.
    destruct (Backend.error reply); [exact K1|].
    pose proof (refreshUserData_extends env st be1) as K2.
    destruct (refreshUserData env st be1). cbn [snd] in *.
    eapply extends_trans; eassumption.
  - unfold switchTenant.
    destruct (session st) as [s|]; [|apply extends_refl].
    destruct (select_single (f_switchProfile env)
                (profile_in_tenant (User.id (Session.user s)) newTenantId)
                (profiles be)) as [[p|] [e|]]; try apply extends_refl.
    cbn [Backend.error data].
    pose proof (updateUser_extends (f_updateUser env) (User.id (Session.user s))
                  newTenantId (Profile.role p) be) as K1.
    destruct (updateUser _ _ _ _ be) as [reply be1]. cbn [snd] in K1.
    destruct (Backend.error reply); [exact K1|].
    match goal with
    | |- context [fetchUserData ?fl ?n ?u ?st0 ?b] =>
        pose proof (fetchUserData_extends fl n u st0 b) as K2;
        destruct (fetchUserData fl n u st0 b) as [[ok ?] ?]
    end.
    cbn [snd] in K2.
    destruct ok; cbn [snd]; eapply extends_trans; eassumption.
Qed.

(** Lines 446-474.  A profile update touches the profiles only, and there
    never the [id], the [tenant_id] or the [created_at] of a row, whatever
    the patch holds and whatever fails. *)
Theorem updateProfile_touches_profiles_only env updates st be :
  other_tables (snd (updateProfile env updates st be)) = other_tables be
  /\ map protected_columns (profiles (snd (updateProfile env updates st be)))
     = map protected_columns (profiles be)
  /\ length (profiles (snd (updateProfile env updates st be)))
     = length (profiles be).
Proof.
  split; [|split].
  - unfold updateProfile.
    destruct (user st) as [u|]; [|reflexivity].
    destruct (negb _); [reflexivity|].
    unfold updateProfiles, write.
    destruct (f_updateProfile env); cbn [Backend.error failed written];
      [reflexivity|].
    unfold refreshUserData. destruct (session st) as [s|]; [|reflexivity].
    destruct (truthy _); [|reflexivity].
    framed_fetch. cbn [snd]. rewrite Ko. reflexivity.
  - apply BinderFacts.updateProfile_protected.
  - rewrite <- (length_map protected_columns
                  (profiles (snd (updateProfile env updates st be)))).
    rewrite BinderFacts.updateProfile_protected. apply length_map.
Qed.

End BinderMore.


(* ===================================================================== *)
(** ** The hooks, the form and the grades *)
(* ===================================================================== *)

Module HooksFacts.

Import JS Backend Hooks.

(** *** Objects *)

Lemma lookup_dropped key k (o : object) :
  k <> key ->
  lookup k (filter (fun kv => negb (fst kv =? key)) o) = lookup k o.
Proof.
  intros Hne. induction o as [|[k0 v0] o IH]; [reflexivity|].
  cbn [filter fst lookup].
  destruct (k0 =? key) eqn:E; cbn [negb].
  - apply String.eqb_eq in E. subst k0.
    destruct (key =? k) eqn:E'; [|exact IH].
    apply String.eqb_eq in E'. congruence.
  - cbn [lookup]. rewrite IH. reflexivity.
Qed.

Lemma lookup_set_same key v (o : object) : lookup key (set key v o) = Some v.
Proof. unfold set. cbn [lookup]. rewrite String.eqb_refl. reflexivity. Qed.

Lemma lookup_set_other key k v (o : object) :
  k <> key -> lookup k (set key v o) = lookup k o.
Proof.
  intros Hne. unfold set. cbn [lookup].
  destruct (key =? k) eqn:E; [apply String.eqb_eq in E; congruence|].
  apply lookup_dropped. exact Hne.
Qed.

(** [{ ...o, ...patch }] reads as [patch] where [patch] holds the key, and
    as [o] elsewhere. *)
Lemma lookup_merge k (o patch : object) :
  lookup k (merge o patch)
  = match lookup k patch with
    | Some v => Some v
    | None => lookup k o
    end.
Proof.
  induction patch as [|[k0 v0] patch IH]; [reflexivity|].
  cbn [merge fold_right fst snd lookup].
  destruct (k0 =? k) eqn:E.
  - apply String.eqb_eq in E. subst k0. apply lookup_set_same.
  - rewrite lookup_set_other; [exact IH|].
    intros ->. rewrite String.eqb_refl in E. discriminate.
Qed.

Lemma get_set_same key v (o : object) : get key (set key v o) = v.
Proof. unfold get. rewrite lookup_set_same. reflexivity. Qed.

Lemma sql_eq_Str a s : sql_eq a (Str s) = true <-> a = Str s.
Proof.
  destruct a; cbn; split; try discriminate.
  - intros H. apply String.eqb_eq in H. congruence.
  - intros H. injection H as ->. apply String.eqb_refl.
Qed.

(** *** Sorting keeps the rows *)

Lemma In_insert_by leb r (l : list object) x :
  In x (insert_by leb r l) <-> x = r \/ In x l.
Proof.
  induction l as [|y l IH]; cbn [insert_by].
  - cbn. intuition.
  - destruct (leb r y); cbn [In]; [intuition|]. rewrite IH. intuition.
Qed.

Lemma In_sort_by leb (l : list object) x : In x (sort_by leb l) <-> In x l.
Proof.
  induction l as [|y l IH]; [reflexivity|].
  unfold sort_by in *. cbn [fold_right]. rewrite In_insert_by, IH.
  cbn. intuition.
Qed.

Lemma In_order compare orderBy (l : list object) x :
  In x (order compare orderBy l) <-> In x l.
Proof.
  unfold order. destruct orderBy as [[column asc]|]; [|reflexivity].
  apply In_sort_by.
Qed.

(** *** [useTenantQuery] *)

(** Lines 45-92.  The loading flag is off after every fetch.  When the
    provider is loading or has no tenant, or when the query fails, the rows
    the hook held stay, whatever was selected: the hook does not empty
    itself.  When a fetch that selects ["*"] gets through, the hook holds
    exactly the rows of the table that belong to the tenant of the provider
    and pass the filters, and no error; so the students that [useStudents]
    holds are the active students of the tenant. *)
Theorem fetchData_isolates ft compare shape authLoading tenantId select
    filters orderBy rows st :
  let st' :=
    fetchData ft compare shape authLoading tenantId select filters orderBy
      rows st in
  q_loading st' = false
  /\ (authLoading = true \/ truthy tenantId = false \/ is_some ft = true ->
      q_data st' = q_data st)
  /\ (authLoading = false -> truthy tenantId = true -> ft = None ->
      select = "*" ->
      q_error st' = None
      /\ forall r,
           In r (q_data st') <->
           In r rows
           /\ get "tenant_id" r = Str (str tenantId)
           /\ match filters with
              | Some entries => forallb (fun e => entry_holds e r) entries
              | None => true
              end = true)
  /\ (authLoading = false -> truthy tenantId = true -> ft = None ->
      forall r,
        In r (q_data (useStudents_fetch ft compare shape authLoading tenantId
                        rows st)) <->
        In r rows
        /\ get "tenant_id" r = Str (str tenantId)
        /\ get "is_active" r = Bool true).
Proof.
  intros st'. subst st'. unfold useStudents_fetch, fetchData.
  destruct authLoading; cbn [orb].
  { split; [reflexivity|]. split; [reflexivity|].
    split; discriminate. }
  destruct (truthy tenantId); cbn [negb].
  2:{ split; [reflexivity|]. split; [reflexivity|].
      split; discriminate. }
  destruct ft as [msg|].
  { split; [reflexivity|]. split; [reflexivity|].
    split; discriminate. }
  split; [reflexivity|]. split; [|split].
  - intros [H|[H|H]]; discriminate.
  - intros _ _ _ ->. split; [reflexivity|]. intros r.
    cbn [q_data setLoading setData selected String.eqb Ascii.eqb Bool.eqb].
    rewrite In_order, filter_In.
    unfold query_keeps. rewrite andb_true_iff, sql_eq_Str. reflexivity.
  - intros _ _ _ r.
    cbn [q_data setLoading setData selected String.eqb Ascii.eqb Bool.eqb].
    rewrite In_order, filter_In.
    unfold query_keeps. rewrite andb_true_iff, sql_eq_Str.
    cbn [forallb entry_holds fst snd]. rewrite andb_true_r.
    assert (E : sql_eq (get "is_active" r) (Bool true) = true
                <-> get "is_active" r = Bool true).
    { destruct (get "is_active" r) as [|[|]| |]; cbn; split;
        try discriminate; reflexivity. }
    rewrite E. reflexivity.
Qed.

(** *** The record utilities *)

(** Lines 594-614.  The row that [createRecord] inserts belongs to the
    tenant it was called for and is dated by the utility, whatever the data
    hold under [tenant_id] and [created_at]; every other column comes from
    the data, or from the defaults of the table where the data do not name
    it; the rows that were there stay; a refused insert is thrown and
    leaves the table as it was. *)
Theorem createRecord_forces_the_tenant ft defaults now data tenantId rows :
  let sent := set "created_at" (Str now) (set "tenant_id" (Str tenantId) data) in
  let stored := merge defaults sent in
  get "tenant_id" stored = Str tenantId
  /\ get "created_at" stored = Str now
  /\ (forall k, k <> "tenant_id" -> k <> "created_at" ->
        lookup k stored
        = match lookup k data with
          | Some v => Some v
          | None => lookup k defaults
          end)
  /\ (ft = None ->
      createRecord ft defaults now data tenantId rows
      = (Returned stored, rows ++ [stored]))
  /\ (forall msg, ft = Some msg ->
        createRecord ft defaults now data tenantId rows = (Thrown msg, rows)).
Proof.
  intros sent stored. subst sent stored.
  split; [|split; [|split; [|split]]].
  - unfold get. rewrite lookup_merge.
    rewrite lookup_set_other by discriminate.
    rewrite lookup_set_same. reflexivity.
  - unfold get. rewrite lookup_merge, lookup_set_same. reflexivity.
  - intros k H1 H2. rewrite lookup_merge.
    rewrite lookup_set_other by exact H2.
    rewrite lookup_set_other by exact H1. reflexivity.
  - intros ->. reflexivity.
  - intros msg ->. reflexivity.
Qed.

Lemma nth_error_map_if {A : Type} (keep : A -> bool) (change : A -> A)
    (l : list A) i a :
  nth_error l i = Some a -> keep a = false ->
  nth_error (map (fun x => if keep x then change x else x) l) i = Some a.
Proof.
  intros Hn Hk. rewrite nth_error_map, Hn. cbn. rewrite Hk. reflexivity.
Qed.

(** Lines 617-658.  The two writes stay in the tenant they are called for:
    [updateRecord] leaves every row of another id or of another tenant
    where and as it was, and the table as long as it was; [deleteRecord]
    removes the rows of that id in that tenant and no other; it returns
    [true] whenever the call is not refused, also when no row was there to
    delete. *)
Theorem writes_stay_in_the_tenant ft now id data tenantId rows :
  let updated := snd (updateRecord ft now id data tenantId rows) in
  let deleted := deleteRecord ft id tenantId rows in
  (forall i r,
      nth_error rows i = Some r -> record_of id tenantId r = false ->
      nth_error updated i = Some r)
  /\ length updated = length rows
  /\ (forall r,
        In r rows -> record_of id tenantId r = false -> In r (snd deleted))
  /\ (forall r, In r (snd deleted) -> In r rows)
  /\ (ft = None ->
      fst deleted = Returned true
      /\ forall r, In r (snd deleted) -> record_of id tenantId r = false).
Proof.
  intros updated deleted. subst updated deleted.
  unfold updateRecord, deleteRecord.
  destruct ft as [msg|]; cbn [fst snd].
  { repeat split; try tauto; discriminate. }
  split; [|split; [|split; [|split]]].
  - intros i r Hn Hk.
    destruct (filter (record_of id tenantId) rows) as [|x [|y l]];
      cbn [snd]; try exact Hn.
    apply nth_error_map_if; assumption.
  - destruct (filter (record_of id tenantId) rows) as [|x [|y l]];
      cbn [snd]; try reflexivity.
    apply length_map.
  - intros r Hin Hk. apply filter_In. split; [exact Hin|].
    rewrite Hk. reflexivity.
  - intros r Hin. apply filter_In in Hin. tauto.
  - intros _. split; [reflexivity|]. intros r Hin.
    apply filter_In in Hin as [_ H]. apply negb_true_iff in H. exact H.
Qed.

(** Lines 617-639.  Unlike [updateProfile], [updateRecord] strips nothing
    from its data: when one row is there to update, the row it returns
    carries the time of the update, and its [tenant_id] and [id] are those
    of the data where the data name them: an update whose data name
    another tenant moves the row to that tenant. *)
Theorem updateRecord_does_not_guard_the_tenant now id data tenantId rows r :
  filter (record_of id tenantId) rows = [r] ->
  exists row,
    fst (updateRecord None now id data tenantId rows) = Returned row
    /\ In row (snd (updateRecord None now id data tenantId rows))
    /\ get "updated_at" row = Str now
    /\ get "tenant_id" row
       = match lookup "tenant_id" data with
         | Some v => v
         | None => Str tenantId
         end
    /\ get "id" row
       = match lookup "id" data with
         | Some v => v
         | None => Str id
         end.
Proof.
  intros Hf. unfold updateRecord. rewrite Hf. cbn [fst snd].
  exists (merge r (set "updated_at" (Str now) data)).
  assert (Hr : In r rows /\ record_of id tenantId r = true).
  { rewrite <- filter_In, Hf. left. reflexivity. }
  destruct Hr as [Hin Hk].
  unfold record_of in Hk. apply andb_true_iff in Hk as [Hi Ht].
  apply sql_eq_Str in Hi, Ht.
  split; [reflexivity|]. split; [|split; [|split]].
  - apply in_map_iff. exists r. split; [|exact Hin].
    unfold record_of. rewrite Hi, Ht. cbn. rewrite !String.eqb_refl.
    reflexivity.
  - unfold get. rewrite lookup_merge, lookup_set_same. reflexivity.
  - unfold get in *. rewrite lookup_merge.
    rewrite lookup_set_other by discriminate.
    destruct (lookup "tenant_id" data); [reflexivity|exact Ht].
  - unfold get in *. rewrite lookup_merge.
    rewrite lookup_set_other by discriminate.
    destruct (lookup "id" data); [reflexivity|exact Hi].
Qed.

Lemma updateRecord_does_not_guard_the_tenant_witness :
  snd (updateRecord None "2025-03-02T08:00:00.000Z" "s-1"
         [("tenant_id", Str "t-2"); ("first_name", Str "Tom")] "t-1"
         [[("id", Str "s-1"); ("tenant_id", Str "t-1");
           ("first_name", Str "Tim")]])
  = [[("updated_at", Str "2025-03-02T08:00:00.000Z");
      ("tenant_id", Str "t-2"); ("first_name", Str "Tom");
      ("id", Str "s-1")]]
  /\ exists row,
       fst (updateRecord None "2025-03-02T08:00:00.000Z" "s-1"
              [("tenant_id", Str "t-2"); ("first_name", Str "Tom")] "t-1"
              [[("id", Str "s-1"); ("tenant_id", Str "t-1");
                ("first_name", Str "Tim")]])
       = Returned row
       /\ get "tenant_id" row = Str "t-2".
Proof.
  split; [reflexivity|].
  destruct (updateRecord_does_not_guard_the_tenant "2025-03-02T08:00:00.000Z"
              "s-1" [("tenant_id", Str "t-2"); ("first_name", Str "Tom")]
              "t-1"
              [[("id", Str "s-1"); ("tenant_id", Str "t-1");
                ("first_name", Str "Tim")]]
              [("id", Str "s-1"); ("tenant_id", Str "t-1");
               ("first_name", Str "Tim")] eq_refl)
    as [row [H1 [_ [_ [H2 _]]]]].
  exists row. split; [exact H1|exact H2].
Defined.

End HooksFacts.


Module FormFacts.

Import JS Backend Binder BinderOutcome SignUpForm.

(** The sign-up of an admin with a named school, once the insert of the
    school went through, leaves the school in the backend whatever
    follows. *)
Lemma signUp_admin_school env email password d name st be :
  SchoolPatch.name d = Some name ->
  f_insertSchool env = None ->
  schools (snd (signUp env email password admin (Some d) st be))
  = schools be ++ [newSchool env d name].
Proof.
  intros Hn Hf. unfold signUp, signUp_school. rewrite Hn.
  unfold insertSchool. rewrite Hf. cbn [Backend.error data ok].
  destruct (a_error (signUp_reply env)); [reflexivity|].
  destruct (a_user (signUp_reply env)) as [u|]; [|reflexivity].
  unfold insertProfile, write.
  destruct (f_insertProfile env); cbn [Backend.error failed written];
    [reflexivity|].
  cbn [signUp_extension].
  destruct (a_session (signUp_reply env)); [|reflexivity].
  match goal with
  | |- context [fetchUserData ?fl ?n ?v ?st0 ?b] =>
      pose proof (BinderMore.fetchUserData_frame fl n v st0 b)
        as [_ [_ [_ [_ [Ko _]]]]];
      destruct (fetchUserData fl n v st0 b) as [[? ?] ?]
  end.
  cbn [fst snd] in *. unfold other_tables in Ko. injection Ko as -> _ _ _ _.
  reflexivity.
Qed.

Lemma signUp_default_schools env email password ro sd st be :
  ro <> admin \/ sd = None ->
  schools (snd (signUp env email password ro sd st be)) = schools be.
Proof.
  intros Hd. unfold signUp.
  rewrite (BinderMore.signUp_school_default env ro sd be Hd).
  destruct (a_error (signUp_reply env)); [reflexivity|].
  destruct (a_user (signUp_reply env)) as [u|]; [|reflexivity].
  unfold insertProfile, write.
  destruct (f_insertProfile env); cbn [Backend.error failed written];
    [reflexivity|].
  match goal with
  | |- context [signUp_extension env ro ?sid ?uid ?b] =>
      pose proof (BinderMore.signUp_extension_frame env ro sid uid b)
        as [Xs _];
      destruct (signUp_extension env ro sid uid b) as [s1 u1 p1 t1 te1 pa1]
  end.
  cbn [schools with_profiles with_users] in Xs. subst s1.
  destruct (a_session (signUp_reply env)); [|reflexivity].
  match goal with
  | |- context [fetchUserData ?fl ?n ?v ?st0 ?b] =>
      pose proof (BinderMore.fetchUserData_frame fl n v st0 b)
        as [_ [_ [_ [_ [Ko _]]]]];
      destruct (fetchUserData fl n v st0 b) as [[? ?] ?]
  end.
  cbn [fst snd] in *. unfold other_tables in Ko. injection Ko as -> _ _ _ _.
  reflexivity.
Qed.

(** Lines 39-78 over lines 261-386.  What the form makes of a sign-up.  An
    admin whose school is inserted gets a school that is on the free tier,
    active and limited to 500 students and 50 teachers, named and addressed
    as typed, whatever follows; a teacher or a parent creates no school,
    whatever was typed in the school fields; the alert is "Success!"
    exactly when the sign-up resolved to a success; and the first name, the
    last name and the confirmation of the password play no part in what
    happens. *)
Theorem form_sign_up env data st be :
  let out := onSubmit env data st be in
  (role data = admin -> f_insertSchool env = None ->
   schools (snd out)
   = schools be
     ++ [School.mk (new_school_id env) (schoolName data)
           (Some (schoolAddress data)) (Some (schoolPhone data))
           (Some (schoolEmail data)) None free active (Some 500%N)
           (Some 50%N) (now env) None])
  /\ (role data <> admin -> schools (snd out) = schools be)
  /\ (title (fst (fst out)) = "Success!" <->
      success
        (fst (fst (signUp env (email data) (password data) (role data)
                     (schoolData_of data) st be))) = true)
  /\ (forall confirm first last,
        onSubmit env
          (mkForm (email data) (password data) confirm (role data) first last
             (schoolName data) (schoolAddress data) (schoolPhone data)
             (schoolEmail data)) st be
        = out).
Proof.
  intros out. subst out. split; [|split; [|split]].
  - intros Hr Hf. unfold onSubmit, schoolData_of. rewrite Hr.
    pose proof (signUp_admin_school env (email data) (password data)
                  (SchoolPatch.mk (Some (schoolName data))
                     (Some (schoolAddress data)) (Some (schoolPhone data))
                     (Some (schoolEmail data)) (Some free) (Some active)
                     None None)
                  (schoolName data) st be eq_refl Hf) as K.
    destruct (signUp _ _ _ admin _ st be) as [[result st1] be1].
    cbn [snd] in K. destruct (success result); exact K.
  - intros Hr. unfold onSubmit.
    pose proof (signUp_default_schools env (email data) (password data)
                  (role data) (schoolData_of data) st be (or_introl Hr)) as K.
    destruct (signUp _ _ _ _ _ st be) as [[result st1] be1].
    cbn [snd] in K. destruct (success result); exact K.
  - unfold onSubmit.
    destruct (signUp _ _ _ _ _ st be) as [[result st1] be1]. cbn [fst].
    destruct (success result); cbn [fst title]; split; try reflexivity;
      discriminate.
  - intros confirm first last. destruct data. reflexivity.
Qed.

End FormFacts.


Module GradeFacts.

Import BinInt Grades.

Lemma ge_mono x y n : le x y = true -> ge x n = true -> ge y n = true.
Proof.
  destruct x as [| |a|], y as [| |b|]; cbn; try discriminate; try reflexivity.
  intros H1 H2. apply QArith_base.Qle_bool_iff in H1, H2.
  apply QArith_base.Qle_bool_iff. eapply QArith_base.Qle_trans; eassumption.
Qed.

Lemma ge_down x n m : (m <= n)%Z -> ge x n = true -> ge x m = true.
Proof.
  intros Hle. destruct x as [| |a|]; cbn; try discriminate; try reflexivity.
  intros H. apply QArith_base.Qle_bool_iff in H.
  apply QArith_base.Qle_bool_iff.
  eapply QArith_base.Qle_trans; [|exact H].
  rewrite <- QArith_base.Zle_Qle. exact Hle.
Qed.

(** A percentage that reaches a threshold gets at least the grade of that
    threshold. *)
Lemma reached_threshold x g n :
  threshold g = Some n -> ge x n = true ->
  (LETTER_GRADE_VALUES g <= LETTER_GRADE_VALUES (percentageToLetterGrade x))%Z.
Proof.
  intros Ht Hg. unfold percentageToLetterGrade.
  destruct g; cbn in Ht; try discriminate; injection Ht as <-;
    repeat match goal with
           | |- context [if ge x ?k then _ else _] =>
               let E := fresh "E" in
               destruct (ge x k) eqn:E;
               [first [ cbn; lia | congruence ]|]
           end;
    congruence.
Qed.


Lemma own_threshold x n :
  threshold (percentageToLetterGrade x) = Some n -> ge x n = true.
Proof.
  unfold percentageToLetterGrade.
  repeat match goal with
         | |- context [if ge x ?k then _ else _] =>
             let E := fresh "E" in
             destruct (ge x k) eqn:E;
             [cbn; intros H; injection H as <-; exact E|]
         end.
  discriminate.
Qed.

Lemma values_are_not_negative g : (0 <= LETTER_GRADE_VALUES g)%Z.
Proof. destruct g; cbn; lia. Qed.

(** Lines 469-493.  The conversion respects the order of the percentages:
    of two percentages, the greater never gets the smaller grade value.  A
    percentage reaches the threshold of the grade it gets and gets at least
    the grade of every threshold it reaches; it gets an F exactly when it
    does not reach 60, as does [NaN]. *)
Theorem percentageToLetterGrade_respects_the_order x y :
  (le x y = true ->
   (LETTER_GRADE_VALUES (percentageToLetterGrade x)
    <= LETTER_GRADE_VALUES (percentageToLetterGrade y))%Z)
  /\ (forall n, threshold (percentageToLetterGrade x) = Some n ->
                ge x n = true)
  /\ (forall g n, threshold g = Some n -> ge x n = true ->
        (LETTER_GRADE_VALUES g
         <= LETTER_GRADE_VALUES (percentageToLetterGrade x))%Z)
  /\ (percentageToLetterGrade x = F <-> ge x 60 = false)
  /\ percentageToLetterGrade NaN = F.
Proof.
  split; [|split; [|split; [|split]]].
  - intros Hle.
    destruct (threshold (percentageToLetterGrade x)) as [n|] eqn:T.
    + apply (reached_threshold y _ n T).
      apply (ge_mono x y n Hle). apply own_threshold. exact T.
    + destruct (percentageToLetterGrade x); try discriminate.
      apply values_are_not_negative.
  - apply own_threshold.
  - intros g n. apply reached_threshold.
  - split.
    + intros H. destruct (ge x 60) eqn:E; [|reflexivity].
      pose proof (reached_threshold x D_minus 60 eq_refl E) as K.
      rewrite H in K. cbn in K. lia.
    + intros H. unfold percentageToLetterGrade.
      repeat match goal with
             | |- context [if ge x ?k then _ else _] =>
                 let E := fresh "E" in
                 destruct (ge x k) eqn:E;
                 [first [ discriminate
                        | rewrite (ge_down x k 60) in H;
                          [discriminate|lia|exact E] ]|]
             end.
      reflexivity.
  - reflexivity.
Qed.

End GradeFacts.


(* ===================================================================== *)
(** ** One invariant of both programs *)
(* ===================================================================== *)

Module Invariants.

Import Backend.

(** Lines 167-178 of the provisioner and lines 301-311 of the provider.
    Both programs hand an e-mail to the identity provider in lower case and
    never change the e-mail of an identity: if every identity of the
    backend has its e-mail in lower case, so it has after any request to the
    provisioner and after any operation of the provider, whatever fails. *)
Theorem emails_stay_lower_cased :
  (forall env f req w,
      emails_lower_cased (Provisioner.db w) = true ->
      emails_lower_cased
        (Provisioner.db (snd (Provisioner.serve env f req w))) = true)
  /\ (forall env op st be,
         emails_lower_cased be = true ->
         emails_lower_cased (snd (Binder.step env op st be)) = true).
Proof.
  split.
  - apply ProvisionerFacts.serve_keeps_emails_lower_cased.
  - apply BinderFacts.step_keeps_emails_lower_cased.
Qed.

End Invariants.
